(** * service-identity: credential lifecycle and optimistic concurrency

    A shallow embedding of the identity service:
    - [identity]: the domain package (Email, Phone, User, RefreshToken);
    - [repository]: the GORM repositories over a relational store;
    - [application]: AuthService, written against the repository
      interfaces as the Go code is.
    The rest of the service follows the same lines:
    - [referral], [referral_repository], [referral_service]: referrals and
      referral codes, their two tables and ReferralService;
    - [admin]: the listing and statistics the admin handler reads.

    Conventions.  A Go [string] is a [string] of bytes.  [uuid.UUID] is the
    number its 16 bytes spell.  [time.Time] is an instant counted in
    nanoseconds; a method that reads [time.Now()] takes the instant it reads as
    an argument.  [int64] is a [Z] with the wrap-around written out. *)

From Stdlib Require Import ZArith NArith List String Ascii Bool Lia.
From Stdlib Require Import DecimalString Permutation.
Import ListNotations.

Set Implicit Arguments.
Local Open Scope string_scope.
Local Open Scope Z_scope.

(* ================================================================== *)
(** * Go base types *)

Definition UUID := N.
Bind Scope N_scope with UUID.
Definition Time := Z.
Definition Duration := Z.

Module time.
Definition Nanosecond : Duration := 1.
Definition Second : Duration := 1000000000 * Nanosecond.
Definition Minute : Duration := 60 * Second.
Definition Hour : Duration := 60 * Minute.

(** [t.Add(d)] *)
Definition Add (t : Time) (d : Duration) : Time := t + d.
(** [t.After(u)]: t is strictly later than u *)
Definition After (t u : Time) : bool := u <? t.
(** the zero [time.Time], January 1 of year 1, in nanoseconds from the
    Unix epoch *)
Definition zero : Time := -62135596800 * Second.
Definition IsZero (t : Time) : bool := t =? zero.
End time.

Module int64.
Definition min : Z := - 2 ^ 63.
Definition max : Z := 2 ^ 63 - 1.
(** two's-complement reduction of an integer into the int64 range *)
Definition wrap (z : Z) : Z := (z + 2 ^ 63) mod 2 ^ 64 - 2 ^ 63.
Definition add (a b : Z) : Z := wrap (a + b).
Definition sub (a b : Z) : Z := wrap (a - b).
End int64.

(* ================================================================== *)
(** * Package strings: TrimSpace, ToLower *)

Module strings.

Fixpoint is_prefix (p s : list ascii) : option (list ascii) :=
  match p, s with
  | [], _ => Some s
  | a :: p', b :: s' => if Ascii.eqb a b then is_prefix p' s' else None
  | _ :: _, [] => None
  end.

Fixpoint strip_any (ps : list (list ascii)) (s : list ascii)
  : option (list ascii) :=
  match ps with
  | [] => None
  | p :: ps' =>
      match is_prefix p s with
      | Some r => Some r
      | None => strip_any ps' s
      end
  end.

Definition bytes (l : list nat) : list ascii := map ascii_of_nat l.

(** The UTF-8 encodings of the runes for which [unicode.IsSpace] holds:
    TAB..CR, SPACE, U+0085, U+00A0, U+1680, U+2000..U+200A, U+2028, U+2029,
    U+202F, U+205F, U+3000. *)
Definition space_encodings : list (list ascii) :=
  map bytes
    [ [9]; [10]; [11]; [12]; [13]; [32];
      [194; 133]; [194; 160];
      [225; 154; 128];
      [226; 128; 128]; [226; 128; 129]; [226; 128; 130]; [226; 128; 131];
      [226; 128; 132]; [226; 128; 133]; [226; 128; 134]; [226; 128; 135];
      [226; 128; 136]; [226; 128; 137]; [226; 128; 138];
      [226; 128; 168]; [226; 128; 169]; [226; 128; 175];
      [226; 129; 159];
      [227; 128; 128] ]%nat.

Fixpoint trim_with (ps : list (list ascii)) (fuel : nat) (s : list ascii)
  : list ascii :=
  match fuel with
  | O => s
  | S fuel' =>
      match strip_any ps s with
      | Some r => trim_with ps fuel' r
      | None => s
      end
  end.

Definition TrimLeft (s : list ascii) : list ascii :=
  trim_with space_encodings (List.length s) s.

Definition TrimRight (s : list ascii) : list ascii :=
  rev (trim_with (map (@rev ascii) space_encodings) (List.length s) (rev s)).

(** [strings.TrimSpace]: leading and trailing white space removed *)
Definition TrimSpace (s : string) : string :=
  string_of_list_ascii (TrimRight (TrimLeft (list_ascii_of_string s))).

Definition is_upper (c : ascii) : bool :=
  ((65 <=? nat_of_ascii c) && (nat_of_ascii c <=? 90))%nat.

Definition lower_byte (c : ascii) : ascii :=
  if is_upper c then ascii_of_nat (nat_of_ascii c + 32) else c.

(** [strings.ToLower] on the bytes 'A'..'Z'; it is applied only to text
    that [emailRegexp] has matched, which is ASCII *)
Fixpoint ToLower (s : string) : string :=
  match s with
  | EmptyString => EmptyString
  | String c s' => String (lower_byte c) (ToLower s')
  end.

End strings.

(* ================================================================== *)
(** * Package regexp: the fragment the two patterns use *)

Module regexp.

Inductive t : Type :=
| Void : t
| Eps : t
| Class : (ascii -> bool) -> t
| Seq : t -> t -> t
| Alt : t -> t -> t
| Star : t -> t.

(** [r?], [r+], [r{n}], [r{n,}], [r{m,n}] *)
Definition Opt (r : t) : t := Alt Eps r.
Definition Plus (r : t) : t := Seq r (Star r).
Fixpoint Exactly (n : nat) (r : t) : t :=
  match n with
  | O => Eps
  | S n' => Seq r (Exactly n' r)
  end.
Definition AtLeast (n : nat) (r : t) : t := Seq (Exactly n r) (Star r).
Definition Between (m n : nat) (r : t) : t :=
  Seq (Exactly m r) (Exactly (n - m) (Opt r)).

Definition Chr (c : ascii) : t := Class (Ascii.eqb c).

Definition in_range (lo hi c : ascii) : bool :=
  ((nat_of_ascii lo <=? nat_of_ascii c)
   && (nat_of_ascii c <=? nat_of_ascii hi))%nat.

Fixpoint nullable (r : t) : bool :=
  match r with
  | Void => false
  | Eps => true
  | Class _ => false
  | Seq a b => nullable a && nullable b
  | Alt a b => nullable a || nullable b
  | Star _ => true
  end.

(** Brzozowski derivative *)
Fixpoint deriv (c : ascii) (r : t) : t :=
  match r with
  | Void => Void
  | Eps => Void
  | Class p => if p c then Eps else Void
  | Seq a b =>
      if nullable a
      then Alt (Seq (deriv c a) b) (deriv c b)
      else Seq (deriv c a) b
  | Alt a b => Alt (deriv c a) (deriv c b)
  | Star a => Seq (deriv c a) (Star a)
  end.

(** [re.MatchString(s)] for a pattern anchored by [^] and [$]: the whole
    of [s] is in the language *)
Fixpoint MatchString (r : t) (s : string) : bool :=
  match s with
  | EmptyString => nullable r
  | String c s' => MatchString (deriv c r) s'
  end.

End regexp.

(* ================================================================== *)
(** * Errors *)

(** The error values that travel through the service.  The first six are the
    constructors and the sentinel of the shared domain-error package; [New] is
    [errors.New] or [fmt.Errorf] without a wrapped cause; [Wrap p e] is
    [fmt.Errorf(p + ": %w", e)]; the last two are what the database driver
    reports for a statement that breaks a key or a column constraint. *)
Inductive Error : Type :=
| ErrNotFound : Error
| NewAlreadyExistsError (entity field value : string) : Error
| NewValidationError (msg : string) : Error
| NewUnauthorizedError (msg : string) : Error
| NewNotFoundError (entity id : string) : Error
| NewConflictError (msg : string) : Error
| New (msg : string) : Error
| Wrap (prefix : string) (cause : Error) : Error
| UniqueViolation (table column : string) : Error
| CheckViolation (table : string) : Error.

(** [err.Error()].  The service asks for the text of one kind of error
    only, the [New] errors of [NewUser]; the text is Go's for [New] and
    [Wrap], and the other errors render as their arguments. *)
Fixpoint Error_string (e : Error) : string :=
  match e with
  | ErrNotFound => "not found"
  | NewAlreadyExistsError entity field value =>
      entity ++ " " ++ field ++ " " ++ value
  | NewValidationError msg => msg
  | NewUnauthorizedError msg => msg
  | NewNotFoundError entity id => entity ++ " " ++ id
  | NewConflictError msg => msg
  | New msg => msg
  | Wrap prefix cause => prefix ++ ": " ++ Error_string cause
  | UniqueViolation table column => table ++ " " ++ column
  | CheckViolation table => table
  end.

(** The taxonomy callers see. *)
Inductive Kind : Type :=
| AlreadyExists | Validation | Unauthorized | NotFound | Conflict | Internal.

(** The kind of an error, looking through [%w] wrapping the way [errors.As]
    does; what is not a domain error is [Internal]. *)
Fixpoint kind (e : Error) : Kind :=
  match e with
  | ErrNotFound => NotFound
  | NewAlreadyExistsError _ _ _ => AlreadyExists
  | NewValidationError _ => Validation
  | NewUnauthorizedError _ => Unauthorized
  | NewNotFoundError _ _ => NotFound
  | NewConflictError _ => Conflict
  | New _ => Internal
  | Wrap _ cause => kind cause
  | UniqueViolation _ _ => Internal
  | CheckViolation _ => Internal
  end.

(** A Go result pair [(a, err)] with exactly one side set. *)
Inductive result (A : Type) : Type :=
| Ok : A -> result A
| Fail : Error -> result A.
Arguments Ok {A} _.
Arguments Fail {A} _.

Definition is_ok {A} (r : result A) : bool :=
  match r with Ok _ => true | Fail _ => false end.

(** one hexadecimal digit, lower case *)
Definition hex_digit (n : N) : ascii :=
  match n with
  | 0 => "0" | 1 => "1" | 2 => "2" | 3 => "3" | 4 => "4" | 5 => "5"
  | 6 => "6" | 7 => "7" | 8 => "8" | 9 => "9" | 10 => "a" | 11 => "b"
  | 12 => "c" | 13 => "d" | 14 => "e" | _ => "f"
  end%N%char.

(** the low [digits] hexadecimal digits of [n], before [tail] *)
Fixpoint hex_of (digits : nat) (n : N) (tail : string) : string :=
  match digits with
  | O => tail
  | S d => hex_of d (N.shiftr n 4) (String (hex_digit (N.land n 15)) tail)
  end.

(** [uuid.UUID.String()]: the sixteen bytes in hexadecimal, in groups of 8,
    4, 4, 4 and 12 digits.  A UUID is the number that its bytes spell, the
    first byte the most significant. *)
Definition UUID_String (u : UUID) : string :=
  hex_of 8 (N.shiftr u 96)
    (String "-" (hex_of 4 (N.shiftr u 80)
       (String "-" (hex_of 4 (N.shiftr u 64)
          (String "-" (hex_of 4 (N.shiftr u 48)
             (String "-" (hex_of 12 u EmptyString)))))))).

(* ================================================================== *)
(** * Package identity: value objects and entities *)

Module identity.

Import regexp.

Definition UserRole := string.

(* ---- phone.go ---- *)

Definition digit : ascii -> bool := in_range "0" "9".

(** [^\+?[0-9]{7,15}$] *)
Definition phoneRegexp : regexp.t :=
  Seq (Opt (Chr "+")) (Between 7 15 (Class digit)).

Record Phone : Type := mkPhone { phone_value : string }.

Definition NewPhone (raw : string) : result Phone :=
  let trimmed := strings.TrimSpace raw in
  if String.eqb trimmed "" then Ok (mkPhone "")
  else if negb (MatchString phoneRegexp trimmed)
       then Fail (New ("invalid phone format: " ++ trimmed))
       else Ok (mkPhone trimmed).

(* ---- email.go ---- *)

Definition alpha (c : ascii) : bool :=
  in_range "a" "z" c || in_range "A" "Z" c.
Definition one_of (cs : string) (c : ascii) : bool :=
  existsb (Ascii.eqb c) (list_ascii_of_string cs).
Definition local_char (c : ascii) : bool :=
  alpha c || digit c || one_of "._%+-" c.
Definition domain_char (c : ascii) : bool :=
  alpha c || digit c || one_of ".-" c.

(** [^[a-zA-Z0-9._%+\-]+@[a-zA-Z0-9.\-]+\.[a-zA-Z]{2,}$] *)
Definition emailRegexp : regexp.t :=
  Seq (Plus (Class local_char))
    (Seq (Chr "@")
       (Seq (Plus (Class domain_char))
          (Seq (Chr ".") (AtLeast 2 (Class alpha))))).

Record Email : Type := mkEmail { email_value : string }.

Definition NewEmail (raw : string) : result Email :=
  let trimmed := strings.TrimSpace raw in
  if String.eqb trimmed "" then Fail (New "email is required")
  else if negb (MatchString emailRegexp trimmed)
       then Fail (New ("invalid email format: " ++ trimmed))
       else Ok (mkEmail (strings.ToLower trimmed)).

(* ---- user.go ---- *)

Module User.

Record t : Type := mk {
  id : UUID;
  email : Email;
  phone : Phone;
  passwordHash : string;
  fullName : string;
  role : UserRole;
  isVerified : bool;
  avatarURL : string;
  version : Z;
  createdAt : Time;
  updatedAt : Time
}.

(* getters *)
Definition ID (u : t) : UUID := id u.
Definition Email (u : t) : string := email_value (email u).
Definition Phone (u : t) : string := phone_value (phone u).
Definition PasswordHash (u : t) : string := passwordHash u.
Definition FullName (u : t) : string := fullName u.
Definition Role (u : t) : UserRole := role u.
Definition IsVerified (u : t) : bool := isVerified u.
Definition AvatarURL (u : t) : string := avatarURL u.
Definition Version (u : t) : Z := version u.
Definition CreatedAt (u : t) : Time := createdAt u.
Definition UpdatedAt (u : t) : Time := updatedAt u.

(* field assignments [u.f = v] *)
Definition set_phone (v : identity.Phone) (u : t) : t :=
  mk (id u) (email u) v (passwordHash u) (fullName u) (role u)
     (isVerified u) (avatarURL u) (version u) (createdAt u) (updatedAt u).
Definition set_passwordHash (v : string) (u : t) : t :=
  mk (id u) (email u) (phone u) v (fullName u) (role u)
     (isVerified u) (avatarURL u) (version u) (createdAt u) (updatedAt u).
Definition set_fullName (v : string) (u : t) : t :=
  mk (id u) (email u) (phone u) (passwordHash u) v (role u)
     (isVerified u) (avatarURL u) (version u) (createdAt u) (updatedAt u).
Definition set_isVerified (v : bool) (u : t) : t :=
  mk (id u) (email u) (phone u) (passwordHash u) (fullName u) (role u)
     v (avatarURL u) (version u) (createdAt u) (updatedAt u).
Definition set_avatarURL (v : string) (u : t) : t :=
  mk (id u) (email u) (phone u) (passwordHash u) (fullName u) (role u)
     (isVerified u) v (version u) (createdAt u) (updatedAt u).
Definition set_version (v : Z) (u : t) : t :=
  mk (id u) (email u) (phone u) (passwordHash u) (fullName u) (role u)
     (isVerified u) (avatarURL u) v (createdAt u) (updatedAt u).
Definition set_updatedAt (v : Time) (u : t) : t :=
  mk (id u) (email u) (phone u) (passwordHash u) (fullName u) (role u)
     (isVerified u) (avatarURL u) (version u) (createdAt u) v.

(** [Verify]; [now] is the [time.Now().UTC()] it reads *)
Definition Verify (now : Time) (u : t) : t :=
  set_updatedAt now (set_isVerified true u).

Definition UpdateProfile (fullName phone avatarURL : string) (now : Time)
    (u : t) : t :=
  let u := if negb (String.eqb fullName "")
           then set_fullName fullName u else u in
  let u := if negb (String.eqb phone "")
           then set_phone (mkPhone phone) u else u in
  let u := if negb (String.eqb avatarURL "")
           then set_avatarURL avatarURL u else u in
  set_updatedAt now u.

Definition ChangePassword (newHash : string) (now : Time) (u : t) : t :=
  set_updatedAt now (set_passwordHash newHash u).

Definition Deactivate (now : Time) (u : t) : t :=
  set_updatedAt now (set_isVerified false u).

(** [u.version++] on an int64 *)
Definition IncrementVersion (now : Time) (u : t) : t :=
  set_updatedAt now (set_version (int64.add (version u) 1) u).

End User.

(** [NewUser]; [id] is the [uuid.New()] and [now] the [time.Now().UTC()] it
    reads *)
Definition NewUser (email phone fullName passwordHash : string)
    (role : UserRole) (id : UUID) (now : Time) : result User.t :=
  match NewEmail email with
  | Fail err => Fail err
  | Ok emailVO =>
      match NewPhone phone with
      | Fail err => Fail err
      | Ok phoneVO =>
          if String.eqb fullName "" then Fail (New "full name is required")
          else if String.eqb passwordHash ""
               then Fail (New "password hash is required")
               else Ok (User.mk id emailVO phoneVO passwordHash fullName
                          role false "" 1 now now)
      end
  end.

(** [ReconstructUser]: no validation *)
Definition ReconstructUser (id : UUID)
    (email phone passwordHash fullName : string) (role : UserRole)
    (isVerified : bool) (avatarURL : string) (version : Z)
    (createdAt updatedAt : Time) : User.t :=
  User.mk id (mkEmail email) (mkPhone phone) passwordHash fullName role
          isVerified avatarURL version createdAt updatedAt.

(* ---- refresh_token.go ---- *)

Module RefreshToken.

Record t : Type := mk {
  id : UUID;
  userID : UUID;
  token : string;
  expiresAt : Time;
  revoked : bool;
  createdAt : Time
}.

Definition ID (t0 : t) : UUID := id t0.
Definition UserID (t0 : t) : UUID := userID t0.
Definition Token (t0 : t) : string := token t0.
Definition ExpiresAt (t0 : t) : Time := expiresAt t0.
Definition Revoked (t0 : t) : bool := revoked t0.
Definition CreatedAt (t0 : t) : Time := createdAt t0.

Definition Revoke (t0 : t) : t :=
  mk (id t0) (userID t0) (token t0) (expiresAt t0) true (createdAt t0).

(** [time.Now().UTC().After(t.expiresAt)] with [now] the instant read *)
Definition IsExpired (now : Time) (t0 : t) : bool :=
  time.After now (expiresAt t0).

Definition IsValid (now : Time) (t0 : t) : bool :=
  negb (revoked t0) && negb (IsExpired now t0).

End RefreshToken.

Definition NewRefreshToken (userID : UUID) (token : string)
    (expiresAt : Time) (id : UUID) (now : Time) : RefreshToken.t :=
  RefreshToken.mk id userID token expiresAt false now.

Definition ReconstructRefreshToken (id userID : UUID) (token : string)
    (expiresAt : Time) (revoked : bool) (createdAt : Time)
    : RefreshToken.t :=
  RefreshToken.mk id userID token expiresAt revoked createdAt.

(* ---- repository.go ---- *)

(** An operation on a store [W]: it ends in a value or an error, and leaves
    a store behind either way (nothing is rolled back). *)
Definition M (W A : Type) : Type := W -> result A * W.

(** [UserRepository] (the two listing methods of the admin read paths are
    left out) *)
Record UserRepository (W : Type) : Type := {
  UserRepository_FindByID : UUID -> M W User.t;
  UserRepository_FindByEmail : string -> M W User.t;
  UserRepository_Save : User.t -> M W unit;
  UserRepository_Update : User.t -> M W unit
}.

(** [TokenRepository].  [FindByToken] hands out a value: what the caller
    then does to it stays with the caller. *)
Record TokenRepository (W : Type) : Type := {
  TokenRepository_Save : RefreshToken.t -> M W unit;
  TokenRepository_FindByToken : string -> M W RefreshToken.t;
  TokenRepository_RevokeAllForUser : UUID -> M W unit
}.

End identity.

(* ================================================================== *)
(** * Package repository: GORM models over a relational store *)

Module repository.

Import identity.

(* ---- user_repository.go ---- *)

Module UserModel.
Record t : Type := mk {
  ID : UUID;
  Email : string;
  Phone : string;
  PasswordHash : string;
  FullName : string;
  Role : UserRole;
  IsVerified : bool;
  AvatarURL : string;
  Version : Z;
  CreatedAt : Time;
  UpdatedAt : Time
}.

Definition toDomain (m : t) : User.t :=
  ReconstructUser (ID m) (Email m) (Phone m) (PasswordHash m)
    (FullName m) (Role m) (IsVerified m) (AvatarURL m) (Version m)
    (CreatedAt m) (UpdatedAt m).
End UserModel.

Definition fromDomainUser (u : User.t) : UserModel.t :=
  UserModel.mk (User.ID u) (User.Email u) (User.Phone u)
    (User.PasswordHash u) (User.FullName u) (User.Role u)
    (User.IsVerified u) (User.AvatarURL u) (User.Version u)
    (User.CreatedAt u) (User.UpdatedAt u).

(* ---- token_repository.go ---- *)

Module RefreshTokenModel.
Record t : Type := mk {
  ID : UUID;
  UserID : UUID;
  Token : string;
  ExpiresAt : Time;
  Revoked : bool;
  CreatedAt : Time
}.

Definition toDomain (m : t) : RefreshToken.t :=
  ReconstructRefreshToken (ID m) (UserID m) (Token m) (ExpiresAt m)
    (Revoked m) (CreatedAt m).
End RefreshTokenModel.

Definition fromDomainRefreshToken (t0 : RefreshToken.t)
    : RefreshTokenModel.t :=
  RefreshTokenModel.mk (RefreshToken.ID t0) (RefreshToken.UserID t0)
    (RefreshToken.Token t0) (RefreshToken.ExpiresAt t0)
    (RefreshToken.Revoked t0) (RefreshToken.CreatedAt t0).

(* ---- the store behind *gorm.DB ---- *)

(** The rows of the two tables, in insertion order.  A statement fails for
    what it asks of the data; a statement that no data can make fail fails
    when the database cannot be reached ([unavailable] below). *)
Record Store : Type := mkStore {
  users : list UserModel.t;
  refresh_tokens : list RefreshTokenModel.t
}.

(** The statements that no data can make fail: the bulk UPDATE of
    [revoked] in [RevokeAllForUser], the count and the page of [ListAll],
    the grouped count of [CountByRole]. *)
Inductive Statement : Type :=
| UPDATE_revoked
| COUNT_users
| SELECT_users_page
| COUNT_by_role.

(** What a [*gorm.DB] handle fixes once and for all: the column-level
    constraints of each table (types and lengths, NOT NULL, CHECK), as the
    database decides them.  They depend on how the schema was made: the
    SQL migration adds a CHECK on [role] that AutoMigrate does not.
    [unavailable q] is the error that the statement [q] meets when the
    database cannot be reached, [None] when it can.  [NowFunc] is what the
    [NowFunc] of the handle's configuration reads off the clock for the
    statement it stamps. *)
Record DB : Type := mkDB {
  users_columns : UserModel.t -> bool;
  refresh_tokens_columns : RefreshTokenModel.t -> bool;
  unavailable : Statement -> option Error;
  NowFunc : Time
}.

Module gorm.

(** The [*gorm.DB] a statement returns: [.Error] and [.RowsAffected]. *)
Record Result : Type := mkResult {
  Error : option Error;
  RowsAffected : Z
}.

Fixpoint distinct {K} (eqb : K -> K -> bool) (l : list K) : bool :=
  match l with
  | [] => true
  | k :: l' => negb (existsb (eqb k) l') && distinct eqb l'
  end.

Definition count {A} (p : A -> bool) (l : list A) : Z :=
  Z.of_nat (List.length (filter p l)).

(** [Create(model)] on [users]: INSERT under the column constraints, the
    primary key and the unique index on email.  Rows are built by
    [NewUser]: their id, version and timestamps are never the zero value,
    so no column default steps in. *)
Definition Create_users (db : DB) (model : UserModel.t) (st : Store)
    : Result * Store :=
  if negb (users_columns db model)
  then (mkResult (Some (CheckViolation "users")) 0, st)
  else if existsb (fun r => N.eqb (UserModel.ID r) (UserModel.ID model))
            (users st)
  then (mkResult (Some (UniqueViolation "users" "id")) 0, st)
  else if existsb
            (fun r => String.eqb (UserModel.Email r) (UserModel.Email model))
            (users st)
  then (mkResult (Some (UniqueViolation "users" "email")) 0, st)
  else (mkResult None 1,
        mkStore (users st ++ [model])%list (refresh_tokens st)).

(** [Create(model)] on [refresh_tokens]: primary key and unique index on
    token. *)
Definition Create_refresh_tokens (db : DB) (model : RefreshTokenModel.t)
    (st : Store) : Result * Store :=
  if negb (refresh_tokens_columns db model)
  then (mkResult (Some (CheckViolation "refresh_tokens")) 0, st)
  else if existsb
            (fun r => N.eqb (RefreshTokenModel.ID r)
                        (RefreshTokenModel.ID model))
            (refresh_tokens st)
  then (mkResult (Some (UniqueViolation "refresh_tokens" "id")) 0, st)
  else if existsb
            (fun r => String.eqb (RefreshTokenModel.Token r)
                        (RefreshTokenModel.Token model))
            (refresh_tokens st)
  then (mkResult (Some (UniqueViolation "refresh_tokens" "token")) 0, st)
  else (mkResult None 1,
        mkStore (users st) (refresh_tokens st ++ [model])%list).

(** [Where(cond).First(&model)]; every lookup of the repositories is by a
    key column, so there is at most one row to find *)
Definition First {A} (cond : A -> bool) (rows : list A) : result A :=
  match find cond rows with
  | Some r => Ok r
  | None => Fail ErrNotFound
  end.

(** The row an UPDATE built by [Updates(model)] from a struct leaves in
    place of [old]: GORM writes the fields of [model] that are not the
    zero value of their type (the empty string, [false], [0], the nil
    UUID, the zero time) and leaves every other column as it is, but for
    [updated_at], which it stamps with [now], its own reading of the
    clock, whatever the struct holds. *)
Definition assign (now : Time) (model old : UserModel.t) : UserModel.t :=
  UserModel.mk
    (if N.eqb (UserModel.ID model) 0
     then UserModel.ID old else UserModel.ID model)
    (if String.eqb (UserModel.Email model) ""
     then UserModel.Email old else UserModel.Email model)
    (if String.eqb (UserModel.Phone model) ""
     then UserModel.Phone old else UserModel.Phone model)
    (if String.eqb (UserModel.PasswordHash model) ""
     then UserModel.PasswordHash old else UserModel.PasswordHash model)
    (if String.eqb (UserModel.FullName model) ""
     then UserModel.FullName old else UserModel.FullName model)
    (if String.eqb (UserModel.Role model) ""
     then UserModel.Role old else UserModel.Role model)
    (if negb (UserModel.IsVerified model)
     then UserModel.IsVerified old else UserModel.IsVerified model)
    (if String.eqb (UserModel.AvatarURL model) ""
     then UserModel.AvatarURL old else UserModel.AvatarURL model)
    (if Z.eqb (UserModel.Version model) 0
     then UserModel.Version old else UserModel.Version model)
    (if time.IsZero (UserModel.CreatedAt model)
     then UserModel.CreatedAt old else UserModel.CreatedAt model)
    now.

(** [Model(&UserModel{}).Where(cond).Updates(model)]: one UPDATE
    statement.  Every row that satisfies [cond] is rewritten by [assign];
    the statement fails as a whole, changing nothing, if a rewritten row
    breaks a column constraint or the table would hold a key twice.  With
    no row to rewrite there is nothing to check. *)
Definition Updates_users (db : DB) (cond : UserModel.t -> bool)
    (model : UserModel.t) (st : Store) : Result * Store :=
  let rows := map (fun r => if cond r then assign (NowFunc db) model r
                            else r)
                  (users st) in
  if Z.eqb (count cond (users st)) 0
  then (mkResult None 0, st)
  else if negb (forallb (fun r => users_columns db
                                    (assign (NowFunc db) model r))
                  (filter cond (users st)))
  then (mkResult (Some (CheckViolation "users")) 0, st)
  else if negb (distinct N.eqb (map UserModel.ID rows))
  then (mkResult (Some (UniqueViolation "users" "id")) 0, st)
  else if negb (distinct String.eqb (map UserModel.Email rows))
  then (mkResult (Some (UniqueViolation "users" "email")) 0, st)
  else (mkResult None (count cond (users st)),
        mkStore rows (refresh_tokens st)).

(** [Model(&RefreshTokenModel{}).Where(cond).Update("revoked", v)]: no row
    it writes can break a constraint, so the statement fails only when the
    database cannot be reached, and then writes nothing *)
Definition Update_revoked (db : DB) (cond : RefreshTokenModel.t -> bool)
    (v : bool) (st : Store) : Result * Store :=
  let set (r : RefreshTokenModel.t) :=
    RefreshTokenModel.mk (RefreshTokenModel.ID r)
      (RefreshTokenModel.UserID r) (RefreshTokenModel.Token r)
      (RefreshTokenModel.ExpiresAt r) v (RefreshTokenModel.CreatedAt r) in
  match unavailable db UPDATE_revoked with
  | Some err => (mkResult (Some err) 0, st)
  | None =>
      (mkResult None (count cond (refresh_tokens st)),
       mkStore (users st)
         (map (fun r => if cond r then set r else r) (refresh_tokens st)))
  end.

End gorm.

(** A statement's outcome as a Go [error] return. *)
Definition error_of (r : gorm.Result) : result unit :=
  match gorm.Error r with
  | Some err => Fail err
  | None => Ok tt
  end.

(* ---- GormUserRepository ---- *)

Module GormUserRepository.

Definition FindByID (db : DB) (id : UUID) : M Store User.t :=
  fun st =>
    match gorm.First (fun m => N.eqb (UserModel.ID m) id) (users st) with
    | Fail err => (Fail err, st)
    | Ok model => (Ok (UserModel.toDomain model), st)
    end.

Definition FindByEmail (db : DB) (email : string) : M Store User.t :=
  fun st =>
    match gorm.First (fun m => String.eqb (UserModel.Email m) email)
            (users st) with
    | Fail err => (Fail err, st)
    | Ok model => (Ok (UserModel.toDomain model), st)
    end.

Definition Save (db : DB) (user : User.t) : M Store unit :=
  fun st =>
    let model := fromDomainUser user in
    let '(res, st') := gorm.Create_users db model st in
    (error_of res, st').

(** optimistic locking: [WHERE id = ? AND version = ?] on
    [model.Version-1] *)
Definition Update (db : DB) (user : User.t) : M Store unit :=
  fun st =>
    let model := fromDomainUser user in
    let '(res, st') :=
      gorm.Updates_users db
        (fun r => N.eqb (UserModel.ID r) (UserModel.ID model)
                  && Z.eqb (UserModel.Version r)
                       (int64.sub (UserModel.Version model) 1))
        model st in
    match gorm.Error res with
    | Some err => (Fail err, st')
    | None =>
        if Z.eqb (gorm.RowsAffected res) 0
        then (Fail (NewConflictError
                      "user was modified by another transaction"), st')
        else (Ok tt, st')
    end.

End GormUserRepository.

Definition NewGormUserRepository (db : DB) : UserRepository Store :=
  {| UserRepository_FindByID := GormUserRepository.FindByID db;
     UserRepository_FindByEmail := GormUserRepository.FindByEmail db;
     UserRepository_Save := GormUserRepository.Save db;
     UserRepository_Update := GormUserRepository.Update db |}.

(* ---- GormTokenRepository ---- *)

Module GormTokenRepository.

Definition Save (db : DB) (token : RefreshToken.t) : M Store unit :=
  fun st =>
    let model := fromDomainRefreshToken token in
    let '(res, st') := gorm.Create_refresh_tokens db model st in
    (error_of res, st').

Definition FindByToken (db : DB) (token : string)
    : M Store RefreshToken.t :=
  fun st =>
    match gorm.First
            (fun m => String.eqb (RefreshTokenModel.Token m) token)
            (refresh_tokens st) with
    | Fail err => (Fail err, st)
    | Ok model => (Ok (RefreshTokenModel.toDomain model), st)
    end.

(** [WHERE user_id = ? AND revoked = false], set [revoked] to true *)
Definition RevokeAllForUser (db : DB) (userID : UUID) : M Store unit :=
  fun st =>
    let '(res, st') :=
      gorm.Update_revoked db
        (fun r => N.eqb (RefreshTokenModel.UserID r) userID
                  && Bool.eqb (RefreshTokenModel.Revoked r) false)
        true st in
    (error_of res, st').

End GormTokenRepository.

Definition NewGormTokenRepository (db : DB) : TokenRepository Store :=
  {| TokenRepository_Save := GormTokenRepository.Save db;
     TokenRepository_FindByToken := GormTokenRepository.FindByToken db;
     TokenRepository_RevokeAllForUser :=
       GormTokenRepository.RevokeAllForUser db |}.

End repository.

(* ================================================================== *)
(** * Package application: AuthService *)

Module application.

Import identity.

(** What one call reads from its surroundings: [Now k] is the instant the
    [k]-th reading of the clock returns, [NewUUID k] the [k]-th fresh id,
    [Rand] the randomness behind a password salt. *)
Record Env : Type := mkEnv {
  Now : nat -> Time;
  NewUUID : nat -> UUID;
  Rand : N
}.

(** The claims [ValidateToken] returns; only the user id is read. *)
Record Claims : Type := mkClaims { UserID : UUID }.

(** The token signer, a collaborator from the shared auth package; every
    method reads the clock, whose reading is its first argument. *)
Record JWTManager : Type := mkJWTManager {
  GenerateAccessToken : Time -> UUID -> string -> UserRole -> result string;
  GenerateRefreshToken : Time -> UUID -> result string;
  ValidateToken : Time -> string -> result Claims
}.

(** Package bcrypt. *)
Record Bcrypt : Type := mkBcrypt {
  GenerateFromPassword : N -> string -> result string;
  CompareHashAndPassword : string -> string -> option Error
}.

Record RegisterRequest : Type := mkRegisterRequest {
  Register_Email : string;
  Register_Phone : string;
  Register_FullName : string;
  Register_Password : string;
  Register_Role : string
}.

Record LoginRequest : Type := mkLoginRequest {
  Login_Email : string;
  Login_Password : string
}.

Record UpdateProfileRequest : Type := mkUpdateProfileRequest {
  Update_FullName : string;
  Update_Phone : string;
  Update_AvatarURL : string
}.

Module UserDTO.
Record t : Type := mk {
  ID : UUID;
  Email : string;
  Phone : string;
  FullName : string;
  Role : string;
  IsVerified : bool;
  AvatarURL : string;
  CreatedAt : Time
}.
End UserDTO.

Record AuthResponse : Type := mkAuthResponse {
  AccessToken : string;
  RefreshToken_ : string;
  User_ : UserDTO.t
}.

Definition toUserDTO (user : User.t) : UserDTO.t :=
  UserDTO.mk (User.ID user) (User.Email user) (User.Phone user)
    (User.FullName user) (User.Role user) (User.IsVerified user)
    (User.AvatarURL user) (User.CreatedAt user).

(** the refresh window, [7*24*time.Hour] *)
Definition refreshWindow : Duration := 7 * 24 * time.Hour.

Section Service.

Variable W : Type.
Variable bcrypt : Bcrypt.

Record AuthService : Type := NewAuthService {
  userRepo : UserRepository W;
  tokenRepo : TokenRepository W;
  jwt : JWTManager
}.

(* --- control flow of a Go method body --- *)

Definition ret {A} (a : A) : M W A := fun w => (Ok a, w).
Definition fail {A} (e : Error) : M W A := fun w => (Fail e, w).

(** [v, err := m; if err != nil { return nil, h(err) }; k v] *)
Definition bind_or {A B} (m : M W A) (h : Error -> Error)
    (k : A -> M W B) : M W B :=
  fun w =>
    match m w with
    | (Ok a, w') => k a w'
    | (Fail e, w') => (Fail (h e), w')
    end.

(** [v, err := m; k (v, err)]: the error is a value the body goes on
    with *)
Definition attempt {A B} (m : M W A) (k : result A -> M W B) : M W B :=
  fun w => let '(r, w') := m w in k r w'.

(** a call that leaves the store alone *)
Definition pure {A} (r : result A) : M W A := fun w => (r, w).

Notation "x <- m 'or' h ;; k" := (bind_or m h (fun x => k))
  (at level 100, m at level 90, h at level 90, right associativity).

Variable s : AuthService.
Variable env : Env.

(** Register creates a new user account and returns tokens. *)
Definition Register (req : RegisterRequest) : M W AuthResponse :=
  attempt (UserRepository_FindByEmail (userRepo s) (Register_Email req))
    (fun existing =>
  match existing with
  | Ok _ =>
      fail (NewAlreadyExistsError "User" "email" (Register_Email req))
  | Fail _ =>
  hashedPassword <-
    pure (GenerateFromPassword bcrypt (Rand env) (Register_Password req))
    or Wrap "failed to hash password" ;;
  let role : UserRole := Register_Role req in
  user <-
    pure (NewUser (Register_Email req) (Register_Phone req)
            (Register_FullName req) hashedPassword role
            (NewUUID env 0) (Now env 0))
    or (fun err => NewValidationError (Error_string err)) ;;
  _ <- UserRepository_Save (userRepo s) user
    or Wrap "failed to save user" ;;
  accessToken <-
    pure (GenerateAccessToken (jwt s) (Now env 1) (User.ID user)
            (User.Email user) (User.Role user))
    or Wrap "failed to generate access token" ;;
  refreshTokenStr <-
    pure (GenerateRefreshToken (jwt s) (Now env 2) (User.ID user))
    or Wrap "failed to generate refresh token" ;;
  let refreshToken :=
    NewRefreshToken (User.ID user) refreshTokenStr
      (time.Add (Now env 3) refreshWindow) (NewUUID env 1) (Now env 4) in
  _ <- TokenRepository_Save (tokenRepo s) refreshToken
    or Wrap "failed to save refresh token" ;;
  ret (mkAuthResponse accessToken refreshTokenStr (toUserDTO user))
  end).

(** Login authenticates a user by email and password. *)
Definition Login (req : LoginRequest) : M W AuthResponse :=
  user <- UserRepository_FindByEmail (userRepo s) (Login_Email req)
    or (fun _ => NewUnauthorizedError "invalid email or password") ;;
  match CompareHashAndPassword bcrypt (User.PasswordHash user)
          (Login_Password req) with
  | Some _ => fail (NewUnauthorizedError "invalid email or password")
  | None =>
  accessToken <-
    pure (GenerateAccessToken (jwt s) (Now env 0) (User.ID user)
            (User.Email user) (User.Role user))
    or Wrap "failed to generate access token" ;;
  refreshTokenStr <-
    pure (GenerateRefreshToken (jwt s) (Now env 1) (User.ID user))
    or Wrap "failed to generate refresh token" ;;
  let refreshToken :=
    NewRefreshToken (User.ID user) refreshTokenStr
      (time.Add (Now env 2) refreshWindow) (NewUUID env 0) (Now env 3) in
  _ <- TokenRepository_Save (tokenRepo s) refreshToken
    or Wrap "failed to save refresh token" ;;
  ret (mkAuthResponse accessToken refreshTokenStr (toUserDTO user))
  end.

(** RefreshToken validates a refresh token and issues a new pair.
    [storedToken.Revoke()] acts on the value [FindByToken] returned;
    the method makes no further use of it. *)
Definition RefreshToken (token : string) : M W AuthResponse :=
  claims <- pure (ValidateToken (jwt s) (Now env 0) token)
    or (fun _ => NewUnauthorizedError "invalid refresh token") ;;
  storedToken <- TokenRepository_FindByToken (tokenRepo s) token
    or (fun _ => NewUnauthorizedError "refresh token not found") ;;
  if negb (RefreshToken.IsValid (Now env 1) storedToken)
  then fail (NewUnauthorizedError "refresh token is expired or revoked")
  else
  let storedToken := RefreshToken.Revoke storedToken in
  user <- UserRepository_FindByID (userRepo s) (UserID claims)
    or (fun _ => NewNotFoundError "User" (UUID_String (UserID claims))) ;;
  accessToken <-
    pure (GenerateAccessToken (jwt s) (Now env 2) (User.ID user)
            (User.Email user) (User.Role user))
    or Wrap "failed to generate access token" ;;
  refreshTokenStr <-
    pure (GenerateRefreshToken (jwt s) (Now env 3) (User.ID user))
    or Wrap "failed to generate refresh token" ;;
  let newRefreshToken :=
    NewRefreshToken (User.ID user) refreshTokenStr
      (time.Add (Now env 4) refreshWindow) (NewUUID env 0) (Now env 5) in
  _ <- TokenRepository_Save (tokenRepo s) newRefreshToken
    or Wrap "failed to save refresh token" ;;
  ret (mkAuthResponse accessToken refreshTokenStr (toUserDTO user)).

(** Logout revokes all refresh tokens for the specified user. *)
Definition Logout (userID : UUID) : M W unit :=
  _ <- TokenRepository_RevokeAllForUser (tokenRepo s) userID
    or Wrap "failed to revoke tokens" ;;
  ret tt.

(** GetProfile retrieves the user profile by ID. *)
Definition GetProfile (userID : UUID) : M W UserDTO.t :=
  user <- UserRepository_FindByID (userRepo s) userID
    or (fun _ => NewNotFoundError "User" (UUID_String userID)) ;;
  ret (toUserDTO user).

(** UpdateProfile updates the user's profile information. *)
Definition UpdateProfile (userID : UUID) (req : UpdateProfileRequest)
    : M W UserDTO.t :=
  user <- UserRepository_FindByID (userRepo s) userID
    or (fun _ => NewNotFoundError "User" (UUID_String userID)) ;;
  let user :=
    User.UpdateProfile (Update_FullName req) (Update_Phone req)
      (Update_AvatarURL req) (Now env 0) user in
  let user := User.IncrementVersion (Now env 1) user in
  _ <- UserRepository_Update (userRepo s) user
    or Wrap "failed to update user" ;;
  ret (toUserDTO user).

(** BanUser deactivates a user account. *)
Definition BanUser (userID : UUID) : M W unit :=
  user <- UserRepository_FindByID (userRepo s) userID
    or (fun _ => NewNotFoundError "User" (UUID_String userID)) ;;
  let user := User.Deactivate (Now env 0) user in
  let user := User.IncrementVersion (Now env 1) user in
  _ <- UserRepository_Update (userRepo s) user
    or Wrap "failed to ban user" ;;
  attempt (TokenRepository_RevokeAllForUser (tokenRepo s) userID)
    (fun _ => ret tt).

End Service.

Arguments NewAuthService {W} _ _ _.

End application.

(* ================================================================== *)
(** * A concrete deployment, for running the service *)

Module deployment.

Import identity repository application.

(** The column constraints of [migrations/001_create_users_table.up.sql];
    lengths are counted in bytes, which is how the database counts ASCII
    text. *)
Definition users_columns_001 (m : UserModel.t) : bool :=
  (String.length (UserModel.Email m) <=? 255)%nat
  && (String.length (UserModel.Phone m) <=? 20)%nat
  && (String.length (UserModel.PasswordHash m) <=? 255)%nat
  && (String.length (UserModel.FullName m) <=? 255)%nat
  && (String.length (UserModel.Role m) <=? 20)%nat
  && existsb (String.eqb (UserModel.Role m)) ["owner"; "runner"; "admin"].

Definition db : DB :=
  mkDB users_columns_001 (fun _ => true) (fun _ => None) 21001.

(** the same database while it cannot be reached *)
Definition db_down : DB :=
  mkDB users_columns_001 (fun _ => true)
    (fun _ => Some (New "connection refused")) 21001.

Definition empty : Store := mkStore [] [].

(** A stand-in password hasher: the hash is the password behind a tag. *)
Definition hasher : Bcrypt :=
  mkBcrypt
    (fun _ password => Ok ("$2a$" ++ password))
    (fun hash password =>
       if String.eqb hash ("$2a$" ++ password) then None
       else Some (New "hashedPassword is not the hash of the given password")).

Definition dec (n : N) : string := NilZero.string_of_uint (N.to_uint n).

(** the text up to the first ['.'], and what follows it *)
Fixpoint cut (s : string) : string * string :=
  match s with
  | EmptyString => (EmptyString, EmptyString)
  | String c s' =>
      if Ascii.eqb c "." then (EmptyString, s')
      else let '(a, b) := cut s' in (String c a, b)
  end.

Definition num (s : string) : option N :=
  option_map N.of_uint (NilZero.uint_of_string s).

(** A stand-in signer: a token spells its kind, its user and the instant it
    was issued at; a refresh token is accepted for [refreshWindow] and an
    access token for a quarter of an hour. *)
Definition signer : JWTManager :=
  mkJWTManager
    (fun now userID _ _ => Ok ("access." ++ dec userID ++ "." ++ dec (Z.to_N now)))
    (fun now userID => Ok ("refresh." ++ dec userID ++ "." ++ dec (Z.to_N now)))
    (fun now token =>
       let '(kind, rest) := cut token in
       let '(user, issued) := cut rest in
       match num user, num issued with
       | Some u, Some i =>
           let life := if String.eqb kind "refresh" then refreshWindow
                       else if String.eqb kind "access" then 15 * time.Minute
                       else -1 in
           if time.After now (time.Add (Z.of_N i) life)
           then Fail (New "token is expired")
           else Ok (mkClaims u)
       | _, _ => Fail (New "token is malformed")
       end).

Definition service : AuthService Store :=
  NewAuthService (NewGormUserRepository db) (NewGormTokenRepository db)
    signer.

(** a call that starts at instant [t0], its clock advancing by one
    microsecond from reading to reading, and draws ids from [id0] on *)
Definition at_ (t0 : Time) (id0 : UUID) : Env :=
  mkEnv (fun k => t0 + 1000 * Z.of_nat k) (fun k => id0 + N.of_nat k)%N 7.

Definition Register := application.Register hasher service.
Definition Login := application.Login hasher service.
Definition RefreshToken := application.RefreshToken service.
Definition Logout := application.Logout service.
Definition GetProfile := application.GetProfile service.
Definition UpdateProfile := application.UpdateProfile service.
Definition BanUser := application.BanUser service.

(** registration of user A, at instant 1000 *)
Definition reqA : RegisterRequest :=
  mkRegisterRequest "a@x.com" "" "Ann" "longpass1" "owner".

Definition registered : result AuthResponse * Store :=
  Register (at_ 1000 1) reqA empty.

(** the store after that registration, A's row in it, and the refresh
    token the registration issued *)
Definition storeA : Store := snd registered.
Definition rowA : UserModel.t :=
  UserModel.mk 1 "a@x.com" "" "$2a$longpass1" "Ann" "owner" false "" 1
    1000 1000.
Definition tokenA : string := "refresh.1.3000".

(** the same store once A's row has been marked verified and A has logged
    in a second time *)
Definition storeA_verified : Store :=
  mkStore
    [UserModel.mk 1 "a@x.com" "" "$2a$longpass1" "Ann" "owner"
       true "" 1 1000 1000]
    [RefreshTokenModel.mk 2 1 "refresh.1.3000" 604800000004000 false 5000;
     RefreshTokenModel.mk 3 1 "refresh.1.7000" 604800000008000 false 9000].

End deployment.

(* ================================================================== *)
(** * Statements the other repositories send *)

Module sql.

(** [ORDER BY key DESC]: rows with the greater key first; rows of one and
    the same key come in an order the database is free to choose, here the
    order in which they are stored *)
Fixpoint insert_desc {A} (key : A -> Z) (x : A) (l : list A) : list A :=
  match l with
  | [] => [x]
  | y :: l' =>
      if key y <=? key x then x :: y :: l' else y :: insert_desc key x l'
  end.

Definition order_by_desc {A} (key : A -> Z) (l : list A) : list A :=
  fold_right (insert_desc key) [] l.

(** [Offset(n)]: GORM sends an OFFSET only for a positive [n] *)
Definition Offset {A} (n : Z) (rows : list A) : list A :=
  if n <=? 0 then rows else skipn (Z.to_nat n) rows.

(** [Limit(n)]: GORM sends LIMIT [n] for [n] from 0 on, and no LIMIT for
    a negative [n] *)
Definition Limit {A} (n : Z) (rows : list A) : list A :=
  if n <? 0 then rows else firstn (Z.to_nat n) rows.

End sql.

(* ================================================================== *)
(** * Package referral: referrals and referral codes *)

Module referral.

Import identity.

(* ---- referral.go ---- *)

Module Referral.

Record t : Type := mk {
  id : UUID;
  referrerID : UUID;
  refereeID : UUID;
  referralCode : string;
  rewardAmountCents : Z;
  referrerCredited : bool;
  refereeCredited : bool;
  createdAt : Time
}.

Definition CreditReferrer (r : t) : t :=
  mk (id r) (referrerID r) (refereeID r) (referralCode r)
     (rewardAmountCents r) true (refereeCredited r) (createdAt r).

Definition CreditReferee (r : t) : t :=
  mk (id r) (referrerID r) (refereeID r) (referralCode r)
     (rewardAmountCents r) (referrerCredited r) true (createdAt r).

(* getters *)
Definition ID (r : t) : UUID := id r.
Definition ReferrerID (r : t) : UUID := referrerID r.
Definition RefereeID (r : t) : UUID := refereeID r.
Definition ReferralCode (r : t) : string := referralCode r.
Definition RewardAmountCents (r : t) : Z := rewardAmountCents r.
Definition ReferrerCredited (r : t) : bool := referrerCredited r.
Definition RefereeCredited (r : t) : bool := refereeCredited r.
Definition CreatedAt (r : t) : Time := createdAt r.

End Referral.

(** [NewReferral]; [id] is the [uuid.New()] it draws and [now] the
    [time.Now().UTC()] it reads *)
Definition NewReferral (referrerID refereeID : UUID) (referralCode : string)
    (rewardAmountCents : Z) (id : UUID) (now : Time) : Referral.t :=
  Referral.mk id referrerID refereeID referralCode rewardAmountCents
    false false now.

Definition Reconstruct (id referrerID refereeID : UUID)
    (referralCode : string) (rewardAmountCents : Z)
    (referrerCredited refereeCredited : bool) (createdAt : Time)
    : Referral.t :=
  Referral.mk id referrerID refereeID referralCode rewardAmountCents
    referrerCredited refereeCredited createdAt.

(** Package encoding/hex: [hextable[v>>4]], [hextable[v&0x0f]] for every
    byte [v] *)
Definition hextable : list ascii := list_ascii_of_string "0123456789abcdef".

Definition hexdigit (n : N) : ascii := nth (N.to_nat n) hextable "0"%char.

Fixpoint EncodeToString (src : list ascii) : string :=
  match src with
  | [] => EmptyString
  | v :: rest =>
      String (hexdigit (N.shiftr (N_of_ascii v) 4))
        (String (hexdigit (N.land (N_of_ascii v) 15)) (EncodeToString rest))
  end.

(** [GenerateReferralCode]; [read] is what [rand.Read] made of the buffer of
    four bytes: the bytes it filled in, or its error *)
Definition GenerateReferralCode (read : result (list ascii)) : result string :=
  match read with
  | Fail err => Fail err
  | Ok b => Ok ("REF-" ++ EncodeToString b)
  end.

(* ---- repository.go ---- *)

(** [ReferralRepository].  [SaveUserReferralCode] draws the id of the row it
    writes, which is its first argument here. *)
Record ReferralRepository (W : Type) : Type := {
  ReferralRepository_Save : Referral.t -> M W unit;
  ReferralRepository_Update : Referral.t -> M W unit;
  ReferralRepository_FindByReferrerID : UUID -> M W (list Referral.t);
  ReferralRepository_FindByReferralCode : string -> M W Referral.t;
  ReferralRepository_FindByRefereeID : UUID -> M W Referral.t;
  ReferralRepository_CountByReferrerID : UUID -> M W Z;
  ReferralRepository_SaveUserReferralCode : UUID -> UUID -> string -> M W unit;
  ReferralRepository_GetUserReferralCode : UUID -> M W string;
  ReferralRepository_FindUserIDByReferralCode : string -> M W UUID
}.

End referral.

(* ================================================================== *)
(** * Package repository: the referral tables *)

Module referral_repository.

Import identity repository referral.

(* ---- referral_repository.go ---- *)

Module ReferralModel.
Record t : Type := mk {
  ID : UUID;
  ReferrerID : UUID;
  RefereeID : UUID;
  ReferralCode : string;
  RewardAmountCents : Z;
  ReferrerCredited : bool;
  RefereeCredited : bool;
  CreatedAt : Time
}.
End ReferralModel.

Module UserReferralCodeModel.
Record t : Type := mk {
  ID : UUID;
  UserID : UUID;
  Code : string
}.
End UserReferralCodeModel.

Definition toReferralModel (r : Referral.t) : ReferralModel.t :=
  ReferralModel.mk (Referral.ID r) (Referral.ReferrerID r)
    (Referral.RefereeID r) (Referral.ReferralCode r)
    (Referral.RewardAmountCents r) (Referral.ReferrerCredited r)
    (Referral.RefereeCredited r) (Referral.CreatedAt r).

Definition toReferralDomain (m : ReferralModel.t) : Referral.t :=
  Reconstruct (ReferralModel.ID m) (ReferralModel.ReferrerID m)
    (ReferralModel.RefereeID m) (ReferralModel.ReferralCode m)
    (ReferralModel.RewardAmountCents m) (ReferralModel.ReferrerCredited m)
    (ReferralModel.RefereeCredited m) (ReferralModel.CreatedAt m).

(** The rows of the two referral tables, in insertion order.  No foreign
    key ties them to the users: the statements on them read and write these
    two tables only. *)
Record ReferralStore : Type := mkReferralStore {
  referrals : list ReferralModel.t;
  user_referral_codes : list UserReferralCodeModel.t
}.

(** The statements on the referral tables that no data can make fail: the
    listing of [FindByReferrerID] and the count of [CountByReferrerID]. *)
Inductive ReferralStatement : Type :=
| SELECT_by_referrer
| COUNT_by_referrer.

(** The column-level constraints of the two tables ([varchar(50)],
    [not null]), as the database decides them, and the error that each of
    these statements meets when the database cannot be reached ([None] when
    it can). *)
Record ReferralDB : Type := mkReferralDB {
  referrals_columns : ReferralModel.t -> bool;
  user_referral_codes_columns : UserReferralCodeModel.t -> bool;
  referrals_unavailable : ReferralStatement -> option Error
}.

Module tables.

(** [Create(&model)] on [referrals]: INSERT under the column constraints,
    the primary key and the unique index on [referee_id].  Rows are built by
    [NewReferral]: their id and creation time are never the zero value, and
    the defaults of the three other columns are the zero values
    themselves. *)
Definition Create_referrals (db : ReferralDB) (model : ReferralModel.t)
    (st : ReferralStore) : gorm.Result * ReferralStore :=
  if negb (referrals_columns db model)
  then (gorm.mkResult (Some (CheckViolation "referrals")) 0, st)
  else if existsb
            (fun r => N.eqb (ReferralModel.ID r) (ReferralModel.ID model))
            (referrals st)
  then (gorm.mkResult (Some (UniqueViolation "referrals" "id")) 0, st)
  else if existsb
            (fun r => N.eqb (ReferralModel.RefereeID r)
                        (ReferralModel.RefereeID model))
            (referrals st)
  then (gorm.mkResult (Some (UniqueViolation "referrals" "referee_id")) 0, st)
  else (gorm.mkResult None 1,
        mkReferralStore (referrals st ++ [model])%list
          (user_referral_codes st)).

(** [Create(&model)] on [user_referral_codes]: primary key, unique index on
    [user_id], unique index on [code] *)
Definition Create_user_referral_codes (db : ReferralDB)
    (model : UserReferralCodeModel.t) (st : ReferralStore)
    : gorm.Result * ReferralStore :=
  if negb (user_referral_codes_columns db model)
  then (gorm.mkResult (Some (CheckViolation "user_referral_codes")) 0, st)
  else if existsb
            (fun r => N.eqb (UserReferralCodeModel.ID r)
                        (UserReferralCodeModel.ID model))
            (user_referral_codes st)
  then (gorm.mkResult (Some (UniqueViolation "user_referral_codes" "id")) 0,
        st)
  else if existsb
            (fun r => N.eqb (UserReferralCodeModel.UserID r)
                        (UserReferralCodeModel.UserID model))
            (user_referral_codes st)
  then (gorm.mkResult
          (Some (UniqueViolation "user_referral_codes" "user_id")) 0, st)
  else if existsb
            (fun r => String.eqb (UserReferralCodeModel.Code r)
                        (UserReferralCodeModel.Code model))
            (user_referral_codes st)
  then (gorm.mkResult
          (Some (UniqueViolation "user_referral_codes" "code")) 0, st)
  else (gorm.mkResult None 1,
        mkReferralStore (referrals st)
          (user_referral_codes st ++ [model])%list).

(** [gorm.ErrRecordNotFound], which is [errors.New("record not found")];
    the referral repository hands it on as it is *)
Definition ErrRecordNotFound : Error := New "record not found".

(** [Where(cond).First(&model)] on [referrals]: the matching row with the
    least primary key ([First] orders by it) *)
Fixpoint First_referral (cond : ReferralModel.t -> bool)
    (rows : list ReferralModel.t) : result ReferralModel.t :=
  match rows with
  | [] => Fail ErrRecordNotFound
  | r :: rows' =>
      if cond r
      then match First_referral cond rows' with
           | Ok r' => if (ReferralModel.ID r' <? ReferralModel.ID r)%N
                      then Ok r' else Ok r
           | Fail _ => Ok r
           end
      else First_referral cond rows'
  end.

(** [Where(cond).First(&model)] on [user_referral_codes]; both lookups are
    by a unique column, so there is at most one row to find *)
Definition First_code (cond : UserReferralCodeModel.t -> bool)
    (rows : list UserReferralCodeModel.t) : result UserReferralCodeModel.t :=
  match find cond rows with
  | Some r => Ok r
  | None => Fail ErrRecordNotFound
  end.

(** [Save(&model)] on [referrals], for a model whose primary key is not the
    zero value: an UPDATE by primary key of every column, zero values
    included, and, when that touches no row, an INSERT of the model *)
Definition Save_referrals (db : ReferralDB) (model : ReferralModel.t)
    (st : ReferralStore) : gorm.Result * ReferralStore :=
  let hit (r : ReferralModel.t) :=
    N.eqb (ReferralModel.ID r) (ReferralModel.ID model) in
  if N.eqb (ReferralModel.ID model) 0 then Create_referrals db model st
  else if negb (existsb hit (referrals st)) then Create_referrals db model st
  else
    let rows := map (fun r => if hit r then model else r) (referrals st) in
    if negb (referrals_columns db model)
    then (gorm.mkResult (Some (CheckViolation "referrals")) 0, st)
    else if negb (gorm.distinct N.eqb (map ReferralModel.RefereeID rows))
    then (gorm.mkResult (Some (UniqueViolation "referrals" "referee_id")) 0,
          st)
    else (gorm.mkResult None (gorm.count hit (referrals st)),
          mkReferralStore rows (user_referral_codes st)).

End tables.

Module GormReferralRepository.

Definition Save (db : ReferralDB) (ref : Referral.t)
    : M ReferralStore unit :=
  fun st =>
    let model := toReferralModel ref in
    let '(res, st') := tables.Create_referrals db model st in
    (error_of res, st').

Definition Update (db : ReferralDB) (ref : Referral.t)
    : M ReferralStore unit :=
  fun st =>
    let model := toReferralModel ref in
    let '(res, st') := tables.Save_referrals db model st in
    (error_of res, st').

Definition FindByReferrerID (db : ReferralDB) (referrerID : UUID)
    : M ReferralStore (list Referral.t) :=
  fun st =>
    match referrals_unavailable db SELECT_by_referrer with
    | Some err => (Fail err, st)
    | None =>
        let models :=
          sql.order_by_desc ReferralModel.CreatedAt
            (filter (fun m => N.eqb (ReferralModel.ReferrerID m) referrerID)
               (referrals st)) in
        (Ok (map toReferralDomain models), st)
    end.

Definition FindByReferralCode (db : ReferralDB) (code : string)
    : M ReferralStore Referral.t :=
  fun st =>
    match tables.First_referral
            (fun m => String.eqb (ReferralModel.ReferralCode m) code)
            (referrals st) with
    | Fail err => (Fail err, st)
    | Ok model => (Ok (toReferralDomain model), st)
    end.

Definition FindByRefereeID (db : ReferralDB) (refereeID : UUID)
    : M ReferralStore Referral.t :=
  fun st =>
    match tables.First_referral
            (fun m => N.eqb (ReferralModel.RefereeID m) refereeID)
            (referrals st) with
    | Fail err => (Fail err, st)
    | Ok model => (Ok (toReferralDomain model), st)
    end.

Definition CountByReferrerID (db : ReferralDB) (referrerID : UUID)
    : M ReferralStore Z :=
  fun st =>
    match referrals_unavailable db COUNT_by_referrer with
    | Some err => (Fail err, st)
    | None =>
        (Ok (gorm.count
               (fun m => N.eqb (ReferralModel.ReferrerID m) referrerID)
               (referrals st)), st)
    end.

(** [id] is the [uuid.New()] of the row *)
Definition SaveUserReferralCode (db : ReferralDB) (id userID : UUID)
    (code : string) : M ReferralStore unit :=
  fun st =>
    let model := UserReferralCodeModel.mk id userID code in
    let '(res, st') := tables.Create_user_referral_codes db model st in
    (error_of res, st').

Definition GetUserReferralCode (db : ReferralDB) (userID : UUID)
    : M ReferralStore string :=
  fun st =>
    match tables.First_code
            (fun m => N.eqb (UserReferralCodeModel.UserID m) userID)
            (user_referral_codes st) with
    | Fail err => (Fail err, st)
    | Ok model => (Ok (UserReferralCodeModel.Code model), st)
    end.

Definition FindUserIDByReferralCode (db : ReferralDB) (code : string)
    : M ReferralStore UUID :=
  fun st =>
    match tables.First_code
            (fun m => String.eqb (UserReferralCodeModel.Code m) code)
            (user_referral_codes st) with
    | Fail err => (Fail err, st)
    | Ok model => (Ok (UserReferralCodeModel.UserID model), st)
    end.

End GormReferralRepository.

Definition NewGormReferralRepository (db : ReferralDB)
    : ReferralRepository ReferralStore :=
  {| ReferralRepository_Save := GormReferralRepository.Save db;
     ReferralRepository_Update := GormReferralRepository.Update db;
     ReferralRepository_FindByReferrerID :=
       GormReferralRepository.FindByReferrerID db;
     ReferralRepository_FindByReferralCode :=
       GormReferralRepository.FindByReferralCode db;
     ReferralRepository_FindByRefereeID :=
       GormReferralRepository.FindByRefereeID db;
     ReferralRepository_CountByReferrerID :=
       GormReferralRepository.CountByReferrerID db;
     ReferralRepository_SaveUserReferralCode :=
       GormReferralRepository.SaveUserReferralCode db;
     ReferralRepository_GetUserReferralCode :=
       GormReferralRepository.GetUserReferralCode db;
     ReferralRepository_FindUserIDByReferralCode :=
       GormReferralRepository.FindUserIDByReferralCode db |}.

End referral_repository.

(* ================================================================== *)
(** * Package application: ReferralService *)

Module referral_service.

Import identity referral application.

(** RM 5.00 reward per referral *)
Definition defaultRewardCents : Z := 500.

Record ReferralDTO : Type := mkReferralDTO {
  DTO_ID : UUID;
  DTO_RefereeID : UUID;
  DTO_RewardAmountCents : Z;
  DTO_ReferrerCredited : bool;
  DTO_RefereeCredited : bool;
  DTO_CreatedAt : Time
}.

Record ReferralStatsDTO : Type := mkReferralStatsDTO {
  Stats_ReferralCode : string;
  TotalReferrals : Z;
  Referrals : list ReferralDTO
}.

Definition toReferralDTO (r : Referral.t) : ReferralDTO :=
  mkReferralDTO (Referral.ID r) (Referral.RefereeID r)
    (Referral.RewardAmountCents r) (Referral.ReferrerCredited r)
    (Referral.RefereeCredited r) (Referral.CreatedAt r).

Section Service.

Variable W : Type.

Record ReferralService : Type := NewReferralService {
  repo : ReferralRepository W
}.

Local Notation "x <- m 'or' h ;; k" := (bind_or m h (fun x => k))
  (at level 100, m at level 90, h at level 90, right associativity).

Variable s : ReferralService.

(** What a call reads from its surroundings: the clock and the fresh ids of
    [env], and [read], the outcome of the one [rand.Read] it may make. *)
Variable env : Env.
Variable read : result (list ascii).

(** findCodeOwner looks up the user who owns a referral code. *)
Definition findCodeOwner (code : string) : M W UUID :=
  ReferralRepository_FindUserIDByReferralCode (repo s) code.

(** GetOrCreateReferralCode returns the user's referral code, creating one
    if needed. *)
Definition GetOrCreateReferralCode (userID : UUID) : M W string :=
  attempt (ReferralRepository_GetUserReferralCode (repo s) userID)
    (fun found =>
  if match found with
     | Ok code => negb (String.eqb code "")
     | Fail _ => false
     end
  then pure found
  else
  code <- pure (GenerateReferralCode read)
    or Wrap "failed to generate referral code" ;;
  _ <- ReferralRepository_SaveUserReferralCode (repo s) (NewUUID env 0)
         userID code
    or Wrap "failed to save referral code" ;;
  ret code).

(** ProcessReferral creates a referral record when a new user registers
    with a referral code. *)
Definition ProcessReferral (refereeID : UUID) (referralCode : string)
    : M W unit :=
  if String.eqb referralCode "" then ret tt
  else
  attempt (findCodeOwner referralCode)
    (fun owner =>
  match owner with
  | Fail _ => ret tt
  | Ok ownerCode =>
  let ref :=
    NewReferral ownerCode refereeID referralCode defaultRewardCents
      (NewUUID env 0) (Now env 0) in
  attempt (ReferralRepository_Save (repo s) ref) (fun _ => ret tt)
  end).

(** GetMyReferrals returns the user's referral stats and list.  The error
    of GetOrCreateReferralCode is dropped: the code is then the empty text
    that call returns beside its error. *)
Definition GetMyReferrals (userID : UUID) : M W ReferralStatsDTO :=
  attempt (GetOrCreateReferralCode userID)
    (fun got =>
  let code := match got with Ok code => code | Fail _ => "" end in
  referrals <- ReferralRepository_FindByReferrerID (repo s) userID
    or (fun err => err) ;;
  total <- ReferralRepository_CountByReferrerID (repo s) userID
    or (fun err => err) ;;
  ret (mkReferralStatsDTO code total (map toReferralDTO referrals))).

End Service.

Arguments NewReferralService {W} _.

End referral_service.

(* ================================================================== *)
(** * The admin read paths *)

Module admin.

Import identity repository application.

(* ---- user_repository.go: the two listing methods ---- *)

(** ListAll returns a paginated list of all users.  [page] and [limit] are
    Go [int]s, 64 bits wide on the platforms the service is built for.  The
    count is the first statement and the listing the second.  The error of
    the count is not looked at: when the count fails, [total] stays 0. *)
Definition ListAll (db : DB) (page limit : Z)
    : M Store (list User.t * Z) :=
  fun st =>
    let total :=
      match unavailable db COUNT_users with
      | Some _ => 0
      | None => gorm.count (fun _ => true) (users st)
      end in
    let offset := int64.wrap (int64.sub page 1 * limit) in
    match unavailable db SELECT_users_page with
    | Some err => (Fail err, st)
    | None =>
        let models :=
          sql.Limit limit
            (sql.Offset offset
               (sql.order_by_desc UserModel.CreatedAt (users st))) in
        (Ok (map UserModel.toDomain models, total), st)
    end.

(** [SELECT role, count( * ) ... GROUP BY role]: the roles that occur, each
    once, in an order the database is free to choose, here that of the
    last occurrence *)
Fixpoint roles (rows : list UserModel.t) : list string :=
  match rows with
  | [] => []
  | r :: rows' =>
      if existsb (String.eqb (UserModel.Role r)) (roles rows')
      then roles rows' else UserModel.Role r :: roles rows'
  end.

(** [counts[k] = v] on a Go map, kept as the list of its entries *)
Definition map_set (k : string) (v : Z) (counts : list (string * Z))
    : list (string * Z) :=
  if existsb (fun e => String.eqb (fst e) k) counts
  then map (fun e => if String.eqb (fst e) k then (k, v) else e) counts
  else (counts ++ [(k, v)])%list.

(** CountByRole returns user counts grouped by role. *)
Definition CountByRole (db : DB) : M Store (list (string * Z)) :=
  fun st =>
    match unavailable db COUNT_by_role with
    | Some err => (Fail err, st)
    | None =>
        let results :=
          map (fun role =>
                 (role,
                  gorm.count (fun r => String.eqb (UserModel.Role r) role)
                    (users st)))
              (roles (users st)) in
        (Ok (fold_left (fun counts rc => map_set (fst rc) (snd rc) counts)
               results []), st)
    end.

(** the two listing methods of [UserRepository] *)
Record UserListing (W : Type) : Type := {
  UserRepository_ListAll : Z -> Z -> M W (list User.t * Z);
  UserRepository_CountByRole : M W (list (string * Z))
}.

Definition NewGormUserListing (db : DB) : UserListing Store :=
  {| UserRepository_ListAll := ListAll db;
     UserRepository_CountByRole := CountByRole db |}.

(* ---- auth_service.go: the admin methods of AuthService ---- *)

Record UserStatsDTO : Type := mkUserStatsDTO {
  TotalUsers : Z;
  ByRole : list (string * Z)
}.

Section Service.

Variable W : Type.
Variable s : AuthService W.
Variable listing : UserListing W.


(** GetUserByID retrieves a single user by ID (admin). *)
Definition GetUserByID (userID : UUID) : M W UserDTO.t :=
  bind_or (UserRepository_FindByID (userRepo s) userID)
    (fun _ => NewNotFoundError "User" (UUID_String userID))
    (fun user => ret (toUserDTO user)).

(** GetUserStats returns aggregate user statistics; the total is summed
    over the entries of the map, in int64. *)
Definition GetUserStats : M W UserStatsDTO :=
  bind_or (UserRepository_CountByRole listing)
    (Wrap "failed to get user stats")
    (fun counts =>
       let total := fold_left (fun total c => int64.add total (snd c))
                      counts 0 in
       ret (mkUserStatsDTO total counts)).

End Service.

(* ---- the admin handler ---- *)


End admin.

(* ================================================================== *)
(** * Vocabulary of the properties *)

Import identity repository application.

(** the one error Login returns for bad credentials *)
Definition invalidCredentials : Error :=
  NewUnauthorizedError "invalid email or password".

(** the error Update returns when its UPDATE affects no row *)
Definition conflict : Error :=
  NewConflictError "user was modified by another transaction".

(** what a bulk revocation for [userID] should leave of a token row *)
Definition revoked_for (userID : UUID) (r : RefreshTokenModel.t)
    : RefreshTokenModel.t :=
  if N.eqb (RefreshTokenModel.UserID r) userID
  then RefreshTokenModel.mk (RefreshTokenModel.ID r)
         (RefreshTokenModel.UserID r) (RefreshTokenModel.Token r)
         (RefreshTokenModel.ExpiresAt r) true (RefreshTokenModel.CreatedAt r)
  else r.

(** a phone text that is empty or has the format [NewPhone] demands *)
Definition phone_wellformed (p : string) : bool :=
  String.eqb p "" || regexp.MatchString phoneRegexp p.

(** the keys of the users table: no id and no email occurs twice *)
Definition users_keys_ok (st : Store) : bool :=
  gorm.distinct N.eqb (map UserModel.ID (users st))
  && gorm.distinct String.eqb (map UserModel.Email (users st)).

(** the condition of the UPDATE that [Update] issues for [u] *)
Definition fence (u : User.t) (r : UserModel.t) : bool :=
  N.eqb (UserModel.ID r) (User.ID u)
  && Z.eqb (UserModel.Version r) (int64.sub (User.Version u) 1).

(** the row that takes the place of [r] when [u] is written over it breaks
    no column constraint, and no other row has its email *)
Definition admissible (db : DB) (u : User.t) (r : UserModel.t) (st : Store)
    : Prop :=
  let r' := gorm.assign (NowFunc db) (fromDomainUser u) r in
  users_columns db r' = true
  /\ forall x, In x (users st) ->
       UserModel.Email x = UserModel.Email r' -> x = r.

(** the table once the row of [userID] has given way to [r'] *)
Definition replace_row (userID : UUID) (r' : UserModel.t)
    (rows : list UserModel.t) : list UserModel.t :=
  map (fun x => if N.eqb (UserModel.ID x) userID then r' else x) rows.

(** the aggregate UpdateProfile writes back for the row [r] *)
Definition profile_written (env : Env) (req : UpdateProfileRequest)
    (r : UserModel.t) : User.t :=
  User.IncrementVersion (Now env 1)
    (User.UpdateProfile (Update_FullName req) (Update_Phone req)
       (Update_AvatarURL req) (Now env 0) (UserModel.toDomain r)).


(** the aggregate BanUser writes back for the row [r] *)
Definition ban_written (env : Env) (r : UserModel.t) : User.t :=
  User.IncrementVersion (Now env 1)
    (User.Deactivate (Now env 0) (UserModel.toDomain r)).

(* ------------------------------------------------------------------ *)
(** ** Regular expressions and texts *)


(** the language of a regular expression *)
Inductive matches : regexp.t -> list ascii -> Prop :=
| matches_eps : matches regexp.Eps []
| matches_class (q : ascii -> bool) (c : ascii) :
    q c = true -> matches (regexp.Class q) [c]
| matches_seq (a b : regexp.t) (s1 s2 : list ascii) :
    matches a s1 -> matches b s2 -> matches (regexp.Seq a b) (s1 ++ s2)%list
| matches_alt_l (a b : regexp.t) (s : list ascii) :
    matches a s -> matches (regexp.Alt a b) s
| matches_alt_r (a b : regexp.t) (s : list ascii) :
    matches b s -> matches (regexp.Alt a b) s
| matches_star_nil (a : regexp.t) : matches (regexp.Star a) []
| matches_star_app (a : regexp.t) (s1 s2 : list ascii) :
    matches a s1 -> matches (regexp.Star a) s2 ->
    matches (regexp.Star a) (s1 ++ s2)%list.

(** every character class of [r] lies within [P] *)
Fixpoint classes_within (P : ascii -> bool) (r : regexp.t) : Prop :=
  match r with
  | regexp.Class q => forall c, q c = true -> P c = true
  | regexp.Seq a b => classes_within P a /\ classes_within P b
  | regexp.Alt a b => classes_within P a /\ classes_within P b
  | regexp.Star a => classes_within P a
  | _ => True
  end.

(** every character class of [r] treats a byte and its lower-case form
    alike *)
Fixpoint classes_caseless (r : regexp.t) : Prop :=
  match r with
  | regexp.Class q => forall c, q (strings.lower_byte c) = q c
  | regexp.Seq a b => classes_caseless a /\ classes_caseless b
  | regexp.Alt a b => classes_caseless a /\ classes_caseless b
  | regexp.Star a => classes_caseless a
  | _ => True
  end.

(** the bytes an encoding of white space can start with, and end with *)
Definition space_first (c : ascii) : bool :=
  existsb (fun p => match p with h :: _ => Ascii.eqb h c | [] => false end)
    strings.space_encodings.
Definition space_last (c : ascii) : bool :=
  existsb (fun p => match p with h :: _ => Ascii.eqb h c | [] => false end)
    (map (@rev ascii) strings.space_encodings).

(** the bytes an address accepted by [emailRegexp] is made of *)
Definition email_byte (c : ascii) : bool :=
  local_char c || Ascii.eqb c "@" || domain_char c.

(** an optional [+] and then 7 to 15 digits *)
Definition phone_shape (s : string) : bool :=
  let body := match s with
              | String c b => if Ascii.eqb c "+" then b else s
              | EmptyString => s
              end in
  (7 <=? String.length body)%nat && (String.length body <=? 15)%nat
  && forallb digit (list_ascii_of_string body).

(** every byte *)
Definition all_bytes : list ascii := map ascii_of_nat (seq 0 256).

(* ------------------------------------------------------------------ *)
(** ** Stores *)

(** the keys of the tokens table: no id and no token string occurs twice *)
Definition tokens_keys_ok (st : Store) : bool :=
  gorm.distinct N.eqb (map RefreshTokenModel.ID (refresh_tokens st))
  && gorm.distinct String.eqb
       (map RefreshTokenModel.Token (refresh_tokens st)).

(** the keys of both tables *)
Definition store_keys_ok (st : Store) : bool :=
  users_keys_ok st && tokens_keys_ok st.

(** the fields of an aggregate no method may change *)
Definition same_identity (u u' : User.t) : Prop :=
  User.ID u' = User.ID u /\ User.Email u' = User.Email u
  /\ User.Role u' = User.Role u /\ User.CreatedAt u' = User.CreatedAt u.

(** the view of a stored row *)
Definition view (r : UserModel.t) : UserDTO.t :=
  toUserDTO (UserModel.toDomain r).

(** the service over the GORM repositories *)
Definition gormService (db : DB) (signer : JWTManager) : AuthService Store :=
  NewAuthService (NewGormUserRepository db) (NewGormTokenRepository db) signer.
(** an operation that leaves the keys of the store in order when it finds
    them so *)
Definition keeps_keys (A : Type) (m : M Store A) : Prop :=
  forall st, store_keys_ok st = true -> store_keys_ok (snd (m st)) = true.

(** a signer that has lost its key: it signs nothing and accepts nothing *)
Definition keyless : JWTManager :=
  mkJWTManager
    (fun _ _ _ _ => Fail (New "signing key is missing"))
    (fun _ _ => Fail (New "signing key is missing"))
    (fun _ _ => Fail (New "signing key is missing")).

(** the row of the session a call opens for [userID] with the refresh token
    [token]: the call draws the id [id], reads the clock at [now] for the
    expiry and at [created] for the row's creation time *)
Definition session (id userID : UUID) (token : string) (now created : Time)
    : RefreshTokenModel.t :=
  RefreshTokenModel.mk id userID token (time.Add now refreshWindow) false
    created.

(* ------------------------------------------------------------------ *)
(** ** Referrals *)

Import referral referral_repository referral_service.

(** the referral service over the GORM repository *)
Definition gormReferralService (db : ReferralDB)
    : ReferralService ReferralStore :=
  NewReferralService (NewGormReferralRepository db).

(** a digit of lower-case hexadecimal *)
Definition hex_lower (c : ascii) : bool :=
  regexp.in_range "0" "9" c || regexp.in_range "a" "f" c.

(** the keys of the two referral tables: no referral id and no referee
    occurs twice; no code row id, no user and no code occurs twice *)
Definition referral_keys_ok (st : ReferralStore) : bool :=
  gorm.distinct N.eqb (map ReferralModel.ID (referrals st))
  && gorm.distinct N.eqb (map ReferralModel.RefereeID (referrals st))
  && gorm.distinct N.eqb
       (map UserReferralCodeModel.ID (user_referral_codes st))
  && gorm.distinct N.eqb
       (map UserReferralCodeModel.UserID (user_referral_codes st))
  && gorm.distinct String.eqb
       (map UserReferralCodeModel.Code (user_referral_codes st)).

(** an operation that leaves the keys of the referral tables in order when
    it finds them so *)
Definition keeps_referral_keys (A : Type) (m : M ReferralStore A) : Prop :=
  forall st, referral_keys_ok st = true ->
             referral_keys_ok (snd (m st)) = true.

(** the referral [ProcessReferral] records for a referee who presents the
    code of [owner] *)
Definition recorded (env : Env) (owner refereeID : UUID) (code : string)
    : ReferralModel.t :=
  ReferralModel.mk (NewUUID env 0) owner refereeID code defaultRewardCents
    false false (Now env 0).


Module referral_deployment.

(** the two [varchar(50)] columns, lengths counted in bytes *)
Definition db : ReferralDB :=
  mkReferralDB
    (fun m => (String.length (ReferralModel.ReferralCode m) <=? 50)%nat)
    (fun m => (String.length (UserReferralCodeModel.Code m) <=? 50)%nat)
    (fun _ => None).

Definition service : ReferralService ReferralStore := gormReferralService db.

(** user 1 owns a code, and has referred users 2 and 3 *)
Definition store1 : ReferralStore :=
  mkReferralStore
    [ReferralModel.mk 11 1 2 "REF-0a1b2c3d" 500 false false 7000;
     ReferralModel.mk 12 1 3 "REF-0a1b2c3d" 500 false false 9000]
    [UserReferralCodeModel.mk 10 1 "REF-0a1b2c3d"].

(** four bytes from the random source *)
Definition bytes : list ascii :=
  [ascii_of_nat 222; ascii_of_nat 173; ascii_of_nat 190; ascii_of_nat 239].

End referral_deployment.
(* ------------------------------------------------------------------ *)
(** ** Listings *)



(* ================================================================== *)
(** * Properties *)

(* ------------------------------------------------------------------ *)
(** ** int64 *)

Lemma int64_wrap_in_range (z : Z) :
  int64.min <= z <= int64.max -> int64.wrap z = z.
Proof.
  unfold int64.wrap, int64.min, int64.max. intros H.
  rewrite Z.mod_small; lia.
Qed.

Lemma int64_add_1 (v : Z) :
  int64.min <= v < int64.max -> int64.add v 1 = v + 1.
Proof.
  intros H. unfold int64.add. apply int64_wrap_in_range.
  unfold int64.min, int64.max in *. lia.
Qed.

(* ------------------------------------------------------------------ *)
(** ** The value objects, run *)

Example TrimSpace_ascii :
  strings.TrimSpace (String "009" " +60123456789 ") = "+60123456789".
Proof. reflexivity. Qed.

Example TrimSpace_no_break_space :
  strings.TrimSpace (String "194" (String "160" "a b")) = "a b".
Proof. reflexivity. Qed.

Example NewPhone_trims : NewPhone "  +60123456789 " = Ok (mkPhone "+60123456789").
Proof. reflexivity. Qed.

Example NewPhone_empty : NewPhone "   " = Ok (mkPhone "").
Proof. reflexivity. Qed.

Example NewPhone_six_digits : is_ok (NewPhone "123456") = false.
Proof. reflexivity. Qed.

Example NewPhone_seven_digits : is_ok (NewPhone "1234567") = true.
Proof. reflexivity. Qed.

Example NewPhone_fifteen_digits : is_ok (NewPhone "+123456789012345") = true.
Proof. reflexivity. Qed.

Example NewPhone_sixteen_digits : is_ok (NewPhone "1234567890123456") = false.
Proof. reflexivity. Qed.

Example NewPhone_inner_space : is_ok (NewPhone "+60 123456789") = false.
Proof. reflexivity. Qed.

Example NewEmail_normalises : NewEmail " Ann.B+x@Mail.X.Com " = Ok (mkEmail "ann.b+x@mail.x.com").
Proof. reflexivity. Qed.

Example NewEmail_required : NewEmail "  " = Fail (New "email is required").
Proof. reflexivity. Qed.

Example NewEmail_no_tld : NewEmail "a@x" = Fail (New "invalid email format: a@x").
Proof. reflexivity. Qed.

Example NewEmail_short_tld : is_ok (NewEmail "a@x.c") = false.
Proof. reflexivity. Qed.

Example NewEmail_two_ats : is_ok (NewEmail "a@b@x.com") = false.
Proof. reflexivity. Qed.

(* ------------------------------------------------------------------ *)
(** ** RefreshToken validity *)

Lemma IsExpired_spec (now : Time) (t0 : RefreshToken.t) :
  RefreshToken.IsExpired now t0 = true <-> RefreshToken.expiresAt t0 < now.
Proof.
  unfold RefreshToken.IsExpired, time.After. apply Z.ltb_lt.
Qed.

(** C6, as the code has it: a token is valid exactly when it is not
    revoked and the clock is not after its expiry; the instant of expiry
    itself still counts as valid.  A token past its expiry is invalid whatever
    its revoked flag, and a revoked token is invalid whatever its expiry. *)
Theorem IsValid_iff_not_revoked_not_after_expiry :
  forall (now : Time) (t0 : RefreshToken.t),
    (RefreshToken.IsValid now t0 = true <->
       RefreshToken.revoked t0 = false /\ now <= RefreshToken.expiresAt t0)
    /\ (RefreshToken.expiresAt t0 < now -> RefreshToken.IsValid now t0 = false)
    /\ (RefreshToken.revoked t0 = true -> RefreshToken.IsValid now t0 = false).
Proof.
  intros now t0. unfold RefreshToken.IsValid, RefreshToken.IsExpired, time.After.
  destruct (RefreshToken.revoked t0); simpl;
    destruct (Z.ltb_spec (RefreshToken.expiresAt t0) now); simpl;
    repeat split; intros; try discriminate; try reflexivity;
    try lia; intuition (try discriminate; try lia).
Qed.

(** C6 as stated fails: at the very instant of expiry an unrevoked token
    is valid although the clock is not strictly before [expiresAt]. *)
Lemma IsValid_strictly_before_expiry_refuted :
  ~ (forall (now : Time) (t0 : RefreshToken.t),
       RefreshToken.IsValid now t0 = true <->
       RefreshToken.revoked t0 = false /\ now < RefreshToken.expiresAt t0).
Proof.
  intros H.
  destruct (H 100 (RefreshToken.mk 1 1 "t" 100 false 0)) as [H1 _].
  assert (E : RefreshToken.IsValid 100 (RefreshToken.mk 1 1 "t" 100 false 0) = true)
    by reflexivity.
  destruct (H1 E) as [_ L]. simpl in L. lia.
Qed.

(** Revocation is one-way on the entity: no clock makes a revoked token
    valid. *)
Lemma Revoke_invalidates (now : Time) (t0 : RefreshToken.t) :
  RefreshToken.IsValid now (RefreshToken.Revoke t0) = false.
Proof. reflexivity. Qed.

(* ------------------------------------------------------------------ *)
(** ** Login: failures at the service boundary *)

Section LoginFailures.

Variable W : Type.
Variable bcrypt : Bcrypt.
Variable s : AuthService W.

Lemma Login_unknown_email env req w e w' :
  UserRepository_FindByEmail (userRepo s) (Login_Email req) w = (Fail e, w') ->
  Login bcrypt s env req w = (Fail invalidCredentials, w').
Proof.
  intros H. unfold Login, bind_or. rewrite H. reflexivity.
Qed.

Lemma Login_hash_mismatch env req w u e w' :
  UserRepository_FindByEmail (userRepo s) (Login_Email req) w = (Ok u, w') ->
  CompareHashAndPassword bcrypt (User.PasswordHash u) (Login_Password req)
    = Some e ->
  Login bcrypt s env req w = (Fail invalidCredentials, w').
Proof.
  intros H C. unfold Login, bind_or. rewrite H, C. reflexivity.
Qed.

(** C5: a login that fails because the email is unknown and a login that
    fails because the password does not match the stored hash return one and
    the same error, Unauthorized with the message
    "invalid email or password". *)
Theorem Login_failures_indistinguishable :
  forall env1 req1 w1 e1 w1' env2 req2 w2 u e2 w2',
    UserRepository_FindByEmail (userRepo s) (Login_Email req1) w1
      = (Fail e1, w1') ->
    UserRepository_FindByEmail (userRepo s) (Login_Email req2) w2
      = (Ok u, w2') ->
    CompareHashAndPassword bcrypt (User.PasswordHash u) (Login_Password req2)
      = Some e2 ->
    fst (Login bcrypt s env1 req1 w1) = fst (Login bcrypt s env2 req2 w2)
    /\ fst (Login bcrypt s env1 req1 w1)
       = Fail (NewUnauthorizedError "invalid email or password")
    /\ kind invalidCredentials = Unauthorized.
Proof.
  intros env1 req1 w1 e1 w1' env2 req2 w2 u e2 w2' H1 H2 C.
  rewrite (Login_unknown_email env1 req1 w1 H1).
  rewrite (Login_hash_mismatch env2 req2 w2 H2 C).
  repeat split.
Qed.

End LoginFailures.

(** An instance: an unknown address and a wrong password, tried against the
    store that holds user A. *)
Lemma Login_failures_indistinguishable_witness :
  let st := snd deployment.registered in
  fst (deployment.Login (deployment.at_ 9000 30)
         (mkLoginRequest "nobody@x.com" "longpass1") st)
  = fst (deployment.Login (deployment.at_ 9500 40)
           (mkLoginRequest "a@x.com" "longpass2") st)
  /\ fst (deployment.Login (deployment.at_ 9000 30)
            (mkLoginRequest "nobody@x.com" "longpass1") st)
     = Fail (NewUnauthorizedError "invalid email or password")
  /\ kind invalidCredentials = Unauthorized.
Proof.
  intros st.
  apply (@Login_failures_indistinguishable Store deployment.hasher
           deployment.service
           (deployment.at_ 9000 30) (mkLoginRequest "nobody@x.com" "longpass1")
           st ErrNotFound st
           (deployment.at_ 9500 40) (mkLoginRequest "a@x.com" "longpass2")
           st
           (UserModel.toDomain
              (UserModel.mk 1 "a@x.com" "" "$2a$longpass1" "Ann" "owner"
                 false "" 1 1000 1000))
           (New "hashedPassword is not the hash of the given password") st);
    reflexivity.
Defined.

(* ------------------------------------------------------------------ *)
(** ** Logout *)

Lemma RevokeAllForUser_spec db userID st :
  GormTokenRepository.RevokeAllForUser db userID st
  = match unavailable db UPDATE_revoked with
    | Some err => (Fail err, st)
    | None =>
        (Ok tt,
         mkStore (users st) (map (revoked_for userID) (refresh_tokens st)))
    end.
Proof.
  unfold GormTokenRepository.RevokeAllForUser, gorm.Update_revoked.
  destruct (unavailable db UPDATE_revoked); [reflexivity |]. simpl.
  do 2 f_equal. apply map_ext. intros r. unfold revoked_for.
  destruct r as [i u tk ex rv cr]; simpl.
  destruct (N.eqb u userID); simpl; [destruct rv|]; reflexivity.
Qed.





(** C8 as stated fails: Logout does return an error, the one its bulk
    revocation meets, here for a user who has no token at all. *)
Lemma Logout_never_fails_refuted :
  ~ (forall (db : DB) (signer : JWTManager) (userID : UUID) (st : Store),
       fst (Logout
              (NewAuthService (NewGormUserRepository db)
                 (NewGormTokenRepository db) signer) userID st) = Ok tt).
Proof.
  intros H.
  specialize (H deployment.db_down deployment.signer 1%N deployment.empty).
  discriminate H.
Qed.

(** Logout hands on what the bulk revocation reports: it fails exactly when
    the token repository does. *)
Lemma Logout_reports_repository_error (W : Type) (s : AuthService W)
    (userID : UUID) (w w' : W) (e : Error) :
  TokenRepository_RevokeAllForUser (tokenRepo s) userID w = (Fail e, w') ->
  Logout s userID w = (Fail (Wrap "failed to revoke tokens" e), w').
Proof.
  intros H. unfold Logout, bind_or. rewrite H. reflexivity.
Qed.

(** Register, a login with a wrong password, a refresh, a logout and a
    refresh with the newest token, run in this order from the empty store. *)
Example register_refresh_logout_refresh :
  let wrong := deployment.Login (deployment.at_ 4000 5)
                 (mkLoginRequest "a@x.com" "longpass2") deployment.storeA in
  let fresh := deployment.RefreshToken (deployment.at_ 5000 10)
                 deployment.tokenA deployment.storeA in
  let out := deployment.Logout 1 (snd fresh) in
  map UserModel.Version (users deployment.storeA) = [1]
  /\ map UserModel.IsVerified (users deployment.storeA) = [false]
  /\ fst wrong = Fail invalidCredentials
  /\ option_map RefreshToken_
       (match fst fresh with Ok resp => Some resp | Fail _ => None end)
     = Some "refresh.1.8000"
  /\ fst out = Ok tt
  /\ fst (deployment.RefreshToken (deployment.at_ 9000 20) "refresh.1.8000"
            (snd out))
     = Fail (NewUnauthorizedError "refresh token is expired or revoked").
Proof. vm_compute. repeat split. Qed.

(* ------------------------------------------------------------------ *)
(** ** RefreshToken: rotation *)

(** The reads of the two repositories leave the store alone. *)
Lemma FindByID_store db id st r st' :
  GormUserRepository.FindByID db id st = (r, st') -> st' = st.
Proof.
  unfold GormUserRepository.FindByID.
  destruct (gorm.First _ _); intros H; inversion H; reflexivity.
Qed.

Lemma FindByEmail_store db email st r st' :
  GormUserRepository.FindByEmail db email st = (r, st') -> st' = st.
Proof.
  unfold GormUserRepository.FindByEmail.
  destruct (gorm.First _ _); intros H; inversion H; reflexivity.
Qed.

Lemma FindByToken_store db token st r st' :
  GormTokenRepository.FindByToken db token st = (r, st') -> st' = st.
Proof.
  unfold GormTokenRepository.FindByToken.
  destruct (gorm.First _ _); intros H; inversion H; reflexivity.
Qed.

(** Saving a token adds at most one row at the end of the tokens table. *)
Lemma Save_token_appends db t0 st r st' :
  GormTokenRepository.Save db t0 st = (r, st') ->
  users st' = users st
  /\ exists new, refresh_tokens st' = (refresh_tokens st ++ new)%list.
Proof.
  unfold GormTokenRepository.Save, gorm.Create_refresh_tokens.
  repeat match goal with
         | |- context [if ?x then _ else _] => destruct x
         end; intros H; inversion H; subst; simpl; split; try reflexivity;
    try (exists []; symmetry; apply app_nil_r).
  eexists; reflexivity.
Qed.

(** Whatever its outcome, RefreshToken leaves every stored row as it was: the
    users table is untouched and the tokens table can only grow at its end.
    In particular the revoked flag of the presented token is not written. *)
Lemma RefreshToken_only_appends (db : DB) (signer : JWTManager) (env : Env)
    (token : string) (st st' : Store) (r : result AuthResponse) :
  application.RefreshToken
    (NewAuthService (NewGormUserRepository db) (NewGormTokenRepository db)
       signer) env token st = (r, st') ->
  users st' = users st
  /\ exists new, refresh_tokens st' = (refresh_tokens st ++ new)%list.
Proof.
  set (s := NewAuthService _ _ _).
  assert (Same : forall x : Store, users x = users x
                 /\ exists new, refresh_tokens x = (refresh_tokens x ++ new)%list).
  { intros x. split; [reflexivity | exists []; symmetry; apply app_nil_r]. }
  unfold application.RefreshToken, bind_or, pure, fail, ret.
  destruct (ValidateToken (jwt s) (Now env 0) token) as [claims | e];
    [| intros H; inversion H; subst; apply Same].
  destruct (TokenRepository_FindByToken (tokenRepo s) token st)
    as [[stored | e] st1] eqn:F; apply (FindByToken_store db) in F; subst st1;
    [| intros H; inversion H; subst; apply Same].
  destruct (negb (RefreshToken.IsValid (Now env 1) stored));
    [intros H; inversion H; subst; apply Same |].
  cbv beta.
  destruct (UserRepository_FindByID (userRepo s) (UserID claims) st)
    as [[user | e] st1] eqn:F; apply (FindByID_store db) in F; subst st1;
    [| intros H; inversion H; subst; apply Same].
  destruct (GenerateAccessToken (jwt s) (Now env 2) (User.ID user)
              (User.Email user) (User.Role user)) as [at_ | e];
    [| intros H; inversion H; subst; apply Same].
  destruct (GenerateRefreshToken (jwt s) (Now env 3) (User.ID user))
    as [rt | e]; [| intros H; inversion H; subst; apply Same].
  match goal with
  | |- context [TokenRepository_Save (tokenRepo s) ?t st] =>
      destruct (TokenRepository_Save (tokenRepo s) t st) as [[[] | e] st1] eqn:Sv
  end; apply (Save_token_appends db) in Sv;
    intros H; inversion H; subst; exact Sv.
Qed.

Lemma find_app_found (A : Type) (p : A -> bool) (l new : list A) (x : A) :
  find p l = Some x -> find p (l ++ new)%list = Some x.
Proof.
  induction l as [| a l IH]; simpl; [discriminate |].
  destruct (p a); [trivial | exact IH].
Qed.

(** A successful exchange found the presented token stored and valid. *)
Lemma RefreshToken_ok_found (db : DB) (signer : JWTManager) (env : Env)
    (token : string) (st st' : Store) (resp : AuthResponse) :
  application.RefreshToken
    (NewAuthService (NewGormUserRepository db) (NewGormTokenRepository db)
       signer) env token st = (Ok resp, st') ->
  exists record,
    find (fun m => String.eqb (RefreshTokenModel.Token m) token)
      (refresh_tokens st) = Some record
    /\ RefreshToken.IsValid (Now env 1) (RefreshTokenModel.toDomain record)
       = true.
Proof.
  set (s := NewAuthService _ _ _).
  unfold application.RefreshToken, bind_or, pure, fail, ret.
  destruct (ValidateToken (jwt s) (Now env 0) token) as [claims | e];
    [| discriminate].
  change (TokenRepository_FindByToken (tokenRepo s) token st)
    with (GormTokenRepository.FindByToken db token st).
  unfold GormTokenRepository.FindByToken, gorm.First.
  destruct (find _ (refresh_tokens st)) as [record |]; [| discriminate].
  destruct (RefreshToken.IsValid (Now env 1) (RefreshTokenModel.toDomain record))
    eqn:V; simpl negb; cbv iota; [| discriminate].
  intros _. exists record. split; [reflexivity | exact V].
Qed.

(** After a successful exchange the presented token is still in the store,
    the very record it was, unrevoked: it is as valid as before. *)
Lemma RefreshToken_does_not_revoke (db : DB) (signer : JWTManager) (env : Env)
    (token : string) (st st' : Store) (resp : AuthResponse) :
  application.RefreshToken
    (NewAuthService (NewGormUserRepository db) (NewGormTokenRepository db)
       signer) env token st = (Ok resp, st') ->
  exists record,
    find (fun m => String.eqb (RefreshTokenModel.Token m) token)
      (refresh_tokens st) = Some record
    /\ find (fun m => String.eqb (RefreshTokenModel.Token m) token)
         (refresh_tokens st') = Some record
    /\ RefreshTokenModel.Revoked record = false.
Proof.
  intros H.
  destruct (RefreshToken_only_appends _ _ _ _ _ H) as [_ [new App]].
  destruct (RefreshToken_ok_found _ _ _ _ _ H) as [record [F V]].
  exists record. split; [exact F |]. split.
  - rewrite App. apply find_app_found. exact F.
  - unfold RefreshToken.IsValid in V. apply andb_true_iff in V.
    destruct V as [V _]. apply negb_true_iff in V. exact V.
Qed.

(** C1 fails on the code.  User A registers and receives a refresh token;
    A presents it, and receives a new pair; the record of the presented token
    is still unrevoked in the store; A presents the same token once more, and
    receives yet another pair instead of Unauthorized. *)
Theorem RefreshToken_replay_is_accepted :
  let tok := deployment.tokenA in
  let st1 := snd (deployment.RefreshToken (deployment.at_ 5000 10) tok
                    deployment.storeA) in
  option_map RefreshToken_ (match fst deployment.registered with
                            | Ok resp => Some resp | Fail _ => None end)
    = Some tok
  /\ is_ok (fst (deployment.RefreshToken (deployment.at_ 5000 10) tok
                   deployment.storeA)) = true
  /\ option_map RefreshTokenModel.Revoked
       (find (fun m => String.eqb (RefreshTokenModel.Token m) tok)
          (refresh_tokens st1)) = Some false
  /\ fst (deployment.RefreshToken (deployment.at_ 9000 20) tok st1)
     = Ok (mkAuthResponse "access.1.11000" "refresh.1.12000"
             (UserDTO.mk 1 "a@x.com" "" "Ann" "owner" false "" 1000)).
Proof. vm_compute. repeat split. Qed.

(* ------------------------------------------------------------------ *)
(** ** Register: duplicate emails *)

(** When the lookup by email finds a user, Register answers AlreadyExists. *)
Lemma Register_found_already_exists (W : Type) (bcrypt : Bcrypt)
    (s : AuthService W) (env : Env) (req : RegisterRequest) (w w' : W)
    (u : User.t) :
  UserRepository_FindByEmail (userRepo s) (Register_Email req) w = (Ok u, w') ->
  Register bcrypt s env req w
  = (Fail (NewAlreadyExistsError "User" "email" (Register_Email req)), w').
Proof.
  intros H. unfold Register, attempt. rewrite H. reflexivity.
Qed.

(** What Save reports is the driver's error as it comes: never a domain
    AlreadyExists. *)
Lemma Save_error_is_not_translated (db : DB) (u : User.t) (st st' : Store)
    (e : Error) :
  GormUserRepository.Save db u st = (Fail e, st') -> kind e = Internal.
Proof.
  unfold GormUserRepository.Save, gorm.Create_users, error_of.
  repeat match goal with
         | |- context [if ?x then _ else _] => destruct x
         end; simpl; intros H; inversion H; reflexivity.
Qed.

(** C2 fails on the code.  With a@x.com registered, registering
    A@x.com (equal up to case) passes the lookup, which compares the address
    as typed with the normalised one in the store, and runs into the unique
    index: the error is the wrapped driver error, of kind Internal, and not
    AlreadyExists.  The address typed exactly as stored does give
    AlreadyExists. *)
Theorem Register_case_variant_is_not_AlreadyExists :
  let again (email : string) :=
    fst (deployment.Register (deployment.at_ 5000 10)
           (mkRegisterRequest email "" "Ann" "longpass1" "owner")
           deployment.storeA) in
  map UserModel.Email (users deployment.storeA) = ["a@x.com"]
  /\ again "A@x.com"
     = Fail (Wrap "failed to save user" (UniqueViolation "users" "email"))
  /\ kind (Wrap "failed to save user" (UniqueViolation "users" "email"))
     = Internal
  /\ again "a@x.com" = Fail (NewAlreadyExistsError "User" "email" "a@x.com").
Proof. vm_compute. repeat split. Qed.

(* ------------------------------------------------------------------ *)
(** ** BanUser *)

(** The ban stands whatever the bulk revocation reports: once the user is
    found and the update goes through, BanUser returns without error. *)
Lemma BanUser_ignores_revocation_outcome (W : Type) (s : AuthService W)
    (env : Env) (userID : UUID) (w w1 w2 w3 : W) (u : User.t)
    (outcome : result unit) :
  UserRepository_FindByID (userRepo s) userID w = (Ok u, w1) ->
  UserRepository_Update (userRepo s)
    (User.IncrementVersion (Now env 1) (User.Deactivate (Now env 0) u)) w1
    = (Ok tt, w2) ->
  TokenRepository_RevokeAllForUser (tokenRepo s) userID w2 = (outcome, w3) ->
  BanUser s env userID w = (Ok tt, w3).
Proof.
  intros F U R. unfold BanUser, bind_or, attempt, ret.
  rewrite F, U, R. reflexivity.
Qed.

(** C3 fails on the code.  A is verified, at version 1, and holds two
    refresh tokens.  BanUser(A) returns without error, the version becomes 2
    and both tokens are revoked, but the stored verified flag is still set,
    and GetProfile shows it: the UPDATE leaves out the fields of the model
    that are zero values, and [false] is one. *)
Theorem BanUser_leaves_verified_flag_set :
  let banned := deployment.BanUser (deployment.at_ 20000 50) 1
                  deployment.storeA_verified in
  map UserModel.IsVerified (users deployment.storeA_verified) = [true]
  /\ fst banned = Ok tt
  /\ map UserModel.Version (users (snd banned)) = [2]
  /\ map RefreshTokenModel.Revoked (refresh_tokens (snd banned)) = [true; true]
  /\ map UserModel.IsVerified (users (snd banned)) = [true]
  /\ fst (deployment.GetProfile 1 (snd banned))
     = Ok (UserDTO.mk 1 "a@x.com" "" "Ann" "owner" true "" 1000).
Proof. vm_compute. repeat split. Qed.

(* ------------------------------------------------------------------ *)
(** ** The phone of a user *)

(** Registration validates: the phone of a user built by NewUser is empty or
    well-formed. *)
Lemma NewUser_phone_wellformed email phone fullName passwordHash role id now u :
  NewUser email phone fullName passwordHash role id now = Ok u ->
  phone_wellformed (User.Phone u) = true.
Proof.
  unfold NewUser, NewPhone, phone_wellformed.
  destruct (NewEmail email); [| discriminate].
  destruct (String.eqb (strings.TrimSpace phone) "") eqn:E.
  - destruct (String.eqb fullName ""); [discriminate |].
    destruct (String.eqb passwordHash ""); [discriminate |].
    intros H. inversion H. reflexivity.
  - destruct (regexp.MatchString phoneRegexp (strings.TrimSpace phone)) eqn:Mt;
      simpl; [| discriminate].
    destruct (String.eqb fullName ""); [discriminate |].
    destruct (String.eqb passwordHash ""); [discriminate |].
    intros H. inversion H. unfold User.Phone. simpl. rewrite Mt.
    apply orb_true_r.
Qed.

(** The profile update does not: any non-empty text becomes the phone. *)
Lemma UpdateProfile_sets_phone_unchecked fullName phone avatarURL now u :
  phone <> "" ->
  User.Phone (User.UpdateProfile fullName phone avatarURL now u) = phone.
Proof.
  intros H. unfold User.UpdateProfile.
  destruct (String.eqb_spec phone ""); [contradiction |]. simpl.
  destruct (negb (String.eqb fullName "")), (negb (String.eqb avatarURL ""));
    reflexivity.
Qed.

(** C9 fails on the code.  A registered without a phone; UpdateProfile
    with the phone "not-a-phone" succeeds, and the stored user has a phone
    that is neither empty nor well-formed. *)
Theorem UpdateProfile_stores_malformed_phone :
  let updated := deployment.UpdateProfile (deployment.at_ 20000 50) 1
                   (mkUpdateProfileRequest "" "not-a-phone" "")
                   deployment.storeA in
  map UserModel.Phone (users deployment.storeA) = [""]
  /\ is_ok (fst updated) = true
  /\ map UserModel.Phone (users (snd updated)) = ["not-a-phone"]
  /\ phone_wellformed "not-a-phone" = false
  /\ is_ok (NewPhone "not-a-phone") = false.
Proof. vm_compute. repeat split. Qed.

(* ------------------------------------------------------------------ *)
(** ** Keys and conditional updates of a table *)

Section Keys.

Variables (A K : Type) (eqb : K -> K -> bool) (key : A -> K).
Hypothesis eqb_spec : forall x y, reflect (x = y) (eqb x y).

Lemma existsb_eqb_In (k : K) (l : list K) :
  existsb (eqb k) l = true <-> In k l.
Proof.
  rewrite existsb_exists. split.
  - intros [x [I E]]. destruct (eqb_spec k x); [subst; exact I | discriminate].
  - intros I. exists k. split; [exact I |].
    destruct (eqb_spec k k); [reflexivity | contradiction].
Qed.

Lemma distinct_NoDup (l : list K) :
  gorm.distinct eqb l = true <-> NoDup l.
Proof.
  induction l as [| k l IH]; simpl.
  - split; [constructor | reflexivity].
  - rewrite andb_true_iff, negb_true_iff, IH. split.
    + intros [N D]. constructor; [| exact D].
      intros I. apply existsb_eqb_In in I. congruence.
    + intros D. inversion D as [| ? ? N D']; subst. split; [| exact D'].
      destruct (existsb (eqb k) l) eqn:E; [| reflexivity].
      apply existsb_eqb_In in E. contradiction.
Qed.

(** a key that occurs once names its row *)
Lemma NoDup_key_inj (l : list A) (x y : A) :
  NoDup (map key l) -> In x l -> In y l -> key x = key y -> x = y.
Proof.
  induction l as [| a l IH]; simpl; [contradiction |].
  intros D Ix Iy E. inversion D as [| ? ? N D']; subst.
  destruct Ix as [-> | Ix], Iy as [-> | Iy].
  - reflexivity.
  - exfalso. apply N. rewrite E. apply in_map. exact Iy.
  - exfalso. apply N. rewrite <- E. apply in_map. exact Ix.
  - apply IH; assumption.
Qed.

Lemma filter_none (p : A -> bool) (l : list A) :
  (forall x, In x l -> p x = false) -> filter p l = [].
Proof.
  induction l as [| a l IH]; simpl; [reflexivity |].
  intros H. rewrite (H a (or_introl eq_refl)). apply IH.
  intros x Ix. apply H. right. exact Ix.
Qed.

(** the rows picked by a condition that only the row [r] can meet *)
Lemma filter_single (p : A -> bool) (l : list A) (r : A) :
  NoDup (map key l) -> In r l ->
  (forall x, In x l -> p x = true -> x = r) ->
  filter p l = if p r then [r] else [].
Proof.
  induction l as [| a l IH]; simpl; [contradiction |].
  intros D I U. inversion D as [| ? ? N D']; subst.
  destruct I as [-> | I].
  - rewrite (filter_none p l).
    + destruct (p r); reflexivity.
    + intros x Ix. destruct (p x) eqn:Px; [| reflexivity].
      exfalso. apply N. assert (x = r) by (apply U; auto). subst x.
      apply in_map. exact Ix.
  - destruct (p a) eqn:Pa.
    + exfalso. apply N. assert (a = r) by (apply U; auto). subst a.
      apply in_map. exact I.
    + apply IH; auto.
Qed.

(** rewriting the one row a condition picks keeps a key column free of
    repetitions, provided no other row has the new key *)
Lemma NoDup_map_rewrite (p : A -> bool) (f : A -> A) (l : list A) (r : A) :
  NoDup (map key l) ->
  (forall x, In x l -> p x = true -> x = r) ->
  (forall x, In x l -> key x = key (f r) -> x = r) ->
  NoDup (map key (map (fun x => if p x then f x else x) l)).
Proof.
  induction l as [| a l IH]; simpl; [constructor |].
  intros D U F. inversion D as [| ? ? N D']; subst.
  assert (IHl : NoDup (map key (map (fun x => if p x then f x else x) l))).
  { apply IH; auto. }
  constructor; [| exact IHl].
  rewrite map_map. intros I. apply in_map_iff in I.
  destruct I as [x [E Ix]].
  destruct (p a) eqn:Pa, (p x) eqn:Px.
  - assert (a = r) by (apply U; auto). assert (x = r) by (apply U; auto).
    subst. apply N. apply in_map. exact Ix.
  - assert (a = r) by (apply U; auto). subst a.
    assert (x = r) by (apply F; auto). subst x. congruence.
  - assert (x = r) by (apply U; auto). subst x.
    assert (a = r) by (apply F; auto). subst a. congruence.
  - apply N. rewrite <- E. apply in_map. exact Ix.
Qed.

End Keys.

(* ------------------------------------------------------------------ *)
(** ** The user store: Update as a version fence *)

(** Update, step by step: the one UPDATE statement and the reading of its
    outcome. *)
Lemma Update_eq (db : DB) (u : User.t) (st : Store) :
  GormUserRepository.Update db u st =
  let rows := map (fun r => if fence u r then gorm.assign (NowFunc db) (fromDomainUser u) r
                            else r) (users st) in
  if Z.eqb (gorm.count (fence u) (users st)) 0 then (Fail conflict, st)
  else if negb (forallb (fun r => users_columns db
                                    (gorm.assign (NowFunc db) (fromDomainUser u) r))
                  (filter (fence u) (users st)))
  then (Fail (CheckViolation "users"), st)
  else if negb (gorm.distinct N.eqb (map UserModel.ID rows))
  then (Fail (UniqueViolation "users" "id"), st)
  else if negb (gorm.distinct String.eqb (map UserModel.Email rows))
  then (Fail (UniqueViolation "users" "email"), st)
  else (Ok tt, mkStore rows (refresh_tokens st)).
Proof.
  unfold GormUserRepository.Update, gorm.Updates_users.
  change (fun r : UserModel.t =>
            N.eqb (UserModel.ID r) (UserModel.ID (fromDomainUser u))
            && Z.eqb (UserModel.Version r)
                 (int64.sub (UserModel.Version (fromDomainUser u)) 1))
    with (fence u).
  cbv zeta.
  destruct (Z.eqb (gorm.count (fence u) (users st)) 0) eqn:C0.
  - reflexivity.
  - destruct (negb (forallb _ _)); [reflexivity |].
    destruct (negb (gorm.distinct N.eqb _)); [reflexivity |].
    destruct (negb (gorm.distinct String.eqb _)); [reflexivity |].
    simpl. rewrite C0. reflexivity.
Qed.

Lemma users_keys_ok_NoDup (st : Store) :
  users_keys_ok st = true ->
  NoDup (map UserModel.ID (users st))
  /\ NoDup (map UserModel.Email (users st)).
Proof.
  unfold users_keys_ok. rewrite andb_true_iff.
  rewrite (distinct_NoDup _ N.eqb_spec), (distinct_NoDup _ String.eqb_spec).
  trivial.
Qed.

Lemma fence_on_row (u : User.t) (r : UserModel.t) :
  UserModel.ID r = User.ID u ->
  fence u r = Z.eqb (UserModel.Version r) (int64.sub (User.Version u) 1).
Proof.
  intros E. unfold fence. rewrite E, N.eqb_refl. reflexivity.
Qed.

Lemma fence_picks_row (u : User.t) (st : Store) (r : UserModel.t) :
  NoDup (map UserModel.ID (users st)) -> In r (users st) ->
  UserModel.ID r = User.ID u ->
  forall x, In x (users st) -> fence u x = true -> x = r.
Proof.
  intros D I E x Ix Fx. unfold fence in Fx. apply andb_true_iff in Fx.
  destruct Fx as [Fx _]. apply N.eqb_eq in Fx.
  apply (@NoDup_key_inj _ _ UserModel.ID (users st)); auto. congruence.
Qed.

Lemma assign_keeps_ID (db : DB) (u : User.t) (r : UserModel.t) :
  UserModel.ID r = User.ID u ->
  UserModel.ID (gorm.assign (NowFunc db) (fromDomainUser u) r) = UserModel.ID r.
Proof.
  intros E. simpl. destruct (N.eqb (User.ID u) 0); congruence.
Qed.

(** What Update leaves behind when it succeeds. *)
Lemma Update_ok_inv (db : DB) (u : User.t) (st st' : Store) :
  GormUserRepository.Update db u st = (Ok tt, st') ->
  st' = mkStore
          (map (fun r => if fence u r then gorm.assign (NowFunc db) (fromDomainUser u) r
                         else r) (users st))
          (refresh_tokens st).
Proof.
  rewrite Update_eq. cbv zeta.
  repeat match goal with
         | |- context [if ?x then _ else _] => destruct x
         end; intros H; inversion H; reflexivity.
Qed.

(** Conflict is the answer to zero affected rows and to nothing else. *)
Lemma Update_conflict_iff_zero_rows (db : DB) (u : User.t) (st : Store) :
  fst (GormUserRepository.Update db u st) = Fail conflict
  <-> gorm.count (fence u) (users st) = 0.
Proof.
  rewrite Update_eq. cbv zeta.
  destruct (Z.eqb_spec (gorm.count (fence u) (users st)) 0) as [C | C].
  - split; [intros _; exact C | reflexivity].
  - split; [| contradiction].
    repeat match goal with
           | |- context [if ?x then _ else _] => destruct x
           end; simpl; intros H; discriminate.
Qed.

(** A failed Update leaves the store as it was. *)
Lemma Update_fail_store (db : DB) (u : User.t) (st st' : Store) (e : Error) :
  GormUserRepository.Update db u st = (Fail e, st') -> st' = st.
Proof.
  rewrite Update_eq. cbv zeta.
  repeat match goal with
         | |- context [if ?x then _ else _] => destruct x
         end; intros H; inversion H; reflexivity.
Qed.

(** The rows after an UPDATE fenced on the row [r]. *)
Lemma fenced_rows (db : DB) (u : User.t) (st : Store) (r : UserModel.t) :
  NoDup (map UserModel.ID (users st)) -> In r (users st) ->
  UserModel.ID r = User.ID u ->
  UserModel.Version r = int64.sub (User.Version u) 1 ->
  map (fun x => if fence u x then gorm.assign (NowFunc db) (fromDomainUser u) x else x)
    (users st)
  = replace_row (User.ID u) (gorm.assign (NowFunc db) (fromDomainUser u) r) (users st).
Proof.
  intros DI I E Hit. unfold replace_row. apply map_ext_in. intros x Ix.
  destruct (N.eqb_spec (UserModel.ID x) (User.ID u)) as [Ex | Nx].
  - assert (x = r)
      by (apply (@NoDup_key_inj _ _ UserModel.ID (users st)); auto;
          congruence).
    subst x. rewrite (@fence_on_row u r E), Hit, Z.eqb_refl. reflexivity.
  - unfold fence. destruct (N.eqb_spec (UserModel.ID x) (User.ID u));
      [contradiction | reflexivity].
Qed.

(** The fence met and the written row admissible, Update goes through. *)
Lemma Update_admissible_ok (db : DB) (u : User.t) (st : Store)
    (r : UserModel.t) :
  users_keys_ok st = true -> In r (users st) ->
  UserModel.ID r = User.ID u ->
  UserModel.Version r = int64.sub (User.Version u) 1 ->
  admissible db u r st ->
  GormUserRepository.Update db u st
  = (Ok tt,
     mkStore (replace_row (User.ID u) (gorm.assign (NowFunc db) (fromDomainUser u) r)
                (users st))
       (refresh_tokens st)).
Proof.
  intros Keys I E Hit [Cols Mail].
  destruct (@users_keys_ok_NoDup st Keys) as [DI DE].
  pose proof (@fence_picks_row u st r DI I E) as Pick.
  assert (Flt : filter (fence u) (users st) = [r]).
  { rewrite (@filter_single _ _ UserModel.ID (fence u) (users st) r DI I Pick).
    rewrite (@fence_on_row u r E), Hit, Z.eqb_refl. reflexivity. }
  rewrite Update_eq. cbv zeta. unfold gorm.count. rewrite Flt.
  simpl forallb. rewrite Cols. simpl.
  assert (NI : gorm.distinct N.eqb
                 (map UserModel.ID
                    (map (fun x => if fence u x
                                   then gorm.assign (NowFunc db) (fromDomainUser u) x
                                   else x) (users st))) = true).
  { apply (distinct_NoDup _ N.eqb_spec).
    apply (@NoDup_map_rewrite _ _ UserModel.ID) with (r := r);
      [exact DI | exact Pick |].
    intros x Ix Ek. rewrite (@assign_keeps_ID db u r E) in Ek.
    apply (@NoDup_key_inj _ _ UserModel.ID (users st)); auto. }
  assert (NE : gorm.distinct String.eqb
                 (map UserModel.Email
                    (map (fun x => if fence u x
                                   then gorm.assign (NowFunc db) (fromDomainUser u) x
                                   else x) (users st))) = true).
  { apply (distinct_NoDup _ String.eqb_spec).
    apply (@NoDup_map_rewrite _ _ UserModel.Email) with (r := r);
      [exact DE | exact Pick | exact Mail]. }
  rewrite NI, NE. simpl. rewrite (@fenced_rows db u st r DI I E Hit). reflexivity.
Qed.

(** the version before a version is another version (int64 arithmetic) *)
Lemma int64_sub_1_neq (v : Z) : int64.sub v 1 <> v.
Proof.
  unfold int64.sub, int64.wrap. intros E.
  pose proof (Z.div_mod (v - 1 + 2 ^ 63) (2 ^ 64)) as D.
  change (2 ^ 64) with 18446744073709551616 in *.
  change (2 ^ 63) with 9223372036854775808 in *.
  specialize (D ltac:(lia)). lia.
Qed.




(** C4 as stated fails: the stored version can be the written version minus
    1 and Update fail all the same.  A's row is at version 1; UpdateProfile
    with a phone number of 21 characters prepares A at version 2, and the
    UPDATE is refused by the column [phone VARCHAR(20)]. *)
Lemma Update_succeeds_iff_versions_match_refuted :
  ~ (forall (db : DB) (u : User.t) (st : Store) (r : UserModel.t),
       users_keys_ok st = true ->
       In r (users st) ->
       UserModel.ID r = User.ID u ->
       (fst (GormUserRepository.Update db u st) = Ok tt
        <-> UserModel.Version r = int64.sub (User.Version u) 1)).
Proof.
  intros H.
  pose (u := profile_written (deployment.at_ 20000 50)
               (mkUpdateProfileRequest "" "+60123456789012345678" "")
               deployment.rowA).
  destruct (H deployment.db u deployment.storeA deployment.rowA eq_refl
              (or_introl eq_refl) eq_refl) as [_ Back].
  specialize (Back eq_refl). vm_compute in Back. discriminate Back.
Qed.

(** The two outcomes of the fence on A's row, run. *)
Example Update_fence_runs :
  let st := deployment.storeA in
  let a := UserModel.toDomain deployment.rowA in
  let v2 := User.IncrementVersion 2000 a in
  let v3 := User.IncrementVersion 3000 v2 in
  admissible deployment.db v2 deployment.rowA st
  /\ fst (GormUserRepository.Update deployment.db v2 st) = Ok tt
  /\ map UserModel.Version
       (users (snd (GormUserRepository.Update deployment.db v2 st))) = [2]
  /\ GormUserRepository.Update deployment.db v3 st = (Fail conflict, st)
  /\ GormUserRepository.Update deployment.db a st = (Fail conflict, st).
Proof.
  split; [| vm_compute; repeat split].
  split; [reflexivity |].
  intros x [<- | []] _. reflexivity.
Qed.

(* ------------------------------------------------------------------ *)
(** ** UpdateProfile *)

(** The aggregate after [UpdateProfile] and [IncrementVersion], field by
    field. *)
Lemma UpdateProfile_then_IncrementVersion fullName phone avatarURL t1 t2
    (u : User.t) :
  let u' := User.IncrementVersion t2
              (User.UpdateProfile fullName phone avatarURL t1 u) in
  User.FullName u' = (if String.eqb fullName "" then User.FullName u
                      else fullName)
  /\ User.Phone u' = (if String.eqb phone "" then User.Phone u else phone)
  /\ User.AvatarURL u' = (if String.eqb avatarURL "" then User.AvatarURL u
                          else avatarURL)
  /\ User.ID u' = User.ID u
  /\ User.Email u' = User.Email u
  /\ User.PasswordHash u' = User.PasswordHash u
  /\ User.Role u' = User.Role u
  /\ User.IsVerified u' = User.IsVerified u
  /\ User.CreatedAt u' = User.CreatedAt u
  /\ User.Version u' = int64.add (User.Version u) 1
  /\ User.UpdatedAt u' = t2.
Proof.
  unfold User.UpdateProfile.
  destruct (String.eqb fullName ""), (String.eqb phone ""),
    (String.eqb avatarURL ""); simpl; repeat split.
Qed.

Lemma find_by_ID (l : list UserModel.t) (r : UserModel.t) :
  NoDup (map UserModel.ID l) -> In r l ->
  find (fun m => N.eqb (UserModel.ID m) (UserModel.ID r)) l = Some r.
Proof.
  intros D I. induction l as [| a l IH]; simpl; [contradiction |].
  destruct (N.eqb_spec (UserModel.ID a) (UserModel.ID r)) as [E | Ne].
  - f_equal. apply (@NoDup_key_inj _ _ UserModel.ID (a :: l)); auto.
    left; reflexivity.
  - destruct I as [-> | I]; [contradiction |].
    apply IH; [inversion D; assumption | exact I].
Qed.

(** The row a loaded and mutated aggregate leaves when written back through
    [assign]: a field keeps its stored value where the aggregate still has
    it, and takes the aggregate's value where that is not a zero value. *)
Lemma assign_string_kept (a : string) :
  (if String.eqb a "" then a else a) = a.
Proof. destruct (String.eqb a ""); reflexivity. Qed.

Lemma assign_string_partial (a old : string) :
  (if String.eqb (if String.eqb a "" then old else a) "" then old
   else (if String.eqb a "" then old else a))
  = (if String.eqb a "" then old else a).
Proof.
  destruct (String.eqb a "") eqn:Ea; [apply assign_string_kept |].
  rewrite Ea. reflexivity.
Qed.

Lemma profile_written_fence (env : Env) (req : UpdateProfileRequest)
    (r : UserModel.t) :
  0 <= UserModel.Version r < int64.max ->
  User.ID (profile_written env req r) = UserModel.ID r
  /\ User.Version (profile_written env req r) = UserModel.Version r + 1
  /\ UserModel.Version r
     = int64.sub (User.Version (profile_written env req r)) 1.
Proof.
  intros V. unfold profile_written.
  destruct (UpdateProfile_then_IncrementVersion (Update_FullName req)
              (Update_Phone req) (Update_AvatarURL req) (Now env 0)
              (Now env 1) (UserModel.toDomain r))
    as (_ & _ & _ & Id & _ & _ & _ & _ & _ & Vs & _).
  cbv zeta in Id, Vs. rewrite Id, Vs.
  change (User.Version (UserModel.toDomain r)) with (UserModel.Version r).
  unfold int64.max in V.
  rewrite int64_add_1 by (unfold int64.min, int64.max; lia).
  unfold int64.sub.
  replace (UserModel.Version r + 1 - 1) with (UserModel.Version r) by lia.
  rewrite int64_wrap_in_range by (unfold int64.min, int64.max; lia).
  repeat split.
Qed.

(** UpdateProfile on a store that holds the row [r] of the user comes down to
    the write-back of [profile_written]. *)
Lemma UpdateProfile_eq (db : DB) (signer : JWTManager) (env : Env)
    (req : UpdateProfileRequest) (st : Store) (r : UserModel.t) :
  users_keys_ok st = true -> In r (users st) ->
  UpdateProfile
    (NewAuthService (NewGormUserRepository db) (NewGormTokenRepository db)
       signer) env (UserModel.ID r) req st
  = match GormUserRepository.Update db (profile_written env req r) st with
    | (Ok _, st') => (Ok (toUserDTO (profile_written env req r)), st')
    | (Fail e, st') => (Fail (Wrap "failed to update user" e), st')
    end.
Proof.
  intros Keys I. destruct (@users_keys_ok_NoDup st Keys) as [DI _].
  unfold UpdateProfile, bind_or, ret.
  change (UserRepository_FindByID
            (userRepo (NewAuthService (NewGormUserRepository db)
                         (NewGormTokenRepository db) signer))
            (UserModel.ID r) st)
    with (GormUserRepository.FindByID db (UserModel.ID r) st).
  unfold GormUserRepository.FindByID, gorm.First.
  rewrite (@find_by_ID (users st) r DI I). reflexivity.
Qed.

(** C7: for a stored user at a version from 0 up to, not including,
    the largest int64, UpdateProfile either fails and leaves the store as it
    was, or succeeds; it succeeds whenever the written row is admissible to
    the table; and when it succeeds it has rewritten the row of the user and
    no other row (and no token).  In the rewritten row the full name, the
    phone and the avatar are the arguments where these are non-empty and the
    old values where they are empty; id, email, password hash, role, verified
    flag and creation time are the old ones; the version is the old version
    plus 1.  The view returned shows the same fields. *)
Theorem UpdateProfile_is_partial_update :
  forall (db : DB) (signer : JWTManager) (env : Env) (userID : UUID)
         (req : UpdateProfileRequest) (st : Store) (r : UserModel.t),
    let s := NewAuthService (NewGormUserRepository db)
               (NewGormTokenRepository db) signer in
    let res := UpdateProfile s env userID req st in
    users_keys_ok st = true ->
    In r (users st) ->
    UserModel.ID r = userID ->
    0 <= UserModel.Version r < int64.max ->
    (forall e, fst res = Fail e -> snd res = st)
    /\ (admissible db (profile_written env req r) r st ->
        is_ok (fst res) = true)
    /\ (forall dto, fst res = Ok dto ->
        exists r' : UserModel.t,
          users (snd res) = replace_row userID r' (users st)
          /\ refresh_tokens (snd res) = refresh_tokens st
          /\ UserModel.FullName r'
             = (if String.eqb (Update_FullName req) ""
                then UserModel.FullName r else Update_FullName req)
          /\ UserModel.Phone r'
             = (if String.eqb (Update_Phone req) ""
                then UserModel.Phone r else Update_Phone req)
          /\ UserModel.AvatarURL r'
             = (if String.eqb (Update_AvatarURL req) ""
                then UserModel.AvatarURL r else Update_AvatarURL req)
          /\ UserModel.ID r' = UserModel.ID r
          /\ UserModel.Email r' = UserModel.Email r
          /\ UserModel.PasswordHash r' = UserModel.PasswordHash r
          /\ UserModel.Role r' = UserModel.Role r
          /\ UserModel.IsVerified r' = UserModel.IsVerified r
          /\ UserModel.CreatedAt r' = UserModel.CreatedAt r
          /\ UserModel.Version r' = UserModel.Version r + 1
          /\ dto = UserDTO.mk (UserModel.ID r') (UserModel.Email r')
                     (UserModel.Phone r') (UserModel.FullName r')
                     (UserModel.Role r') (UserModel.IsVerified r')
                     (UserModel.AvatarURL r') (UserModel.CreatedAt r')).
Proof.
  intros db signer env userID req st r s res Keys I E V.
  destruct (@users_keys_ok_NoDup st Keys) as [DI DE].
  destruct (@profile_written_fence env req r V) as (Id & Vs & Back).
  assert (R : res = match GormUserRepository.Update db
                            (profile_written env req r) st with
                    | (Ok _, st') =>
                        (Ok (toUserDTO (profile_written env req r)), st')
                    | (Fail e, st') =>
                        (Fail (Wrap "failed to update user" e), st')
                    end).
  { subst res s userID. apply UpdateProfile_eq; assumption. }
  clearbody res. subst userID.
  split; [| split].
  - intros e. rewrite R.
    destruct (GormUserRepository.Update db (profile_written env req r) st)
      as [[[] | e0] st1] eqn:U; simpl; [discriminate |].
    intros _. apply (Update_fail_store _ _ _ U).
  - intros Adm. rewrite R.
    rewrite (@Update_admissible_ok db (profile_written env req r) st r
               Keys I (eq_sym Id) Back Adm).
    reflexivity.
  - intros dto. rewrite R.
    destruct (GormUserRepository.Update db (profile_written env req r) st)
      as [[[] | e0] st1] eqn:U; simpl; [| discriminate].
    intros H. inversion H; subst dto; clear H.
    apply Update_ok_inv in U. subst st1. simpl users. simpl refresh_tokens.
    rewrite (@fenced_rows db (profile_written env req r) st r DI I (eq_sym Id)
               Back).
    rewrite Id.
    exists (gorm.assign (NowFunc db) (fromDomainUser (profile_written env req r)) r).
    split; [reflexivity | split; [reflexivity |]].
    assert (NZ : Z.eqb (UserModel.Version r + 1) 0 = false)
      by (apply Z.eqb_neq; lia).
    destruct (UpdateProfile_then_IncrementVersion (Update_FullName req)
                (Update_Phone req) (Update_AvatarURL req) (Now env 0)
                (Now env 1) (UserModel.toDomain r))
      as (Fn & Ph & Av & Id' & Em & Pw & Ro & Ve & Cr & _ & _).
    fold (profile_written env req r) in Fn, Ph, Av, Id', Em, Pw, Ro, Ve, Cr.
    cbv zeta in Fn, Ph, Av, Id', Em, Pw, Ro, Ve, Cr.
    unfold gorm.assign, fromDomainUser, toUserDTO.
    cbn [UserModel.FullName UserModel.Phone UserModel.AvatarURL UserModel.ID
         UserModel.Email UserModel.PasswordHash UserModel.Role
         UserModel.IsVerified UserModel.CreatedAt UserModel.Version
         UserModel.UpdatedAt].
    rewrite Fn, Ph, Av, Id', Em, Pw, Ro, Ve, Cr, Vs, NZ.
    destruct r as [i em ph pw fn ro ve av vs cr up].
    cbn [UserModel.toDomain ReconstructUser User.ID User.Email User.Phone
         User.PasswordHash User.FullName User.Role User.IsVerified
         User.AvatarURL User.CreatedAt User.id User.email User.phone
         User.passwordHash User.fullName User.role User.isVerified
         User.avatarURL User.createdAt email_value phone_value
         UserModel.FullName UserModel.Phone UserModel.AvatarURL UserModel.ID
         UserModel.Email UserModel.PasswordHash UserModel.Role
         UserModel.IsVerified UserModel.CreatedAt UserModel.Version].
    rewrite !assign_string_kept, !assign_string_partial.
    replace (if N.eqb i 0 then i else i) with i
      by (destruct (N.eqb i 0); reflexivity).
    replace (if negb ve then ve else ve) with ve by (destruct ve; reflexivity).
    replace (if time.IsZero cr then cr else cr) with cr
      by (destruct (time.IsZero cr); reflexivity).
    repeat split; reflexivity.
Qed.

(** An instance: A changes name and avatar and leaves the phone out. *)
Lemma UpdateProfile_is_partial_update_witness :
  let req := mkUpdateProfileRequest "Ann B" "" "https://img.x.com/a.png" in
  let env := deployment.at_ 20000 50 in
  let r := deployment.rowA in
  let st := deployment.storeA in
  let res := deployment.UpdateProfile env 1 req st in
  (users_keys_ok st = true /\ In r (users st) /\ UserModel.ID r = 1%N
   /\ 0 <= UserModel.Version r < int64.max)
  /\ (forall e, fst res = Fail e -> snd res = st)
  /\ (admissible deployment.db (profile_written env req r) r st ->
      is_ok (fst res) = true)
  /\ (forall dto, fst res = Ok dto ->
      exists r' : UserModel.t,
        users (snd res) = replace_row 1 r' (users st)
        /\ refresh_tokens (snd res) = refresh_tokens st
        /\ UserModel.FullName r'
           = (if String.eqb (Update_FullName req) ""
              then UserModel.FullName r else Update_FullName req)
        /\ UserModel.Phone r'
           = (if String.eqb (Update_Phone req) ""
              then UserModel.Phone r else Update_Phone req)
        /\ UserModel.AvatarURL r'
           = (if String.eqb (Update_AvatarURL req) ""
              then UserModel.AvatarURL r else Update_AvatarURL req)
        /\ UserModel.ID r' = UserModel.ID r
        /\ UserModel.Email r' = UserModel.Email r
        /\ UserModel.PasswordHash r' = UserModel.PasswordHash r
        /\ UserModel.Role r' = UserModel.Role r
        /\ UserModel.IsVerified r' = UserModel.IsVerified r
        /\ UserModel.CreatedAt r' = UserModel.CreatedAt r
        /\ UserModel.Version r' = UserModel.Version r + 1
        /\ dto = UserDTO.mk (UserModel.ID r') (UserModel.Email r')
                   (UserModel.Phone r') (UserModel.FullName r')
                   (UserModel.Role r') (UserModel.IsVerified r')
                   (UserModel.AvatarURL r') (UserModel.CreatedAt r')).
Proof.
  intros req env r st res.
  assert (H : users_keys_ok st = true /\ In r (users st)
              /\ UserModel.ID r = 1%N
              /\ 0 <= UserModel.Version r < int64.max).
  { split; [reflexivity |]. split; [left; reflexivity |].
    split; [reflexivity |]. unfold int64.max. simpl. lia. }
  split; [exact H |].
  destruct H as (K & I & E & V).
  exact (@UpdateProfile_is_partial_update deployment.db deployment.signer
           env 1 req st r K I E V).
Defined.

(** That update, run: it is admissible and succeeds. *)
Example UpdateProfile_runs :
  let req := mkUpdateProfileRequest "Ann B" "" "https://img.x.com/a.png" in
  deployment.UpdateProfile (deployment.at_ 20000 50) 1 req deployment.storeA
  = (Ok (UserDTO.mk 1 "a@x.com" "" "Ann B" "owner" false
           "https://img.x.com/a.png" 1000),
     mkStore
       [UserModel.mk 1 "a@x.com" "" "$2a$longpass1" "Ann B" "owner" false
          "https://img.x.com/a.png" 2 1000 21001]
       (refresh_tokens deployment.storeA)).
Proof. reflexivity. Qed.

(* ------------------------------------------------------------------ *)
(** ** BanUser on the store *)

Lemma ban_written_fence (env : Env) (r : UserModel.t) :
  0 <= UserModel.Version r < int64.max ->
  User.ID (ban_written env r) = UserModel.ID r
  /\ User.Version (ban_written env r) = UserModel.Version r + 1
  /\ UserModel.Version r = int64.sub (User.Version (ban_written env r)) 1.
Proof.
  intros V. unfold ban_written, User.IncrementVersion, User.Deactivate.
  cbn. unfold int64.max in V.
  rewrite int64_add_1 by (unfold int64.min, int64.max; lia).
  unfold int64.sub.
  replace (UserModel.Version r + 1 - 1) with (UserModel.Version r) by lia.
  rewrite int64_wrap_in_range by (unfold int64.min, int64.max; lia).
  repeat split.
Qed.

(** What a successful BanUser leaves in the store, for a stored user at a
    version from 0 up to, not including, the largest int64: the user's row at
    the next version, every token of the user revoked if the revocation
    went through and the tokens as they were if it did not, and the verified
    flag of the row as it was before.  The flag is cleared in the aggregate
    only: [false] is a zero value, and the UPDATE does not carry it. *)
Lemma BanUser_keeps_verified_flag (db : DB) (signer : JWTManager) (env : Env)
    (st st' : Store) (r : UserModel.t) :
  users_keys_ok st = true -> In r (users st) ->
  0 <= UserModel.Version r < int64.max ->
  BanUser
    (NewAuthService (NewGormUserRepository db) (NewGormTokenRepository db)
       signer) env (UserModel.ID r) st = (Ok tt, st') ->
  User.IsVerified (ban_written env r) = false
  /\ exists r' : UserModel.t,
       users st' = replace_row (UserModel.ID r) r' (users st)
       /\ refresh_tokens st'
          = match unavailable db UPDATE_revoked with
            | Some _ => refresh_tokens st
            | None => map (revoked_for (UserModel.ID r)) (refresh_tokens st)
            end
       /\ UserModel.Version r' = UserModel.Version r + 1
       /\ UserModel.IsVerified r' = UserModel.IsVerified r.
Proof.
  intros Keys I V.
  destruct (@users_keys_ok_NoDup st Keys) as [DI _].
  destruct (@ban_written_fence env r V) as (Id & Vs & Back).
  set (s := NewAuthService _ _ _).
  unfold BanUser, bind_or, attempt, ret.
  change (UserRepository_FindByID (userRepo s) (UserModel.ID r) st)
    with (GormUserRepository.FindByID db (UserModel.ID r) st).
  unfold GormUserRepository.FindByID, gorm.First.
  rewrite (@find_by_ID (users st) r DI I).
  fold (ban_written env r).
  change (UserRepository_Update (userRepo s) (ban_written env r) st)
    with (GormUserRepository.Update db (ban_written env r) st).
  destruct (GormUserRepository.Update db (ban_written env r) st)
    as [[[] | e] st1] eqn:U; [| discriminate].
  apply Update_ok_inv in U.
  rewrite (@fenced_rows db (ban_written env r) st r DI I (eq_sym Id) Back) in U.
  rewrite Id in U.
  change (TokenRepository_RevokeAllForUser (tokenRepo s) (UserModel.ID r) st1)
    with (GormTokenRepository.RevokeAllForUser db (UserModel.ID r) st1).
  rewrite RevokeAllForUser_spec.
  assert (T : forall res0 : result unit,
             (let '(_, w') :=
                match unavailable db UPDATE_revoked with
                | Some err => (Fail err, st1)
                | None =>
                    (res0,
                     mkStore (users st1)
                       (map (revoked_for (UserModel.ID r))
                          (refresh_tokens st1)))
                end in (Ok tt, w'))
             = (Ok tt,
                mkStore (users st1)
                  (match unavailable db UPDATE_revoked with
                   | Some _ => refresh_tokens st1
                   | None => map (revoked_for (UserModel.ID r))
                               (refresh_tokens st1)
                   end)))
    by (intros res0; destruct (unavailable db UPDATE_revoked); [destruct st1 |];
        reflexivity).
  rewrite T. intros H. inversion H; subst st' st1; clear H.
  split; [reflexivity |].
  exists (gorm.assign (NowFunc db) (fromDomainUser (ban_written env r)) r).
  simpl users. simpl refresh_tokens.
  split; [reflexivity | split; [reflexivity |]].
  unfold gorm.assign, fromDomainUser.
  cbn [UserModel.Version UserModel.IsVerified].
  rewrite Vs.
  assert (NZ : Z.eqb (UserModel.Version r + 1) 0 = false)
    by (apply Z.eqb_neq; lia).
  rewrite NZ. split; reflexivity.
Qed.

(* ------------------------------------------------------------------ *)
(** ** Login and the verified flag *)

Lemma existsb_false_iff (A : Type) (p : A -> bool) (l : list A) :
  existsb p l = false <-> forall x, In x l -> p x = false.
Proof.
  induction l as [| a l IH]; simpl.
  - split; [intros _ x [] | reflexivity].
  - rewrite orb_false_iff, IH. split.
    + intros [Pa Pl] x [<- | Ix]; auto.
    + intros H. split; [apply H; left; reflexivity |].
      intros x Ix. apply H. right. exact Ix.
Qed.

(** C10: Login does not look at the verified flag.  For any stored row
    [r], verified or not, reached by the email of the request: if the password
    matches the stored hash, the signer issues the two tokens and the tokens
    table admits the new record, Login succeeds with these tokens and the view
    of [r], and stores the new, unrevoked refresh token of the user. *)
Theorem Login_succeeds_whatever_verified :
  forall (db : DB) (signer : JWTManager) (bcrypt : Bcrypt) (env : Env)
         (req : LoginRequest) (st : Store) (r : UserModel.t)
         (access refresh : string),
    let s := NewAuthService (NewGormUserRepository db)
               (NewGormTokenRepository db) signer in
    let record :=
      RefreshTokenModel.mk (NewUUID env 0) (UserModel.ID r) refresh
        (time.Add (Now env 2) refreshWindow) false (Now env 3) in
    find (fun m => String.eqb (UserModel.Email m) (Login_Email req)) (users st)
      = Some r ->
    CompareHashAndPassword bcrypt (UserModel.PasswordHash r)
      (Login_Password req) = None ->
    GenerateAccessToken signer (Now env 0) (UserModel.ID r)
      (UserModel.Email r) (UserModel.Role r) = Ok access ->
    GenerateRefreshToken signer (Now env 1) (UserModel.ID r) = Ok refresh ->
    refresh_tokens_columns db record = true ->
    (forall x, In x (refresh_tokens st) ->
       RefreshTokenModel.ID x <> NewUUID env 0
       /\ RefreshTokenModel.Token x <> refresh) ->
    Login bcrypt s env req st
    = (Ok (mkAuthResponse access refresh
             (UserDTO.mk (UserModel.ID r) (UserModel.Email r)
                (UserModel.Phone r) (UserModel.FullName r) (UserModel.Role r)
                (UserModel.IsVerified r) (UserModel.AvatarURL r)
                (UserModel.CreatedAt r))),
       mkStore (users st) (refresh_tokens st ++ [record])).
Proof.
  intros db signer bcrypt env req st r access refresh s record
    Found Match Acc Ref Cols Fresh.
  unfold Login, bind_or, pure, ret.
  change (UserRepository_FindByEmail (userRepo s) (Login_Email req) st)
    with (GormUserRepository.FindByEmail db (Login_Email req) st).
  unfold GormUserRepository.FindByEmail, gorm.First. rewrite Found.
  destruct r as [i em ph pw fn ro ve av vs cr up].
  cbn [UserModel.toDomain ReconstructUser User.PasswordHash User.passwordHash
       User.ID User.id User.Email User.email email_value User.Role User.role
       UserModel.ID UserModel.Email UserModel.Phone UserModel.PasswordHash
       UserModel.FullName UserModel.Role UserModel.IsVerified
       UserModel.AvatarURL UserModel.Version UserModel.CreatedAt
       UserModel.UpdatedAt jwt s] in *.
  rewrite Match, Acc, Ref.
  match goal with
  | |- context [TokenRepository_Save (tokenRepo s) ?t st] =>
      change (TokenRepository_Save (tokenRepo s) t st)
        with (GormTokenRepository.Save db t st)
  end.
  unfold GormTokenRepository.Save, gorm.Create_refresh_tokens.
  change (fromDomainRefreshToken
            (NewRefreshToken i refresh (time.Add (Now env 2) refreshWindow)
               (NewUUID env 0) (Now env 3))) with record.
  rewrite Cols. cbn [negb].
  assert (E1 : existsb (fun x => N.eqb (RefreshTokenModel.ID x)
                                   (RefreshTokenModel.ID record))
                 (refresh_tokens st) = false).
  { apply existsb_false_iff. intros x Ix. apply N.eqb_neq.
    apply (Fresh x Ix). }
  assert (E2 : existsb (fun x => String.eqb (RefreshTokenModel.Token x)
                                   (RefreshTokenModel.Token record))
                 (refresh_tokens st) = false).
  { apply existsb_false_iff. intros x Ix. apply String.eqb_neq.
    apply (Fresh x Ix). }
  rewrite E1, E2. reflexivity.
Qed.

(** An instance: A, verified, logs in once more. *)
Lemma Login_succeeds_whatever_verified_witness :
  UserModel.IsVerified
    (UserModel.mk 1 "a@x.com" "" "$2a$longpass1" "Ann" "owner" true "" 1
       1000 1000) = true
  /\ deployment.Login (deployment.at_ 20000 50)
       (mkLoginRequest "a@x.com" "longpass1") deployment.storeA_verified
     = (Ok (mkAuthResponse "access.1.20000" "refresh.1.21000"
              (UserDTO.mk 1 "a@x.com" "" "Ann" "owner" true "" 1000)),
        mkStore (users deployment.storeA_verified)
          (refresh_tokens deployment.storeA_verified
             ++ [RefreshTokenModel.mk 50 1 "refresh.1.21000"
                   (time.Add 22000 refreshWindow) false 23000])).
Proof.
  split; [reflexivity |].
  apply (@Login_succeeds_whatever_verified deployment.db deployment.signer
           deployment.hasher (deployment.at_ 20000 50)
           (mkLoginRequest "a@x.com" "longpass1") deployment.storeA_verified
           (UserModel.mk 1 "a@x.com" "" "$2a$longpass1" "Ann" "owner" true ""
              1 1000 1000)
           "access.1.20000" "refresh.1.21000");
    try reflexivity.
  intros x [<- | [<- | []]]; split; discriminate.
Defined.

(** A is banned and then logs in with the right password: the ban revoked
    the token A held, and the login issues a new pair all the same. *)
Example banned_user_logs_in :
  let banned := deployment.BanUser (deployment.at_ 20000 50) 1
                  deployment.storeA in
  let again := deployment.Login (deployment.at_ 30000 60)
                 (mkLoginRequest "a@x.com" "longpass1") (snd banned) in
  fst banned = Ok tt
  /\ map UserModel.IsVerified (users (snd banned)) = [false]
  /\ map RefreshTokenModel.Revoked (refresh_tokens (snd banned)) = [true]
  /\ fst again
     = Ok (mkAuthResponse "access.1.30000" "refresh.1.31000"
             (UserDTO.mk 1 "a@x.com" "" "Ann" "owner" false "" 1000))
  /\ map RefreshTokenModel.Revoked (refresh_tokens (snd again)) = [true; false].
Proof. vm_compute. repeat split. Qed.

(* ================================================================== *)
(** * Further properties of the code *)

(* ------------------------------------------------------------------ *)
(** ** The matcher and the language of a regular expression *)

Lemma nullable_matches (r : regexp.t) :
  regexp.nullable r = true <-> matches r [].
Proof.
  induction r as [| | q | a IHa b IHb | a IHa b IHb | a IHa]; simpl.
  - split; [discriminate | intros H; inversion H].
  - split; [constructor | reflexivity].
  - split; [discriminate | intros H; inversion H].
  - rewrite andb_true_iff, IHa, IHb. split.
    + intros [Ha Hb]. apply (matches_seq Ha Hb).
    + intros H. inversion H; subst.
      match goal with E : (_ ++ _)%list = [] |- _ =>
        apply app_eq_nil in E; destruct E; subst end.
      split; assumption.
  - rewrite orb_true_iff, IHa, IHb. split.
    + intros [H | H]; [apply matches_alt_l | apply matches_alt_r]; exact H.
    + intros H. inversion H; subst; [left | right]; assumption.
  - split; [constructor | reflexivity].
Qed.

Lemma deriv_sound (c : ascii) (r : regexp.t) (s : list ascii) :
  matches (regexp.deriv c r) s -> matches r (c :: s).
Proof.
  revert s.
  induction r as [| | q | a IHa b IHb | a IHa b IHb | a IHa]; simpl; intros s H.
  - inversion H.
  - inversion H.
  - destruct (q c) eqn:Q; inversion H; subst. constructor. exact Q.
  - destruct (regexp.nullable a) eqn:N.
    + inversion H; subst.
      * match goal with H1 : matches (regexp.Seq _ _) _ |- _ =>
          inversion H1; subst end.
        match goal with Ha : matches (regexp.deriv c a) ?s1 |- _ =>
          apply (matches_seq (s1 := c :: s1) (IHa _ Ha)) end.
        assumption.
      * apply (matches_seq (s1 := []) (s2 := c :: s)).
        -- apply nullable_matches. exact N.
        -- apply IHb. assumption.
    + inversion H; subst.
      match goal with Ha : matches (regexp.deriv c a) ?s1 |- _ =>
        apply (matches_seq (s1 := c :: s1) (IHa _ Ha)) end.
      assumption.
  - inversion H; subst; [apply matches_alt_l; apply IHa
                         | apply matches_alt_r; apply IHb]; assumption.
  - inversion H; subst.
    match goal with Ha : matches (regexp.deriv c a) ?s1 |- _ =>
      apply (matches_star_app (s1 := c :: s1) (IHa _ Ha)) end.
    assumption.
Qed.

Lemma deriv_complete (c : ascii) (r : regexp.t) (s : list ascii) :
  matches r (c :: s) -> matches (regexp.deriv c r) s.
Proof.
  intros H. remember (c :: s) as cs eqn:E. revert c s E.
  induction H as [| q d Q | a b s1 s2 Ha IHa Hb IHb | a b s0 Ha IHa
                  | a b s0 Hb IHb | a | a s1 s2 Ha IHa Hs IHs];
    intros c s E; simpl.
  - discriminate.
  - inversion E; subst. rewrite Q. constructor.
  - destruct s1 as [| d s1'].
    + simpl in E. subst s2.
      assert (N : regexp.nullable a = true) by (apply nullable_matches; exact Ha).
      rewrite N. apply matches_alt_r. apply IHb. reflexivity.
    + simpl in E. inversion E; subst.
      assert (D : matches (regexp.Seq (regexp.deriv c a) b) (s1' ++ s2)%list)
        by (apply matches_seq; [apply IHa; reflexivity | exact Hb]).
      destruct (regexp.nullable a); [apply matches_alt_l |]; exact D.
  - apply matches_alt_l. apply IHa. exact E.
  - apply matches_alt_r. apply IHb. exact E.
  - discriminate.
  - destruct s1 as [| d s1'].
    + simpl in E. apply (IHs c s E).
    + simpl in E. inversion E; subst.
      apply matches_seq; [apply IHa; reflexivity | exact Hs].
Qed.

(** The matcher decides the language: [MatchString] answers true exactly for
    the texts the expression denotes. *)
Lemma MatchString_matches (r : regexp.t) (s : string) :
  regexp.MatchString r s = true <-> matches r (list_ascii_of_string s).
Proof.
  revert r. induction s as [| c s IH]; intros r; simpl.
  - apply nullable_matches.
  - rewrite IH. split; [apply deriv_sound | apply deriv_complete].
Qed.

Lemma matches_within (P : ascii -> bool) (r : regexp.t) (s : list ascii) :
  classes_within P r -> matches r s -> forallb P s = true.
Proof.
  intros W H. induction H; simpl in *; try reflexivity.
  - rewrite (W c H). reflexivity.
  - rewrite forallb_app. destruct W as [Wa Wb].
    rewrite (IHmatches1 Wa), (IHmatches2 Wb). reflexivity.
  - apply IHmatches. apply W.
  - apply IHmatches. apply W.
  - rewrite forallb_app, (IHmatches1 W), (IHmatches2 W). reflexivity.
Qed.

Lemma matches_lower (r : regexp.t) (s : list ascii) :
  classes_caseless r -> matches r s -> matches r (map strings.lower_byte s).
Proof.
  intros W H. induction H; simpl in *.
  - constructor.
  - constructor. rewrite W. assumption.
  - rewrite map_app. destruct W. constructor; auto.
  - apply matches_alt_l. apply IHmatches. apply W.
  - apply matches_alt_r. apply IHmatches. apply W.
  - constructor.
  - rewrite map_app. constructor; auto.
Qed.

Lemma matches_unlower (r : regexp.t) (s : list ascii) :
  classes_caseless r -> matches r (map strings.lower_byte s) -> matches r s.
Proof.
  intros W H. remember (map strings.lower_byte s) as ls eqn:E. revert s E.
  induction H as [| q d Q | a b s1 s2 Ha IHa Hb IHb | a b s0 Ha IHa
                  | a b s0 Hb IHb | a | a s1 s2 Ha IHa Hs IHs];
    intros s E; simpl in W.
  - symmetry in E. apply map_eq_nil in E. subst. constructor.
  - destruct s as [| c [| c' s']]; inversion E; subst.
    constructor. rewrite <- W. exact Q.
  - symmetry in E. apply map_eq_app in E.
    destruct E as (l1 & l2 & -> & <- & <-). destruct W.
    constructor; [apply IHa | apply IHb]; auto.
  - apply matches_alt_l. apply IHa; [apply W | exact E].
  - apply matches_alt_r. apply IHb; [apply W | exact E].
  - symmetry in E. apply map_eq_nil in E. subst. constructor.
  - symmetry in E. apply map_eq_app in E.
    destruct E as (l1 & l2 & -> & <- & <-).
    constructor; [apply IHa | apply IHs]; auto.
Qed.

Lemma ToLower_list (s : string) :
  list_ascii_of_string (strings.ToLower s)
  = map strings.lower_byte (list_ascii_of_string s).
Proof. induction s as [| c s IH]; simpl; [| rewrite IH]; reflexivity. Qed.

(** A pattern whose classes are caseless matches a text exactly when it
    matches the lower-cased text. *)
Lemma MatchString_ToLower (r : regexp.t) (s : string) :
  classes_caseless r ->
  regexp.MatchString r (strings.ToLower s) = regexp.MatchString r s.
Proof.
  intros W. apply eq_true_iff_eq.
  rewrite !MatchString_matches, ToLower_list.
  split; [apply matches_unlower | apply matches_lower]; exact W.
Qed.

(* ------------------------------------------------------------------ *)
(** ** Bytes, white space and case *)

Lemma byte_cases (Q : ascii -> bool) :
  forallb Q all_bytes = true -> forall c, Q c = true.
Proof.
  intros H c. rewrite forallb_forall in H. apply H.
  unfold all_bytes. rewrite <- (ascii_nat_embedding c).
  apply in_map. apply in_seq. pose proof (nat_ascii_bounded c). lia.
Qed.

Lemma strip_any_other_head (ps : list (list ascii)) (c : ascii)
    (rest : list ascii) :
  forallb (fun p => match p with [] => false | _ :: _ => true end) ps = true ->
  existsb (fun p => match p with h :: _ => Ascii.eqb h c | [] => false end) ps
    = false ->
  strings.strip_any ps (c :: rest) = None.
Proof.
  induction ps as [| p ps IH]; simpl; [reflexivity |].
  destruct p as [| h p']; [discriminate |]. simpl.
  intros NE H. apply orb_false_iff in H. destruct H as [Hh Hps].
  rewrite Hh. apply IH; assumption.
Qed.

(** A text that neither starts nor ends with a byte white space can start or
    end with is what [TrimSpace] returns for it. *)
Lemma TrimSpace_clean (s : string) (P : ascii -> bool) :
  (forall c, P c = true -> space_first c = false /\ space_last c = false) ->
  forallb P (list_ascii_of_string s) = true ->
  strings.TrimSpace s = s.
Proof.
  intros Clean All. unfold strings.TrimSpace.
  assert (L : forall l, forallb P l = true -> strings.TrimLeft l = l).
  { intros [| c rest] A; [reflexivity |]. simpl in A.
    apply andb_true_iff in A. destruct A as [Pc _].
    unfold strings.TrimLeft.
    change (List.length (c :: rest)) with (S (List.length rest)).
    cbn [strings.trim_with].
    rewrite strip_any_other_head;
      [reflexivity | reflexivity | apply (Clean c Pc)]. }
  assert (R : forall l, forallb P l = true -> strings.TrimRight l = l).
  { intros l A. unfold strings.TrimRight.
    destruct (rev l) as [| z rest] eqn:E.
    - assert (l = []) by (rewrite <- (rev_involutive l), E; reflexivity).
      subst l. reflexivity.
    - assert (Len : List.length l = S (List.length rest))
        by (rewrite <- length_rev, E; reflexivity).
      rewrite Len. cbn [strings.trim_with].
      assert (Pz : P z = true).
      { rewrite forallb_forall in A. apply A. apply in_rev. rewrite E.
        left. reflexivity. }
      rewrite strip_any_other_head;
        [| reflexivity | apply (Clean z Pz)].
      rewrite <- E. apply rev_involutive. }
  rewrite (L _ All), (R _ All). apply string_of_list_ascii_of_string.
Qed.

Lemma lower_byte_idempotent (c : ascii) :
  strings.lower_byte (strings.lower_byte c) = strings.lower_byte c.
Proof.
  apply Ascii.eqb_eq.
  apply (byte_cases
           (fun c => Ascii.eqb (strings.lower_byte (strings.lower_byte c))
                       (strings.lower_byte c))).
  vm_compute. reflexivity.
Qed.

Lemma ToLower_idempotent (s : string) :
  strings.ToLower (strings.ToLower s) = strings.ToLower s.
Proof.
  induction s as [| c s IH]; simpl; [reflexivity |].
  rewrite lower_byte_idempotent, IH. reflexivity.
Qed.

Lemma ToLower_no_upper (s : string) :
  forallb (fun c => negb (strings.is_upper c))
    (list_ascii_of_string (strings.ToLower s)) = true.
Proof.
  induction s as [| c s IH]; simpl; [reflexivity |]. rewrite IH.
  rewrite (byte_cases
             (fun c => negb (strings.is_upper (strings.lower_byte c))));
    [reflexivity | vm_compute; reflexivity].
Qed.

Lemma ToLower_empty (s : string) :
  String.eqb (strings.ToLower s) "" = String.eqb s "".
Proof. destruct s; reflexivity. Qed.

Lemma emailRegexp_caseless : classes_caseless emailRegexp.
Proof.
  assert (L : forall c, local_char (strings.lower_byte c) = local_char c).
  { intros c. apply eqb_prop.
    apply (byte_cases
             (fun c => Bool.eqb (local_char (strings.lower_byte c))
                         (local_char c))).
    vm_compute. reflexivity. }
  assert (D : forall c, domain_char (strings.lower_byte c) = domain_char c).
  { intros c. apply eqb_prop.
    apply (byte_cases
             (fun c => Bool.eqb (domain_char (strings.lower_byte c))
                         (domain_char c))).
    vm_compute. reflexivity. }
  assert (A : forall c, alpha (strings.lower_byte c) = alpha c).
  { intros c. apply eqb_prop.
    apply (byte_cases
             (fun c => Bool.eqb (alpha (strings.lower_byte c)) (alpha c))).
    vm_compute. reflexivity. }
  assert (At : forall c, Ascii.eqb "@" (strings.lower_byte c) = Ascii.eqb "@" c).
  { intros c. apply eqb_prop.
    apply (byte_cases
             (fun c => Bool.eqb (Ascii.eqb "@" (strings.lower_byte c))
                         (Ascii.eqb "@" c))).
    vm_compute. reflexivity. }
  assert (Dot : forall c, Ascii.eqb "." (strings.lower_byte c) = Ascii.eqb "." c).
  { intros c. apply eqb_prop.
    apply (byte_cases
             (fun c => Bool.eqb (Ascii.eqb "." (strings.lower_byte c))
                         (Ascii.eqb "." c))).
    vm_compute. reflexivity. }
  unfold emailRegexp, regexp.Plus, regexp.AtLeast, regexp.Chr. simpl.
  repeat split; assumption.
Qed.

Lemma emailRegexp_bytes : classes_within email_byte emailRegexp.
Proof.
  unfold emailRegexp, regexp.Plus, regexp.AtLeast, regexp.Chr, email_byte.
  simpl.
  assert (Dot : forall c, Ascii.eqb "." c = true ->
                          local_char c || Ascii.eqb c "@" || domain_char c = true).
  { intros c E. apply Ascii.eqb_eq in E. subst. reflexivity. }
  assert (At : forall c, Ascii.eqb "@" c = true ->
                         local_char c || Ascii.eqb c "@" || domain_char c = true).
  { intros c E. apply Ascii.eqb_eq in E. subst. reflexivity. }
  assert (Al : forall c, alpha c = true ->
                         local_char c || Ascii.eqb c "@" || domain_char c = true).
  { intros c E. unfold local_char. rewrite E. reflexivity. }
  repeat split; try assumption; intros c E; rewrite E;
    rewrite ?orb_true_r; reflexivity.
Qed.

Lemma email_byte_clean (c : ascii) :
  email_byte c = true -> space_first c = false /\ space_last c = false.
Proof.
  intros E.
  pose proof (byte_cases
                (fun c => implb (email_byte c)
                            (negb (space_first c) && negb (space_last c))))
    as H.
  assert (All : forallb
                  (fun c => implb (email_byte c)
                              (negb (space_first c) && negb (space_last c)))
                  all_bytes = true) by (vm_compute; reflexivity).
  specialize (H All c). cbv beta in H. rewrite E in H. simpl in H.
  apply andb_true_iff in H. destruct H as [H1 H2].
  apply negb_true_iff in H1. apply negb_true_iff in H2. split; assumption.
Qed.

(* ------------------------------------------------------------------ *)
(** ** Email *)

Lemma NewEmail_ok_inv (raw : string) (e : Email) :
  NewEmail raw = Ok e ->
  String.eqb (strings.TrimSpace raw) "" = false
  /\ regexp.MatchString emailRegexp (strings.TrimSpace raw) = true
  /\ e = mkEmail (strings.ToLower (strings.TrimSpace raw)).
Proof.
  unfold NewEmail.
  destruct (String.eqb (strings.TrimSpace raw) ""); [discriminate |].
  destruct (regexp.MatchString emailRegexp (strings.TrimSpace raw));
    simpl; [| discriminate].
  intros H. inversion H. repeat split.
Qed.

Lemma NewEmail_of_normal (t : string) :
  String.eqb t "" = false ->
  regexp.MatchString emailRegexp t = true ->
  NewEmail (strings.ToLower t) = Ok (mkEmail (strings.ToLower t)).
Proof.
  intros NE Mt.
  assert (Ml : regexp.MatchString emailRegexp (strings.ToLower t) = true)
    by (rewrite (MatchString_ToLower _ t emailRegexp_caseless); exact Mt).
  assert (Tr : strings.TrimSpace (strings.ToLower t) = strings.ToLower t).
  { apply (TrimSpace_clean _ email_byte email_byte_clean).
    apply (matches_within email_byte emailRegexp_bytes).
    apply MatchString_matches. exact Ml. }
  unfold NewEmail. rewrite Tr, ToLower_empty, NE, Ml. simpl.
  rewrite ToLower_idempotent. reflexivity.
Qed.

(** X1: an address NewEmail accepts is stored trimmed and in lower case: the
    value has no upper-case letter, still matches the pattern, and NewEmail
    applied to the value gives the very same Email back. *)
Theorem NewEmail_normal_form :
  forall (raw : string) (e : Email),
    NewEmail raw = Ok e ->
    email_value e = strings.ToLower (strings.TrimSpace raw)
    /\ forallb (fun c => negb (strings.is_upper c))
         (list_ascii_of_string (email_value e)) = true
    /\ regexp.MatchString emailRegexp (email_value e) = true
    /\ NewEmail (email_value e) = Ok e.
Proof.
  intros raw e H. destruct (NewEmail_ok_inv raw H) as (NE & Mt & ->). simpl.
  split; [reflexivity |]. split; [apply ToLower_no_upper |]. split.
  - rewrite (MatchString_ToLower _ _ emailRegexp_caseless). exact Mt.
  - apply NewEmail_of_normal; assumption.
Qed.

(** An instance: an address typed with capitals and blanks around it. *)
Lemma NewEmail_normal_form_witness :
  NewEmail " Ann.B@Mail.X.com  " = Ok (mkEmail "ann.b@mail.x.com")
  /\ email_value (mkEmail "ann.b@mail.x.com")
     = strings.ToLower (strings.TrimSpace " Ann.B@Mail.X.com  ")
  /\ forallb (fun c => negb (strings.is_upper c))
       (list_ascii_of_string (email_value (mkEmail "ann.b@mail.x.com"))) = true
  /\ regexp.MatchString emailRegexp (email_value (mkEmail "ann.b@mail.x.com"))
     = true
  /\ NewEmail (email_value (mkEmail "ann.b@mail.x.com"))
     = Ok (mkEmail "ann.b@mail.x.com").
Proof.
  split; [reflexivity |].
  apply (@NewEmail_normal_form " Ann.B@Mail.X.com  "
           (mkEmail "ann.b@mail.x.com")).
  reflexivity.
Defined.



(* ------------------------------------------------------------------ *)
(** ** Phone *)

Lemma matches_exactly_class (q : ascii -> bool) (n : nat) (u : list ascii) :
  matches (regexp.Exactly n (regexp.Class q)) u
  <-> List.length u = n /\ forallb q u = true.
Proof.
  revert u. induction n as [| n IH]; intros u; simpl.
  - split.
    + intros H. inversion H. split; reflexivity.
    + intros [L _]. destruct u; [constructor | discriminate].
  - split.
    + intros H. inversion H; subst.
      match goal with H1 : matches (regexp.Class q) _ |- _ =>
        inversion H1; subst end.
      match goal with H2 : matches (regexp.Exactly n _) _ |- _ =>
        apply IH in H2; destruct H2 as [L A] end.
      simpl. rewrite L, A. split; [reflexivity |].
      match goal with Q : q _ = true |- _ => rewrite Q end. reflexivity.
    + intros [L A]. destruct u as [| c u]; [discriminate |].
      simpl in L, A. apply andb_true_iff in A. destruct A as [Qc A].
      apply (matches_seq (s1 := [c]) (s2 := u)).
      * constructor. exact Qc.
      * apply IH. split; [lia | exact A].
Qed.

Lemma matches_upto_class (q : ascii -> bool) (n : nat) (v : list ascii) :
  matches (regexp.Exactly n (regexp.Opt (regexp.Class q))) v
  <-> (List.length v <= n)%nat /\ forallb q v = true.
Proof.
  revert v. induction n as [| n IH]; intros v; simpl.
  - split.
    + intros H. inversion H. split; [apply Nat.le_refl | reflexivity].
    + intros [L _]. destruct v; [constructor | simpl in L; lia].
  - split.
    + intros H. inversion H; subst.
      match goal with H2 : matches (regexp.Exactly n _) _ |- _ =>
        apply IH in H2; destruct H2 as [L A] end.
      match goal with H1 : matches (regexp.Opt _) _ |- _ =>
        inversion H1; subst end.
      * match goal with H3 : matches regexp.Eps _ |- _ =>
          inversion H3; subst end.
        simpl. split; [lia | exact A].
      * match goal with H3 : matches (regexp.Class q) _ |- _ =>
          inversion H3; subst end.
        simpl. rewrite A. split; [lia |].
        match goal with Q : q _ = true |- _ => rewrite Q end. reflexivity.
    + intros [L A]. destruct v as [| c v].
      * apply (matches_seq (s1 := []) (s2 := [])).
        -- apply matches_alt_l. constructor.
        -- apply IH. split; [simpl; lia | reflexivity].
      * simpl in L, A. apply andb_true_iff in A. destruct A as [Qc A].
        apply (matches_seq (s1 := [c]) (s2 := v)).
        -- apply matches_alt_r. constructor. exact Qc.
        -- apply IH. split; [lia | exact A].
Qed.

Lemma matches_between_class (q : ascii -> bool) (m n : nat) (l : list ascii) :
  (m <= n)%nat ->
  matches (regexp.Between m n (regexp.Class q)) l
  <-> (m <= List.length l <= n)%nat /\ forallb q l = true.
Proof.
  intros Le. unfold regexp.Between. split.
  - intros H. inversion H; subst.
    match goal with H1 : matches (regexp.Exactly m (regexp.Class q)) _ |- _ =>
      apply matches_exactly_class in H1; destruct H1 as [L1 A1] end.
    match goal with H2 : matches (regexp.Exactly (n - m) _) _ |- _ =>
      apply matches_upto_class in H2; destruct H2 as [L2 A2] end.
    rewrite length_app, forallb_app, A1, A2. split; [lia | reflexivity].
  - intros [L A]. rewrite <- (firstn_skipn m l).
    rewrite <- (firstn_skipn m l), forallb_app in A.
    apply andb_true_iff in A. destruct A as [A1 A2].
    apply matches_seq.
    + apply matches_exactly_class. split; [| exact A1].
      rewrite length_firstn. lia.
    + apply matches_upto_class. split; [| exact A2].
      rewrite length_skipn. lia.
Qed.

Lemma length_list_ascii (s : string) :
  List.length (list_ascii_of_string s) = String.length s.
Proof. induction s as [| c s IH]; simpl; [| rewrite IH]; reflexivity. Qed.

(** The pattern of a phone accepts exactly an optional [+] followed by 7 to
    15 digits. *)
Lemma phoneRegexp_shape (s : string) :
  regexp.MatchString phoneRegexp s = phone_shape s.
Proof.
  apply eq_true_iff_eq. rewrite MatchString_matches.
  unfold phoneRegexp, phone_shape, regexp.Chr, regexp.Opt.
  rewrite !andb_true_iff, !Nat.leb_le. split.
  - intros H. inversion H; subst.
    match goal with H2 : matches (regexp.Between 7 15 _) _ |- _ =>
      apply matches_between_class in H2; [destruct H2 as [L A] | lia] end.
    match goal with H1 : matches (regexp.Alt _ _) _ |- _ =>
      inversion H1; subst end.
    + match goal with H3 : matches regexp.Eps _ |- _ =>
        inversion H3; subst end.
      simpl in *.
      try match goal with E : _ = list_ascii_of_string s |- _ =>
        rewrite E in L, A end.
      destruct s as [| c s']; [simpl in L; lia |].
      destruct (Ascii.eqb_spec c "+") as [-> | _].
      * simpl in A. discriminate.
      * rewrite <- length_list_ascii. repeat split; try lia. exact A.
    + match goal with H3 : matches (regexp.Class _) _ |- _ =>
        inversion H3; subst end.
      match goal with Q : Ascii.eqb "+" _ = true |- _ =>
        apply Ascii.eqb_eq in Q; subst end.
      destruct s as [| c s']; [discriminate |].
      match goal with E : (_ ++ _)%list = _ |- _ =>
        simpl in E; inversion E; subst end.
      rewrite Ascii.eqb_refl.
      try match goal with E : _ = list_ascii_of_string s' |- _ =>
        rewrite E in L, A end.
      rewrite <- length_list_ascii. repeat split; try lia. exact A.
  - intros [[L1 L2] A].
    destruct s as [| c s'].
    + simpl in L1. lia.
    + destruct (Ascii.eqb_spec c "+") as [-> | Ne].
      * apply (matches_seq (s1 := ["+"%char])
                 (s2 := list_ascii_of_string s')).
        -- apply matches_alt_r. constructor. reflexivity.
        -- apply matches_between_class; [lia |].
           rewrite length_list_ascii. split; [lia | exact A].
      * apply (matches_seq (s1 := [])
                 (s2 := list_ascii_of_string (String c s'))).
        -- apply matches_alt_l. constructor.
        -- apply matches_between_class; [lia |].
           rewrite length_list_ascii. split; [lia | exact A].
Qed.

Lemma phone_shape_clean (s : string) :
  phone_shape s = true ->
  forallb (fun c => digit c || Ascii.eqb c "+") (list_ascii_of_string s) = true.
Proof.
  unfold phone_shape. destruct s as [| c s']; [reflexivity |].
  assert (W : forall l, forallb digit l = true ->
                        forallb (fun c => digit c || Ascii.eqb c "+") l = true).
  { induction l as [| d l IH]; simpl; [reflexivity |].
    intros A. apply andb_true_iff in A. destruct A as [D A].
    rewrite D, (IH A). reflexivity. }
  destruct (Ascii.eqb_spec c "+") as [-> | Ne]; intros H;
    apply andb_true_iff in H; destruct H as [_ A].
  - simpl. apply W. exact A.
  - apply W. exact A.
Qed.

Lemma phone_byte_clean (c : ascii) :
  digit c || Ascii.eqb c "+" = true ->
  space_first c = false /\ space_last c = false.
Proof.
  intros E.
  assert (All : forallb
                  (fun c => implb (digit c || Ascii.eqb c "+")
                              (negb (space_first c) && negb (space_last c)))
                  all_bytes = true) by (vm_compute; reflexivity).
  pose proof (byte_cases _ All c) as H. cbv beta in H.
  rewrite E in H. simpl in H.
  apply andb_true_iff in H. destruct H as [H1 H2].
  apply negb_true_iff in H1. apply negb_true_iff in H2. split; assumption.
Qed.

(** X3: NewPhone accepts a text exactly when, trimmed, it is empty or an
    optional [+] followed by 7 to 15 digits, and then the Phone is the
    trimmed text; every text of that shape is accepted as it is; and
    NewPhone applied to the value of a Phone it returned gives that Phone
    back. *)
Theorem NewPhone_accepts_exactly :
  forall (raw : string) (p : Phone),
    (NewPhone raw = Ok p <->
       p = mkPhone (strings.TrimSpace raw)
       /\ (strings.TrimSpace raw = ""
           \/ phone_shape (strings.TrimSpace raw) = true))
    /\ (phone_shape raw = true -> NewPhone raw = Ok (mkPhone raw))
    /\ (NewPhone raw = Ok p -> NewPhone (phone_value p) = Ok p).
Proof.
  assert (Shaped : forall s, phone_shape s = true -> NewPhone s = Ok (mkPhone s)).
  { intros s Sh.
    assert (Tr : strings.TrimSpace s = s).
    { apply (TrimSpace_clean _ _ phone_byte_clean).
      apply phone_shape_clean. exact Sh. }
    unfold NewPhone. rewrite Tr, phoneRegexp_shape, Sh.
    destruct s; [discriminate | reflexivity]. }
  assert (Iff : forall raw p,
             NewPhone raw = Ok p <->
             p = mkPhone (strings.TrimSpace raw)
             /\ (strings.TrimSpace raw = ""
                 \/ phone_shape (strings.TrimSpace raw) = true)).
  { intros raw p. unfold NewPhone. rewrite phoneRegexp_shape.
    destruct (String.eqb_spec (strings.TrimSpace raw) "") as [E | NE].
    - rewrite E. split.
      + intros H. inversion H. split; [reflexivity | left; reflexivity].
      + intros [-> _]. reflexivity.
    - destruct (phone_shape (strings.TrimSpace raw)); simpl; split.
      + intros H. inversion H. split; [reflexivity | right; reflexivity].
      + intros [-> _]. reflexivity.
      + discriminate.
      + intros [_ [E | E]]; [contradiction | discriminate]. }
  intros raw p. split; [apply Iff |]. split; [apply Shaped |].
  intros H. apply Iff in H. destruct H as [-> [E | Sh]]; simpl.
  - rewrite E. reflexivity.
  - apply Shaped. exact Sh.
Qed.

(* ------------------------------------------------------------------ *)
(** ** The User aggregate *)

(** X4: NewUser succeeds exactly when the email and the phone are accepted
    and the full name and the password hash are not empty; the role is taken
    as given.  The user it builds has the id and the instant it was given,
    version 1, no verification, no avatar, and the normalised email and
    phone. *)
Theorem NewUser_establishes_invariants :
  forall (email phone fullName passwordHash : string) (role : UserRole)
         (id : UUID) (now : Time),
    is_ok (NewUser email phone fullName passwordHash role id now)
    = is_ok (NewEmail email) && is_ok (NewPhone phone)
      && negb (String.eqb fullName "") && negb (String.eqb passwordHash "")
    /\ forall u, NewUser email phone fullName passwordHash role id now = Ok u ->
         User.ID u = id
         /\ User.Version u = 1
         /\ User.IsVerified u = false
         /\ User.AvatarURL u = ""
         /\ User.CreatedAt u = now /\ User.UpdatedAt u = now
         /\ User.FullName u = fullName /\ fullName <> ""
         /\ User.PasswordHash u = passwordHash /\ passwordHash <> ""
         /\ User.Role u = role
         /\ NewEmail email = Ok (User.email u)
         /\ NewPhone phone = Ok (User.phone u).
Proof.
  intros email phone fullName passwordHash role id now. unfold NewUser.
  destruct (NewEmail email) as [e | err]; simpl;
    [| split; [reflexivity | discriminate]].
  destruct (NewPhone phone) as [p | err]; simpl;
    [| split; [reflexivity | discriminate]].
  destruct (String.eqb_spec fullName "") as [Ef | Nf]; simpl;
    [split; [reflexivity | discriminate] |].
  destruct (String.eqb_spec passwordHash "") as [Eh | Nh]; simpl;
    [split; [reflexivity | discriminate] |].
  split; [reflexivity |]. intros u H. inversion H; subst; simpl.
  repeat split; assumption.
Qed.

(** X5: no method of a User changes its id, its email, its role or its
    creation time, and only IncrementVersion changes the version, by one
    int64 step. *)
Theorem User_identity_is_immutable :
  forall (u : User.t) (now : Time) (fullName phone avatarURL newHash : string),
    same_identity u (User.Verify now u)
    /\ same_identity u (User.UpdateProfile fullName phone avatarURL now u)
    /\ same_identity u (User.ChangePassword newHash now u)
    /\ same_identity u (User.Deactivate now u)
    /\ same_identity u (User.IncrementVersion now u)
    /\ User.Version (User.Verify now u) = User.Version u
    /\ User.Version (User.UpdateProfile fullName phone avatarURL now u)
       = User.Version u
    /\ User.Version (User.ChangePassword newHash now u) = User.Version u
    /\ User.Version (User.Deactivate now u) = User.Version u
    /\ User.Version (User.IncrementVersion now u)
       = int64.add (User.Version u) 1.
Proof.
  intros u now fullName phone avatarURL newHash.
  unfold same_identity, User.UpdateProfile.
  destruct (negb (String.eqb fullName "")), (negb (String.eqb phone "")),
    (negb (String.eqb avatarURL "")); simpl; repeat split.
Qed.

(* ------------------------------------------------------------------ *)
(** ** Rows and aggregates *)

Lemma toDomain_fromDomainUser (u : User.t) :
  UserModel.toDomain (fromDomainUser u) = u.
Proof. destruct u as [i [e] [p] h f r v a n c d]. reflexivity. Qed.

Lemma toDomain_fromDomainRefreshToken (t0 : RefreshToken.t) :
  RefreshTokenModel.toDomain (fromDomainRefreshToken t0) = t0.
Proof. destruct t0. reflexivity. Qed.

(** X6: the mapping between aggregates and rows loses nothing, in either
    direction, for users and for refresh tokens. *)
Theorem model_round_trips :
  forall (u : User.t) (m : UserModel.t) (t0 : RefreshToken.t)
         (tm : RefreshTokenModel.t),
    UserModel.toDomain (fromDomainUser u) = u
    /\ fromDomainUser (UserModel.toDomain m) = m
    /\ RefreshTokenModel.toDomain (fromDomainRefreshToken t0) = t0
    /\ fromDomainRefreshToken (RefreshTokenModel.toDomain tm) = tm.
Proof.
  intros u m t0 tm. split; [apply toDomain_fromDomainUser |].
  split; [destruct m; reflexivity |].
  split; [apply toDomain_fromDomainRefreshToken | destruct tm; reflexivity].
Qed.

Lemma find_none_existsb (A : Type) (p : A -> bool) (l : list A) :
  find p l = None <-> existsb p l = false.
Proof.
  induction l as [| a l IH]; simpl; [tauto |].
  destruct (p a); simpl; [split; discriminate | exact IH].
Qed.

Lemma find_app_new (A : Type) (p : A -> bool) (l : list A) (x : A) :
  existsb p l = false -> p x = true -> find p (l ++ [x])%list = Some x.
Proof.
  induction l as [| a l IH]; simpl; intros E Px.
  - rewrite Px. reflexivity.
  - apply orb_false_iff in E. destruct E as [Pa E]. rewrite Pa. auto.
Qed.

(** Save on users, read as a whole. *)
Lemma Save_user_eq (db : DB) (u : User.t) (st : Store) :
  GormUserRepository.Save db u st
  = if negb (users_columns db (fromDomainUser u))
    then (Fail (CheckViolation "users"), st)
    else if existsb (fun r => N.eqb (UserModel.ID r) (User.ID u)) (users st)
    then (Fail (UniqueViolation "users" "id"), st)
    else if existsb (fun r => String.eqb (UserModel.Email r) (User.Email u))
              (users st)
    then (Fail (UniqueViolation "users" "email"), st)
    else (Ok tt, mkStore (users st ++ [fromDomainUser u])%list
                   (refresh_tokens st)).
Proof.
  unfold GormUserRepository.Save, gorm.Create_users.
  change (UserModel.ID (fromDomainUser u)) with (User.ID u).
  change (UserModel.Email (fromDomainUser u)) with (User.Email u).
  repeat match goal with
         | |- context [if ?x then _ else _] => destruct x
         end; reflexivity.
Qed.



Lemma existsb_false_all (A : Type) (p : A -> bool) (l : list A) :
  existsb p l = false <-> forall x, In x l -> p x = false.
Proof.
  induction l as [| a l IH]; simpl.
  - split; [intros _ x [] | reflexivity].
  - rewrite orb_false_iff, IH. split.
    + intros [Pa Pl] x [<- | Ix]; auto.
    + intros H. split; [apply H; left; reflexivity |].
      intros x Ix. apply H. right. exact Ix.
Qed.

(** X8: Save on users is all or nothing.  It succeeds exactly when the row
    satisfies the column constraints and no stored user has its id or its
    email; when it fails the store is as before and the error is the
    driver's, of kind Internal. *)
Theorem Save_rejects_duplicates :
  forall (db : DB) (u : User.t) (st : Store),
    let res := GormUserRepository.Save db u st in
    (fst res = Ok tt <->
       users_columns db (fromDomainUser u) = true
       /\ forall r, In r (users st) ->
            UserModel.ID r <> User.ID u /\ UserModel.Email r <> User.Email u)
    /\ (forall e, fst res = Fail e -> snd res = st /\ kind e = Internal).
Proof.
  intros db u st res. subst res. rewrite Save_user_eq.
  destruct (users_columns db (fromDomainUser u)) eqn:C; simpl.
  2:{ split; [split; [discriminate | intros [F _]; discriminate] |].
      intros e H. inversion H. split; reflexivity. }
  destruct (existsb (fun r => N.eqb (UserModel.ID r) (User.ID u)) (users st))
    eqn:Ei; simpl.
  { split.
    - split; [discriminate |]. intros [_ F].
      apply existsb_exists in Ei. destruct Ei as [r [I E]].
      apply N.eqb_eq in E. destruct (F r I) as [N _]. contradiction.
    - intros e H. inversion H. split; reflexivity. }
  destruct (existsb (fun r => String.eqb (UserModel.Email r) (User.Email u))
              (users st)) eqn:Ee; simpl.
  { split.
    - split; [discriminate |]. intros [_ F].
      apply existsb_exists in Ee. destruct Ee as [r [I E]].
      apply String.eqb_eq in E. destruct (F r I) as [_ N]. contradiction.
    - intros e H. inversion H. split; reflexivity. }
  split; [| discriminate].
  split; [| reflexivity]. intros _. split; [reflexivity |].
  intros r I. split.
  - apply N.eqb_neq. apply (proj1 (existsb_false_all _ _) Ei r I).
  - apply String.eqb_neq. apply (proj1 (existsb_false_all _ _) Ee r I).
Qed.

(* ------------------------------------------------------------------ *)
(** ** The keys of the store *)

Lemma existsb_map (A B : Type) (f : A -> B) (p : B -> bool) (l : list A) :
  existsb p (map f l) = existsb (fun x => p (f x)) l.
Proof. induction l as [| a l IH]; simpl; [| rewrite IH]; reflexivity. Qed.

Lemma distinct_snoc (K : Type) (eqb : K -> K -> bool) (l : list K) (k : K) :
  gorm.distinct eqb l = true ->
  existsb (fun x => eqb x k) l = false ->
  gorm.distinct eqb (l ++ [k]) = true.
Proof.
  induction l as [| a l IH]; simpl; [reflexivity |].
  intros D E. apply andb_true_iff in D. destruct D as [Na D].
  apply orb_false_iff in E. destruct E as [Ea E].
  rewrite existsb_app. simpl. rewrite Ea, orb_false_r, Na. simpl.
  apply IH; assumption.
Qed.

Lemma Save_user_keeps_keys (db : DB) (u : User.t) :
  keeps_keys (GormUserRepository.Save db u).
Proof.
  intros st K. rewrite Save_user_eq.
  repeat match goal with
         | |- context [if ?x then _ else _] => destruct x eqn:?
         end; simpl; try exact K.
  unfold store_keys_ok, users_keys_ok, tokens_keys_ok in *. simpl.
  apply andb_true_iff in K. destruct K as [Ku Kt].
  apply andb_true_iff in Ku. destruct Ku as [Ki Ke].
  rewrite Kt, !map_app. simpl.
  rewrite (distinct_snoc N.eqb _ _ Ki), (distinct_snoc String.eqb _ _ Ke);
    [reflexivity | |]; rewrite existsb_map; assumption.
Qed.

Lemma Update_user_keeps_keys (db : DB) (u : User.t) :
  keeps_keys (GormUserRepository.Update db u).
Proof.
  intros st K. rewrite Update_eq. cbv zeta.
  repeat match goal with
         | |- context [if ?x then _ else _] => destruct x eqn:?
         end; simpl; try exact K.
  unfold store_keys_ok, users_keys_ok, tokens_keys_ok in *. simpl.
  apply andb_true_iff in K. destruct K as [_ Kt]. rewrite Kt.
  repeat match goal with
         | H : negb ?x = false |- _ => apply negb_false_iff in H; rewrite H
         end.
  reflexivity.
Qed.

Lemma Save_token_keeps_keys (db : DB) (t0 : RefreshToken.t) :
  keeps_keys (GormTokenRepository.Save db t0).
Proof.
  intros st K. unfold GormTokenRepository.Save, gorm.Create_refresh_tokens.
  repeat match goal with
         | |- context [if ?x then _ else _] => destruct x eqn:?
         end; simpl; try exact K.
  unfold store_keys_ok, users_keys_ok, tokens_keys_ok in *. simpl.
  apply andb_true_iff in K. destruct K as [Ku Kt].
  apply andb_true_iff in Kt. destruct Kt as [Ki Ks].
  rewrite Ku, !map_app. simpl.
  rewrite (distinct_snoc N.eqb _ _ Ki), (distinct_snoc String.eqb _ _ Ks);
    [reflexivity | |]; rewrite existsb_map; assumption.
Qed.

Lemma RevokeAllForUser_keeps_keys (db : DB) (userID : UUID) :
  keeps_keys (GormTokenRepository.RevokeAllForUser db userID).
Proof.
  intros st K. rewrite RevokeAllForUser_spec.
  destruct (unavailable db UPDATE_revoked); [exact K |]. simpl.
  unfold store_keys_ok, users_keys_ok, tokens_keys_ok in *. simpl.
  rewrite !map_map.
  assert (E1 : map (fun x => RefreshTokenModel.ID (revoked_for userID x))
                 (refresh_tokens st)
               = map RefreshTokenModel.ID (refresh_tokens st)).
  { apply map_ext. intros r. unfold revoked_for.
    destruct (N.eqb (RefreshTokenModel.UserID r) userID); reflexivity. }
  assert (E2 : map (fun x => RefreshTokenModel.Token (revoked_for userID x))
                 (refresh_tokens st)
               = map RefreshTokenModel.Token (refresh_tokens st)).
  { apply map_ext. intros r. unfold revoked_for.
    destruct (N.eqb (RefreshTokenModel.UserID r) userID); reflexivity. }
  rewrite E1, E2. exact K.
Qed.

Lemma read_keeps_keys (A : Type) (m : M Store A) :
  (forall st, snd (m st) = st) -> keeps_keys m.
Proof. intros R st K. rewrite R. exact K. Qed.

Lemma FindByID_reads db id st : snd (GormUserRepository.FindByID db id st) = st.
Proof.
  unfold GormUserRepository.FindByID. destruct (gorm.First _ _); reflexivity.
Qed.

Lemma FindByEmail_reads db email st :
  snd (GormUserRepository.FindByEmail db email st) = st.
Proof.
  unfold GormUserRepository.FindByEmail. destruct (gorm.First _ _); reflexivity.
Qed.

Lemma FindByToken_reads db token st :
  snd (GormTokenRepository.FindByToken db token st) = st.
Proof.
  unfold GormTokenRepository.FindByToken. destruct (gorm.First _ _); reflexivity.
Qed.

Lemma keeps_bind_or (A B : Type) (m : M Store A) (h : Error -> Error)
    (k : A -> M Store B) :
  keeps_keys m -> (forall a, keeps_keys (k a)) -> keeps_keys (bind_or m h k).
Proof.
  intros Km Kk st K. unfold bind_or. specialize (Km st K).
  destruct (m st) as [[a | e] st1]; simpl in *; [apply Kk |]; exact Km.
Qed.

Lemma keeps_attempt (A B : Type) (m : M Store A) (k : result A -> M Store B) :
  keeps_keys m -> (forall r, keeps_keys (k r)) -> keeps_keys (attempt m k).
Proof.
  intros Km Kk st K. unfold attempt. specialize (Km st K).
  destruct (m st) as [r st1]. simpl in *. apply Kk. exact Km.
Qed.

Lemma keeps_pure (A : Type) (r : result A) : keeps_keys (pure (W := Store) r).
Proof. intros st K. exact K. Qed.

Lemma keeps_ret (A : Type) (a : A) : keeps_keys (ret (W := Store) a).
Proof. intros st K. exact K. Qed.

Lemma keeps_fail (A : Type) (e : Error) : keeps_keys (fail (W := Store) (A := A) e).
Proof. intros st K. exact K. Qed.

Ltac keeps_step :=
  first
    [ apply keeps_ret | apply keeps_fail | apply keeps_pure
    | apply Save_user_keeps_keys | apply Update_user_keeps_keys
    | apply Save_token_keeps_keys | apply RevokeAllForUser_keeps_keys
    | apply read_keeps_keys; intros;
      first [apply FindByID_reads | apply FindByEmail_reads
            | apply FindByToken_reads]
    | apply keeps_bind_or; [| intros]
    | apply keeps_attempt; [| intros]
    | match goal with
      | |- keeps_keys (match ?x with _ => _ end) => destruct x
      | |- keeps_keys (if ?x then _ else _) => destruct x
      end ].

(** X9: no operation of the service breaks the keys of the store: if no two
    users share an id or an email and no two tokens share an id or a token
    string before a call of Register, Login, RefreshToken, Logout,
    GetProfile, UpdateProfile or BanUser, the same holds after it, whatever
    the call returns. *)
Theorem service_keeps_keys :
  forall (db : DB) (signer : JWTManager) (bcrypt : Bcrypt) (env : Env),
    let s := gormService db signer in
    (forall req, keeps_keys (Register bcrypt s env req))
    /\ (forall req, keeps_keys (Login bcrypt s env req))
    /\ (forall token, keeps_keys (RefreshToken s env token))
    /\ (forall userID, keeps_keys (Logout s userID))
    /\ (forall userID, keeps_keys (GetProfile s userID))
    /\ (forall userID req, keeps_keys (UpdateProfile s env userID req))
    /\ (forall userID, keeps_keys (BanUser s env userID)).
Proof.
  intros db signer bcrypt env s.
  repeat split; intros;
    [ unfold Register | unfold Login | unfold application.RefreshToken
    | unfold Logout | unfold GetProfile | unfold UpdateProfile
    | unfold BanUser ];
    unfold s, gormService; cbn [userRepo tokenRepo jwt NewGormUserRepository
      NewGormTokenRepository UserRepository_FindByID
      UserRepository_FindByEmail UserRepository_Save UserRepository_Update
      TokenRepository_Save TokenRepository_FindByToken
      TokenRepository_RevokeAllForUser];
    repeat keeps_step.
Qed.

(* ------------------------------------------------------------------ *)
(** ** GetProfile *)

(** X10: GetProfile never changes the store.  It returns the view of the
    stored row that has the id, and when no row has it, the error NotFound
    for the entity User and that id. *)
Theorem GetProfile_reads_the_row :
  forall (db : DB) (signer : JWTManager) (userID : UUID) (st : Store),
    let res := GetProfile (gormService db signer) userID st in
    snd res = st
    /\ (forall r, find (fun m => N.eqb (UserModel.ID m) userID) (users st)
                  = Some r ->
                  fst res = Ok (view r) /\ UserDTO.ID (view r) = userID)
    /\ (find (fun m => N.eqb (UserModel.ID m) userID) (users st) = None ->
        fst res = Fail (NewNotFoundError "User" (UUID_String userID))
        /\ forall r, In r (users st) -> UserModel.ID r <> userID)
    /\ kind (NewNotFoundError "User" (UUID_String userID)) = NotFound.
Proof.
  intros db signer userID st res. subst res.
  unfold GetProfile, bind_or, ret, gormService.
  cbn [userRepo NewGormUserRepository UserRepository_FindByID].
  unfold GormUserRepository.FindByID, gorm.First.
  destruct (find (fun m => N.eqb (UserModel.ID m) userID) (users st))
    as [r |] eqn:F; simpl.
  - split; [reflexivity |]. split; [| split; [discriminate | reflexivity]].
    intros r' E. inversion E; subst r'. split; [reflexivity |].
    apply find_some in F. destruct F as [_ F]. apply N.eqb_eq in F. exact F.
  - split; [reflexivity |]. split; [discriminate |].
    split; [| reflexivity]. intros _. split; [reflexivity |].
    intros r I. apply N.eqb_neq. apply (find_none _ _ F r I).
Qed.

(* ------------------------------------------------------------------ *)
(** ** Login, what it writes *)

Lemma Save_token_eq (db : DB) (t0 : RefreshToken.t) (st : Store) :
  GormTokenRepository.Save db t0 st
  = if negb (refresh_tokens_columns db (fromDomainRefreshToken t0))
    then (Fail (CheckViolation "refresh_tokens"), st)
    else if existsb (fun r => N.eqb (RefreshTokenModel.ID r)
                                (RefreshToken.ID t0)) (refresh_tokens st)
    then (Fail (UniqueViolation "refresh_tokens" "id"), st)
    else if existsb (fun r => String.eqb (RefreshTokenModel.Token r)
                                (RefreshToken.Token t0)) (refresh_tokens st)
    then (Fail (UniqueViolation "refresh_tokens" "token"), st)
    else (Ok tt, mkStore (users st)
                   (refresh_tokens st ++ [fromDomainRefreshToken t0])%list).
Proof.
  unfold GormTokenRepository.Save, gorm.Create_refresh_tokens.
  change (RefreshTokenModel.ID (fromDomainRefreshToken t0))
    with (RefreshToken.ID t0).
  change (RefreshTokenModel.Token (fromDomainRefreshToken t0))
    with (RefreshToken.Token t0).
  repeat match goal with
         | |- context [if ?x then _ else _] => destruct x
         end; reflexivity.
Qed.

Lemma Save_token_inv (db : DB) (t0 : RefreshToken.t) (st st' : Store)
    (r : result unit) :
  GormTokenRepository.Save db t0 st = (r, st') ->
  (exists e, r = Fail e /\ st' = st /\ kind e = Internal)
  \/ (r = Ok tt
      /\ st' = mkStore (users st)
                 (refresh_tokens st ++ [fromDomainRefreshToken t0])%list).
Proof.
  rewrite Save_token_eq.
  repeat match goal with
         | |- context [if ?x then _ else _] => destruct x
         end; intros H; inversion H; subst;
    solve [left; eexists; repeat split | right; split; reflexivity].
Qed.

(** X11: Login writes nothing but one session.  A login that fails leaves
    the store as it was.  A login that succeeds found a row under the email
    as it was typed, matched the password against the hash of that row, and
    appends exactly one row to the refresh tokens: a session of that user,
    not revoked, holding the refresh token of the response and expiring
    seven days after the third reading of the clock.  No row is removed or
    revoked, and the users are not touched. *)
Theorem Login_appends_one_session :
  forall (db : DB) (signer : JWTManager) (bcrypt : Bcrypt) (env : Env)
         (req : LoginRequest) (st : Store),
    let res := Login bcrypt (gormService db signer) env req st in
    (forall e, fst res = Fail e -> snd res = st)
    /\ (forall resp, fst res = Ok resp ->
          exists r,
            find (fun m => String.eqb (UserModel.Email m) (Login_Email req))
              (users st) = Some r
            /\ CompareHashAndPassword bcrypt (UserModel.PasswordHash r)
                 (Login_Password req) = None
            /\ User_ resp = view r
            /\ GenerateAccessToken signer (Now env 0) (UserModel.ID r)
                 (UserModel.Email r) (UserModel.Role r)
               = Ok (AccessToken resp)
            /\ GenerateRefreshToken signer (Now env 1) (UserModel.ID r)
               = Ok (RefreshToken_ resp)
            /\ snd res
               = mkStore (users st)
                   (refresh_tokens st
                    ++ [session (NewUUID env 0) (UserModel.ID r)
                          (RefreshToken_ resp) (Now env 2) (Now env 3)])%list).
Proof.
  intros db signer bcrypt env req st res. subst res.
  unfold Login, bind_or, pure, fail, ret, gormService.
  cbn [userRepo tokenRepo jwt NewGormUserRepository NewGormTokenRepository
       UserRepository_FindByEmail TokenRepository_Save].
  unfold GormUserRepository.FindByEmail, gorm.First.
  destruct (find _ (users st)) as [r |] eqn:F;
    [| split; [reflexivity | discriminate]].
  change (User.PasswordHash (UserModel.toDomain r))
    with (UserModel.PasswordHash r).
  change (User.ID (UserModel.toDomain r)) with (UserModel.ID r).
  change (User.Email (UserModel.toDomain r)) with (UserModel.Email r).
  change (User.Role (UserModel.toDomain r)) with (UserModel.Role r).
  destruct (CompareHashAndPassword bcrypt _ _) eqn:C;
    [split; [reflexivity | discriminate] |].
  destruct (GenerateAccessToken signer _ _ _ _) as [a | e1] eqn:A;
    [| split; [reflexivity | discriminate]].
  destruct (GenerateRefreshToken signer _ _) as [t1 | e2] eqn:R;
    [| split; [reflexivity | discriminate]].
  destruct (GormTokenRepository.Save db _ st) as [out st'] eqn:S.
  apply Save_token_inv in S.
  destruct S as [[e [-> [-> _]]] | [-> ->]]; simpl.
  - split; [reflexivity | discriminate].
  - split; [discriminate |]. intros resp E. inversion E; subst resp. simpl.
    exists r. repeat split; assumption.
Qed.

(** X12: a login whose refresh token is already in the store fails.  The
    token column is unique, so when the signer returns a text some session
    already holds, for this user or another, the session is not saved, the
    store stays as it was, and Login returns the database error wrapped as
    an internal error, not a domain error. *)
Theorem Login_fails_on_repeated_token :
  forall (db : DB) (signer : JWTManager) (bcrypt : Bcrypt) (env : Env)
         (req : LoginRequest) (st : Store) (r : UserModel.t)
         (access token : string),
    find (fun m => String.eqb (UserModel.Email m) (Login_Email req))
      (users st) = Some r ->
    CompareHashAndPassword bcrypt (UserModel.PasswordHash r)
      (Login_Password req) = None ->
    GenerateAccessToken signer (Now env 0) (UserModel.ID r)
      (UserModel.Email r) (UserModel.Role r) = Ok access ->
    GenerateRefreshToken signer (Now env 1) (UserModel.ID r) = Ok token ->
    existsb (fun m => String.eqb (RefreshTokenModel.Token m) token)
      (refresh_tokens st) = true ->
    exists cause,
      Login bcrypt (gormService db signer) env req st
      = (Fail (Wrap "failed to save refresh token" cause), st)
      /\ kind (Wrap "failed to save refresh token" cause) = Internal.
Proof.
  intros db signer bcrypt env req st r access token F C A R Dup.
  unfold Login, bind_or, pure, fail, ret, gormService.
  cbn [userRepo tokenRepo jwt NewGormUserRepository NewGormTokenRepository
       UserRepository_FindByEmail TokenRepository_Save].
  unfold GormUserRepository.FindByEmail, gorm.First. rewrite F.
  change (User.PasswordHash (UserModel.toDomain r))
    with (UserModel.PasswordHash r).
  change (User.ID (UserModel.toDomain r)) with (UserModel.ID r).
  change (User.Email (UserModel.toDomain r)) with (UserModel.Email r).
  change (User.Role (UserModel.toDomain r)) with (UserModel.Role r).
  rewrite C, A, R, Save_token_eq.
  change (RefreshToken.Token (NewRefreshToken _ token _ _ _)) with token.
  rewrite Dup.
  repeat match goal with
         | |- context [if ?x then _ else _] => destruct x
         end; eexists; split; reflexivity.
Qed.

(** An instance: user A logs in at an instant at which the signer spells the
    very refresh token the registration issued. *)
Lemma Login_fails_on_repeated_token_witness :
  exists cause,
    deployment.Login (deployment.at_ 2000 10)
      (mkLoginRequest "a@x.com" "longpass1") deployment.storeA
    = (Fail (Wrap "failed to save refresh token" cause), deployment.storeA)
    /\ kind (Wrap "failed to save refresh token" cause) = Internal.
Proof.
  apply (@Login_fails_on_repeated_token deployment.db deployment.signer
           deployment.hasher (deployment.at_ 2000 10)
           (mkLoginRequest "a@x.com" "longpass1") deployment.storeA
           deployment.rowA "access.1.2000" deployment.tokenA);
    vm_compute; reflexivity.
Defined.

(* ------------------------------------------------------------------ *)
(** ** Register, what it writes *)

Lemma Save_user_inv (db : DB) (u : User.t) (st st' : Store)
    (r : result unit) :
  GormUserRepository.Save db u st = (r, st') ->
  (exists e, r = Fail e /\ st' = st)
  \/ (r = Ok tt
      /\ existsb (fun x => N.eqb (UserModel.ID x) (User.ID u)) (users st)
         = false
      /\ existsb (fun x => String.eqb (UserModel.Email x) (User.Email u))
           (users st) = false
      /\ st' = mkStore (users st ++ [fromDomainUser u])%list
                 (refresh_tokens st)).
Proof.
  rewrite Save_user_eq.
  destruct (negb (users_columns db (fromDomainUser u)));
    [intros H; inversion H; left; eexists; split; reflexivity |].
  destruct (existsb (fun x => N.eqb (UserModel.ID x) (User.ID u)) (users st));
    [intros H; inversion H; left; eexists; split; reflexivity |].
  destruct (existsb (fun x => String.eqb (UserModel.Email x) (User.Email u))
              (users st));
    [intros H; inversion H; left; eexists; split; reflexivity |].
  intros H; inversion H. right. repeat split.
Qed.

Lemma NewUser_ok_inv email phone fullName passwordHash role id now u :
  NewUser email phone fullName passwordHash role id now = Ok u ->
  User.ID u = id
  /\ User.Email u = strings.ToLower (strings.TrimSpace email)
  /\ User.IsVerified u = false
  /\ User.Version u = 1.
Proof.
  unfold NewUser. destruct (NewEmail email) as [e |] eqn:E; [| discriminate].
  destruct (NewPhone phone); [| discriminate].
  destruct (String.eqb fullName ""); [discriminate |].
  destruct (String.eqb passwordHash ""); [discriminate |].
  intros H. inversion H. apply NewEmail_ok_inv in E.
  destruct E as [_ [_ ->]]. repeat split.
Qed.

Lemma Register_ok_inv (db : DB) (signer : JWTManager) (bcrypt : Bcrypt)
    (env : Env) (req : RegisterRequest) (st st' : Store)
    (resp : AuthResponse) :
  Register bcrypt (gormService db signer) env req st = (Ok resp, st') ->
  exists hash u,
    GenerateFromPassword bcrypt (Rand env) (Register_Password req) = Ok hash
    /\ NewUser (Register_Email req) (Register_Phone req)
         (Register_FullName req) hash (Register_Role req) (NewUUID env 0)
         (Now env 0) = Ok u
    /\ find (fun m => String.eqb (UserModel.Email m) (Register_Email req))
         (users st) = None
    /\ existsb (fun x => N.eqb (UserModel.ID x) (User.ID u)) (users st)
       = false
    /\ existsb (fun x => String.eqb (UserModel.Email x) (User.Email u))
         (users st) = false
    /\ st' = mkStore
               (users st ++ [fromDomainUser u])%list
               (refresh_tokens st
                ++ [session (NewUUID env 1) (User.ID u)
                      (RefreshToken_ resp) (Now env 3) (Now env 4)])%list
    /\ User_ resp = toUserDTO u.
Proof.
  unfold Register, attempt, bind_or, pure, fail, ret, gormService.
  cbn [userRepo tokenRepo jwt NewGormUserRepository NewGormTokenRepository
       UserRepository_FindByEmail UserRepository_Save TokenRepository_Save].
  unfold GormUserRepository.FindByEmail, gorm.First.
  destruct (find _ (users st)) as [r0 |] eqn:F; [discriminate |].
  destruct (GenerateFromPassword bcrypt _ _) as [hash |] eqn:G;
    [| discriminate].
  destruct (NewUser _ _ _ hash _ _ _) as [u |] eqn:N; [| discriminate].
  destruct (GormUserRepository.Save db u st) as [out st1] eqn:S.
  apply Save_user_inv in S.
  destruct S as [[e [-> ->]] | [-> [Ei [Ee ->]]]]; [discriminate |].
  destruct (GenerateAccessToken signer _ _ _ _) as [a |]; [| discriminate].
  destruct (GenerateRefreshToken signer _ _) as [t1 |]; [| discriminate].
  destruct (GormTokenRepository.Save db _ _) as [out2 st2] eqn:S2.
  apply Save_token_inv in S2.
  destruct S2 as [[e [-> [-> _]]] | [-> ->]]; [discriminate |].
  intros H. inversion H; subst resp st'. clear H.
  exists hash, u. repeat split; assumption.
Qed.

(** X13: what a successful Register has done.  No stored user had the email
    as it was typed; the password was hashed and the user built by NewUser;
    the store gained that user as its last row, with a fresh id and the
    email trimmed and in lower case, which no stored user had either, and
    one session of that user holding the refresh token of the response.
    The response shows the new user, not verified. *)
Theorem Register_creates_user_and_session :
  forall (db : DB) (signer : JWTManager) (bcrypt : Bcrypt) (env : Env)
         (req : RegisterRequest) (st st' : Store) (resp : AuthResponse),
    Register bcrypt (gormService db signer) env req st = (Ok resp, st') ->
    exists hash u,
      GenerateFromPassword bcrypt (Rand env) (Register_Password req) = Ok hash
      /\ NewUser (Register_Email req) (Register_Phone req)
           (Register_FullName req) hash (Register_Role req) (NewUUID env 0)
           (Now env 0) = Ok u
      /\ User.Email u
         = strings.ToLower (strings.TrimSpace (Register_Email req))
      /\ (forall r, In r (users st) ->
            UserModel.Email r <> Register_Email req
            /\ UserModel.Email r <> User.Email u
            /\ UserModel.ID r <> NewUUID env 0)
      /\ st' = mkStore
                 (users st ++ [fromDomainUser u])%list
                 (refresh_tokens st
                  ++ [session (NewUUID env 1) (NewUUID env 0)
                        (RefreshToken_ resp) (Now env 3) (Now env 4)])%list
      /\ User_ resp = toUserDTO u
      /\ UserDTO.IsVerified (User_ resp) = false
      /\ UserDTO.ID (User_ resp) = NewUUID env 0.
Proof.
  intros db signer bcrypt env req st st' resp H.
  destruct (@Register_ok_inv db signer bcrypt env req st st' resp H)
    as (hash & u & G & N & F & Ei & Ee & St & Re).
  destruct (NewUser_ok_inv _ _ _ _ _ _ _ N) as [Id [Em [Ve _]]].
  exists hash, u.
  split; [exact G |]. split; [exact N |]. split; [exact Em |].
  split.
  { intros r I. apply find_none_existsb in F.
    rewrite existsb_false_all in F, Ei, Ee.
    specialize (F r I). specialize (Ei r I). specialize (Ee r I). simpl in *.
    apply String.eqb_neq in F, Ee. apply N.eqb_neq in Ei.
    rewrite Id in Ei. repeat split; assumption. }
  rewrite <- Id. split; [exact St |]. split; [exact Re |].
  rewrite Re. simpl. split; [exact Ve | reflexivity].
Qed.

(** An instance: the registration of user A into the empty store. *)
Lemma Register_creates_user_and_session_witness :
  exists hash u,
    GenerateFromPassword deployment.hasher 7 "longpass1" = Ok hash
    /\ NewUser "a@x.com" "" "Ann" hash "owner" 1%N 1000 = Ok u
    /\ User.Email u = strings.ToLower (strings.TrimSpace "a@x.com")
    /\ (forall r, In r [] ->
          UserModel.Email r <> "a@x.com"
          /\ UserModel.Email r <> User.Email u
          /\ UserModel.ID r <> 1%N)
    /\ deployment.storeA
       = mkStore ([] ++ [fromDomainUser u])%list
           ([] ++ [session 2%N 1%N deployment.tokenA 4000 5000])%list
    /\ UserDTO.mk 1 "a@x.com" "" "Ann" "owner" false "" 1000 = toUserDTO u
    /\ false = false
    /\ 1%N = 1%N.
Proof.
  apply (@Register_creates_user_and_session deployment.db deployment.signer
           deployment.hasher (deployment.at_ 1000 1) deployment.reqA
           deployment.empty deployment.storeA
           (mkAuthResponse "access.1.2000" deployment.tokenA
              (UserDTO.mk 1 "a@x.com" "" "Ann" "owner" false "" 1000))).
  vm_compute. reflexivity.
Defined.

(** X14: Register is not atomic.  When it fails, either the store is as it
    was, or the user has been saved and stays saved while no session was
    opened: that is the case exactly for the three failures that come
    after the user is written (signing the access token, signing the
    refresh token, saving the session).  The user left behind is found
    under the normalised email, so the address is taken from then on. *)
Theorem Register_failure_may_keep_the_user :
  forall (db : DB) (signer : JWTManager) (bcrypt : Bcrypt) (env : Env)
         (req : RegisterRequest) (st st' : Store) (e : Error),
    Register bcrypt (gormService db signer) env req st = (Fail e, st') ->
    (st' = st
     /\ forall cause, e <> Wrap "failed to generate access token" cause
                    /\ e <> Wrap "failed to generate refresh token" cause
                    /\ e <> Wrap "failed to save refresh token" cause)
    \/ exists u cause,
         st' = mkStore (users st ++ [fromDomainUser u])%list
                 (refresh_tokens st)
         /\ User.Email u
            = strings.ToLower (strings.TrimSpace (Register_Email req))
         /\ GormUserRepository.FindByEmail db (User.Email u) st'
            = (Ok u, st')
         /\ (e = Wrap "failed to generate access token" cause
             \/ e = Wrap "failed to generate refresh token" cause
             \/ e = Wrap "failed to save refresh token" cause).
Proof.
  intros db signer bcrypt env req st st' e.
  unfold Register, attempt, bind_or, pure, fail, ret, gormService.
  cbn [userRepo tokenRepo jwt NewGormUserRepository NewGormTokenRepository
       UserRepository_FindByEmail UserRepository_Save TokenRepository_Save].
  unfold GormUserRepository.FindByEmail at 1. unfold gorm.First.
  destruct (find _ (users st)) as [r0 |] eqn:F.
  { intros H; inversion H. left. split; [reflexivity |].
    intros cause. repeat split; discriminate. }
  destruct (GenerateFromPassword bcrypt _ _) as [hash |] eqn:G.
  2:{ intros H; inversion H. left. split; [reflexivity |].
      intros cause. repeat split; discriminate. }
  destruct (NewUser _ _ _ hash _ _ _) as [u |] eqn:N.
  2:{ intros H; inversion H. left. split; [reflexivity |].
      intros cause. repeat split; discriminate. }
  destruct (GormUserRepository.Save db u st) as [out st1] eqn:S.
  apply Save_user_inv in S.
  destruct S as [[e0 [-> ->]] | [-> [Ei [Ee ->]]]].
  { intros H; inversion H. left. split; [reflexivity |].
    intros cause. repeat split; discriminate. }
  assert (Found : GormUserRepository.FindByEmail db (User.Email u)
                    (mkStore (users st ++ [fromDomainUser u])%list
                       (refresh_tokens st))
                  = (Ok u, mkStore (users st ++ [fromDomainUser u])%list
                             (refresh_tokens st))).
  { unfold GormUserRepository.FindByEmail, gorm.First. simpl users.
    rewrite (find_app_new _ _ (fromDomainUser u) Ee)
      by (simpl; apply String.eqb_refl).
    rewrite toDomain_fromDomainUser. reflexivity. }
  destruct (NewUser_ok_inv _ _ _ _ _ _ _ N) as [_ [Em _]].
  destruct (GenerateAccessToken signer _ _ _ _) as [a | e1].
  2:{ intros H; inversion H; subst. right. exists u, e1.
      repeat split; auto. }
  destruct (GenerateRefreshToken signer _ _) as [t1 | e2].
  2:{ intros H; inversion H; subst. right. exists u, e2.
      repeat split; auto. }
  destruct (GormTokenRepository.Save db _ _) as [out2 st2] eqn:S2.
  apply Save_token_inv in S2.
  destruct S2 as [[e3 [-> [-> _]]] | [-> ->]]; [| discriminate].
  intros H; inversion H; subst. right. exists u, e3. repeat split; auto.
Qed.

(** An instance: user A registers with a service whose signer has lost its
    key. *)
Lemma Register_failure_may_keep_the_user_witness :
  let st' := mkStore [deployment.rowA] [] in
  let e := Wrap "failed to generate access token"
             (New "signing key is missing") in
  Register deployment.hasher (gormService deployment.db keyless)
    (deployment.at_ 1000 1) deployment.reqA deployment.empty = (Fail e, st')
  /\ st' <> deployment.empty
  /\ ((st' = deployment.empty
       /\ forall cause, e <> Wrap "failed to generate access token" cause
                      /\ e <> Wrap "failed to generate refresh token" cause
                      /\ e <> Wrap "failed to save refresh token" cause)
      \/ exists u cause,
           st' = mkStore (users deployment.empty ++ [fromDomainUser u])%list
                   (refresh_tokens deployment.empty)
           /\ User.Email u
              = strings.ToLower
                  (strings.TrimSpace (Register_Email deployment.reqA))
           /\ GormUserRepository.FindByEmail deployment.db (User.Email u) st'
              = (Ok u, st')
           /\ (e = Wrap "failed to generate access token" cause
               \/ e = Wrap "failed to generate refresh token" cause
               \/ e = Wrap "failed to save refresh token" cause)).
Proof.
  intros st' e. split; [reflexivity |]. split; [discriminate |].
  apply (@Register_failure_may_keep_the_user deployment.db keyless
           deployment.hasher (deployment.at_ 1000 1) deployment.reqA
           deployment.empty st' e).
  reflexivity.
Defined.

(* ------------------------------------------------------------------ *)
(** ** Sessions after Logout and BanUser *)

Lemma find_map_key (A : Type) (p : A -> bool) (f : A -> A) (l : list A) :
  (forall x, p (f x) = p x) ->
  find p (map f l) = option_map f (find p l).
Proof.
  intros Pf. induction l as [| a l IH]; simpl; [reflexivity |].
  rewrite Pf. destruct (p a); [reflexivity | exact IH].
Qed.





Lemma BanUser_inv (db : DB) (signer : JWTManager) (env : Env) (userID : UUID)
    (st st' : Store) (res : result unit) :
  BanUser (gormService db signer) env userID st = (res, st') ->
  (exists e, res = Fail e /\ st' = st)
  \/ (res = Ok tt
      /\ exists r,
           find (fun m => N.eqb (UserModel.ID m) userID) (users st) = Some r
           /\ st' = mkStore
                      (map (fun x => if fence (ban_written env r) x
                                     then gorm.assign (NowFunc db)
                                            (fromDomainUser (ban_written env r))
                                            x
                                     else x) (users st))
                      (match unavailable db UPDATE_revoked with
                       | Some _ => refresh_tokens st
                       | None => map (revoked_for userID) (refresh_tokens st)
                       end)).
Proof.
  unfold BanUser, attempt, bind_or, ret, gormService.
  cbn [userRepo tokenRepo NewGormUserRepository NewGormTokenRepository
       UserRepository_FindByID UserRepository_Update
       TokenRepository_RevokeAllForUser].
  unfold GormUserRepository.FindByID, gorm.First.
  destruct (find _ (users st)) as [r |] eqn:F.
  2:{ intros H; inversion H. left. eexists; split; reflexivity. }
  fold (ban_written env r).
  destruct (GormUserRepository.Update db (ban_written env r) st)
    as [[[] | e] st1] eqn:Up.
  - apply Update_ok_inv in Up. subst st1. rewrite RevokeAllForUser_spec.
    destruct (unavailable db UPDATE_revoked);
      intros H; inversion H; right; (split; [reflexivity |]);
      exists r; split; reflexivity.
  - apply Update_fail_store in Up. subst st1.
    intros H; inversion H. left. eexists; split; reflexivity.
Qed.



(* ------------------------------------------------------------------ *)
(** ** The version fence between two writers *)

(** X17: of two writers that start from the same reading of a user, only
    the first succeeds.  Once Update has written an aggregate at a version
    other than 0, an Update of any aggregate with the same id and the same
    version, which is what a second writer holds who read the row before the
    first one wrote, finds no row behind its fence: it returns the Conflict
    error and changes nothing. *)
Theorem Update_rejects_the_stale_writer :
  forall (db : DB) (u1 u2 : User.t) (st st1 : Store),
    GormUserRepository.Update db u1 st = (Ok tt, st1) ->
    User.ID u2 = User.ID u1 ->
    User.Version u2 = User.Version u1 ->
    User.Version u1 <> 0 ->
    GormUserRepository.Update db u2 st1 = (Fail conflict, st1)
    /\ kind conflict = Conflict.
Proof.
  intros db u1 u2 st st1 Up Id Ve Nz. split; [| reflexivity].
  apply Update_ok_inv in Up. subst st1.
  rewrite Update_eq. cbv zeta. simpl users.
  assert (Z0 : filter (fence u2)
                 (map (fun r => if fence u1 r
                                then gorm.assign (NowFunc db) (fromDomainUser u1) r else r)
                    (users st)) = []).
  { apply filter_none. intros x I. apply in_map_iff in I.
    destruct I as [y [E I]].
    destruct (fence u2 x) eqn:F2; [exfalso | reflexivity].
    unfold fence in F2. apply andb_true_iff in F2. destruct F2 as [Fi Fv].
    apply N.eqb_eq in Fi. apply Z.eqb_eq in Fv. rewrite Id in Fi.
    rewrite Ve in Fv.
    destruct (fence u1 y) eqn:F1.
    - subst x. simpl in Fv.
      change (User.version u1) with (User.Version u1) in Fv.
      apply Z.eqb_neq in Nz. rewrite Nz in Fv.
      symmetry in Fv. exact (int64_sub_1_neq Fv).
    - subst x. unfold fence in F1. rewrite Fi, Fv, N.eqb_refl, Z.eqb_refl in F1.
      discriminate. }
  unfold gorm.count. rewrite Z0. reflexivity.
Qed.

(** An instance: a profile update and a ban both prepared from the row of
    user A at version 1; the profile update is written first. *)
Lemma Update_rejects_the_stale_writer_witness :
  let u1 := profile_written (deployment.at_ 20000 50)
              (mkUpdateProfileRequest "Ann B" "" "") deployment.rowA in
  let u2 := ban_written (deployment.at_ 30000 60) deployment.rowA in
  let st1 := snd (GormUserRepository.Update deployment.db u1
                    deployment.storeA) in
  User.Version u1 = 2
  /\ map UserModel.Version (users st1) = [2]
  /\ GormUserRepository.Update deployment.db u2 st1 = (Fail conflict, st1)
  /\ kind conflict = Conflict.
Proof.
  intros u1 u2 st1. split; [reflexivity |]. split; [reflexivity |].
  apply (@Update_rejects_the_stale_writer deployment.db u1 u2
           deployment.storeA st1); try reflexivity.
  vm_compute. discriminate.
Defined.

(* ------------------------------------------------------------------ *)
(** ** Reading back a profile *)

Lemma if_same (A : Type) (b : bool) (x : A) : (if b then x else x) = x.
Proof. destruct b; reflexivity. Qed.

Lemma keep_or_set (new old : string) :
  (if String.eqb (if negb (String.eqb new "") then new else old) ""
   then old else (if negb (String.eqb new "") then new else old))
  = (if negb (String.eqb new "") then new else old).
Proof.
  destruct (String.eqb new "") eqn:E; simpl.
  - apply if_same.
  - rewrite E. reflexivity.
Qed.

(** the row an UPDATE leaves for the aggregate UpdateProfile writes shows
    what the aggregate shows *)
Lemma view_assign_profile (db : DB) (env : Env)
    (req : UpdateProfileRequest) (r : UserModel.t) :
  view (gorm.assign (NowFunc db)
          (fromDomainUser (profile_written env req r)) r)
  = toUserDTO (profile_written env req r).
Proof.
  destruct r as [i e p h f ro v a ver c d].
  destruct req as [fn ph av].
  unfold view, toUserDTO, profile_written, User.IncrementVersion,
    User.UpdateProfile. cbn [Update_FullName Update_Phone Update_AvatarURL].
  destruct (String.eqb fn "") eqn:Ef, (String.eqb ph "") eqn:Ep,
    (String.eqb av "") eqn:Ea; cbn;
    rewrite ?Ef, ?Ep, ?Ea, ?if_same; reflexivity.
Qed.

Lemma find_replace_row (userID : UUID) (r' : UserModel.t)
    (rows : list UserModel.t) (r : UserModel.t) :
  UserModel.ID r' = userID ->
  find (fun m => N.eqb (UserModel.ID m) userID) rows = Some r ->
  find (fun m => N.eqb (UserModel.ID m) userID) (replace_row userID r' rows)
  = Some r'.
Proof.
  intros E. induction rows as [| a rows IH]; simpl; [discriminate |].
  destruct (N.eqb (UserModel.ID a) userID) eqn:Ia.
  - intros _. simpl. rewrite E, N.eqb_refl. reflexivity.
  - intros F. simpl. rewrite Ia. auto.
Qed.

(** X18: a profile reads back as it was written.  On a store whose user
    keys are in order, when UpdateProfile succeeds, GetProfile for the same
    user on the store it leaves returns the very view UpdateProfile
    returned. *)
Theorem GetProfile_after_UpdateProfile :
  forall (db : DB) (signer : JWTManager) (env : Env) (userID : UUID)
         (req : UpdateProfileRequest) (st st' : Store) (dto : UserDTO.t),
    users_keys_ok st = true ->
    UpdateProfile (gormService db signer) env userID req st = (Ok dto, st') ->
    GetProfile (gormService db signer) userID st' = (Ok dto, st').
Proof.
  intros db signer env userID req st st' dto Keys Up.
  destruct (@users_keys_ok_NoDup st Keys) as [DI _].
  destruct (find (fun m => N.eqb (UserModel.ID m) userID) (users st))
    as [r |] eqn:F.
  2:{ unfold UpdateProfile, bind_or, gormService in Up.
      cbn [userRepo NewGormUserRepository UserRepository_FindByID] in Up.
      unfold GormUserRepository.FindByID, gorm.First in Up.
      rewrite F in Up. discriminate. }
  pose proof (find_some _ _ F) as [I Ir]. apply N.eqb_eq in Ir. subst userID.
  unfold gormService in Up. rewrite (@UpdateProfile_eq db signer env req st r Keys I) in Up.
  set (u := profile_written env req r) in *.
  destruct (GormUserRepository.Update db u st) as [[[] | e] st1] eqn:W;
    [| discriminate].
  inversion Up; subst dto st1. clear Up.
  assert (Idu : UserModel.ID r = User.ID u).
  { unfold u, profile_written, User.UpdateProfile.
    destruct (negb (String.eqb (Update_FullName req) "")),
      (negb (String.eqb (Update_Phone req) "")),
      (negb (String.eqb (Update_AvatarURL req) "")); reflexivity. }
  assert (Fr : fence u r = true).
  { pose proof (@Update_conflict_iff_zero_rows db u st) as C. rewrite W in C.
    destruct (fence u r) eqn:Fr; [reflexivity | exfalso].
    assert (Z0 : gorm.count (fence u) (users st) = 0).
    { unfold gorm.count. rewrite filter_none; [reflexivity |].
      intros x Ix. destruct (fence u x) eqn:Fx; [| reflexivity].
      rewrite (@fence_picks_row u st r DI I Idu x Ix Fx) in Fx. congruence. }
    apply C in Z0. discriminate. }
  apply Update_ok_inv in W. subst st'.
  rewrite (@fenced_rows db u st r DI I Idu).
  2:{ rewrite (@fence_on_row u r Idu) in Fr. apply Z.eqb_eq in Fr. exact Fr. }
  unfold GetProfile, bind_or, ret, gormService.
  cbn [userRepo NewGormUserRepository UserRepository_FindByID].
  unfold GormUserRepository.FindByID, gorm.First. cbn [users].
  rewrite <- Idu.
  rewrite (@find_replace_row (UserModel.ID r)
             (gorm.assign (NowFunc db) (fromDomainUser u) r) (users st) r
             (@assign_keeps_ID db u r Idu) F).
  fold (view (gorm.assign (NowFunc db) (fromDomainUser u) r)).
  unfold u. rewrite view_assign_profile. reflexivity.
Qed.

(** An instance: user A changes the name and the avatar, then reads the
    profile. *)
Lemma GetProfile_after_UpdateProfile_witness :
  let req := mkUpdateProfileRequest "Ann B" "" "https://img.x.com/a.png" in
  let out := deployment.UpdateProfile (deployment.at_ 20000 50) 1 req
               deployment.storeA in
  let dto := UserDTO.mk 1 "a@x.com" "" "Ann B" "owner" false
               "https://img.x.com/a.png" 1000 in
  fst out = Ok dto
  /\ deployment.GetProfile 1 (snd out) = (Ok dto, snd out).
Proof.
  intros req out dto. split; [reflexivity |].
  apply (@GetProfile_after_UpdateProfile deployment.db deployment.signer
           (deployment.at_ 20000 50) 1%N req deployment.storeA (snd out) dto);
    reflexivity.
Defined.

(* ------------------------------------------------------------------ *)
(** ** The email at login *)

(** X19: Login looks the email up as it is typed.  Register stores the
    address trimmed and in lower case, but Login does neither: after a
    successful registration under a text that is not already in that form,
    a login under the same text finds no user and is refused with the error
    for bad credentials, whatever the password, and writes nothing. *)
Theorem Login_wants_the_stored_spelling :
  forall (db : DB) (signer : JWTManager) (bcrypt : Bcrypt) (env : Env)
         (req : RegisterRequest) (st st' : Store) (resp : AuthResponse),
    Register bcrypt (gormService db signer) env req st = (Ok resp, st') ->
    Register_Email req
      <> strings.ToLower (strings.TrimSpace (Register_Email req)) ->
    UserDTO.Email (User_ resp)
      = strings.ToLower (strings.TrimSpace (Register_Email req))
    /\ forall (env' : Env) (password : string),
         Login bcrypt (gormService db signer) env'
           (mkLoginRequest (Register_Email req) password) st'
         = (Fail invalidCredentials, st').
Proof.
  intros db signer bcrypt env req st st' resp H Raw.
  destruct (@Register_ok_inv db signer bcrypt env req st st' resp H)
    as (hash & u & G & N & F & Ei & Ee & St & Re).
  destruct (NewUser_ok_inv _ _ _ _ _ _ _ N) as [Id [Em _]].
  split; [rewrite Re; exact Em |].
  intros env' password.
  unfold Login, bind_or, gormService.
  cbn [userRepo NewGormUserRepository UserRepository_FindByEmail Login_Email].
  unfold GormUserRepository.FindByEmail, gorm.First.
  replace (find (fun m => String.eqb (UserModel.Email m) (Register_Email req))
             (users st')) with (@None UserModel.t); [reflexivity |].
  symmetry. apply find_none_existsb. subst st'. cbn [users].
  rewrite existsb_app. apply find_none_existsb in F. rewrite F. simpl.
  change (email_value (User.email u)) with (User.Email u).
  rewrite orb_false_r. apply String.eqb_neq. rewrite Em.
  intros E. apply Raw. symmetry. exact E.
Qed.

(** An instance: a user registers as "B@X.com" and then logs in under the
    same text. *)
Lemma Login_wants_the_stored_spelling_witness :
  let req := mkRegisterRequest "B@X.com" "" "Bob" "longpass2" "runner" in
  let out := deployment.Register (deployment.at_ 50000 7) req
               deployment.storeA in
  map UserModel.Email (users (snd out)) = ["a@x.com"; "b@x.com"]
  /\ deployment.Login (deployment.at_ 60000 9)
       (mkLoginRequest "B@X.com" "longpass2") (snd out)
     = (Fail invalidCredentials, snd out).
Proof.
  intros req out. split; [reflexivity |].
  destruct (@Login_wants_the_stored_spelling deployment.db deployment.signer
              deployment.hasher (deployment.at_ 50000 7) req
              deployment.storeA (snd out)
              (mkAuthResponse "access.7.51000" "refresh.7.52000"
                 (UserDTO.mk 7 "b@x.com" "" "Bob" "runner" false "" 50000)))
    as [_ L].
  - vm_compute. reflexivity.
  - vm_compute. discriminate.
  - apply (L (deployment.at_ 60000 9) "longpass2").
Defined.

(* ------------------------------------------------------------------ *)
(** ** RefreshToken, what it writes *)

(** X20: RefreshToken writes nothing but one session.  A refresh that fails
    leaves the store as it was.  A refresh that succeeds was given a token
    the signer accepts and the store holds, in a row that is neither revoked
    nor past its expiry; it leaves that row as it is and appends one
    session for the user the claims of the token name, whose row is the one
    the response shows. *)
Theorem RefreshToken_appends_one_session :
  forall (db : DB) (signer : JWTManager) (env : Env) (token : string)
         (st : Store),
    let res := RefreshToken (gormService db signer) env token st in
    (forall e, fst res = Fail e -> snd res = st)
    /\ (forall resp, fst res = Ok resp ->
          exists claims record r,
            ValidateToken signer (Now env 0) token = Ok claims
            /\ find (fun m => String.eqb (RefreshTokenModel.Token m) token)
                 (refresh_tokens st) = Some record
            /\ RefreshTokenModel.Revoked record = false
            /\ time.After (Now env 1) (RefreshTokenModel.ExpiresAt record)
               = false
            /\ find (fun m => N.eqb (UserModel.ID m) (UserID claims))
                 (users st) = Some r
            /\ User_ resp = view r
            /\ snd res
               = mkStore (users st)
                   (refresh_tokens st
                    ++ [session (NewUUID env 0) (UserID claims)
                          (RefreshToken_ resp) (Now env 4) (Now env 5)])%list).
Proof.
  intros db signer env token st res. subst res.
  unfold application.RefreshToken, bind_or, pure, fail, ret, gormService.
  cbn [userRepo tokenRepo jwt NewGormUserRepository NewGormTokenRepository
       UserRepository_FindByID TokenRepository_FindByToken
       TokenRepository_Save].
  destruct (ValidateToken signer (Now env 0) token) as [claims | e0] eqn:V;
    [| split; [reflexivity | discriminate]].
  unfold GormTokenRepository.FindByToken, gorm.First.
  destruct (find _ (refresh_tokens st)) as [record |] eqn:F;
    [| split; [reflexivity | discriminate]].
  unfold RefreshToken.IsValid, RefreshToken.IsExpired.
  change (RefreshToken.revoked (RefreshTokenModel.toDomain record))
    with (RefreshTokenModel.Revoked record).
  change (RefreshToken.expiresAt (RefreshTokenModel.toDomain record))
    with (RefreshTokenModel.ExpiresAt record).
  destruct (RefreshTokenModel.Revoked record) eqn:Rv;
    [split; [reflexivity | discriminate] |].
  destruct (time.After (Now env 1) (RefreshTokenModel.ExpiresAt record))
    eqn:Ex; [split; [reflexivity | discriminate] |].
  cbn [negb andb].
  unfold GormUserRepository.FindByID, gorm.First.
  destruct (find _ (users st)) as [r |] eqn:Fu;
    [| split; [reflexivity | discriminate]].
  pose proof (find_some _ _ Fu) as [_ Ir]. apply N.eqb_eq in Ir.
  change (User.ID (UserModel.toDomain r)) with (UserModel.ID r).
  rewrite Ir.
  destruct (GenerateAccessToken signer _ _ _ _) as [a | e1];
    [| split; [reflexivity | discriminate]].
  destruct (GenerateRefreshToken signer _ _) as [t1 | e2];
    [| split; [reflexivity | discriminate]].
  destruct (GormTokenRepository.Save db _ st) as [out st'] eqn:S.
  apply Save_token_inv in S.
  destruct S as [[e [-> [-> _]]] | [-> ->]]; simpl.
  - split; [reflexivity | discriminate].
  - split; [discriminate |]. intros resp E. inversion E; subst resp. simpl.
    exists claims, record, r. repeat split; assumption.
Qed.

(* ------------------------------------------------------------------ *)
(** ** Referral codes *)

Lemma hexdigit_hex_lower (c : ascii) :
  hex_lower (hexdigit (N.shiftr (N_of_ascii c) 4)) = true
  /\ hex_lower (hexdigit (N.land (N_of_ascii c) 15)) = true.
Proof.
  split.
  - apply (byte_cases
             (fun c => hex_lower (hexdigit (N.shiftr (N_of_ascii c) 4)))).
    vm_compute. reflexivity.
  - apply (byte_cases
             (fun c => hex_lower (hexdigit (N.land (N_of_ascii c) 15)))).
    vm_compute. reflexivity.
Qed.

Lemma hexdigits_inj (v w : ascii) :
  hexdigit (N.shiftr (N_of_ascii v) 4) = hexdigit (N.shiftr (N_of_ascii w) 4) ->
  hexdigit (N.land (N_of_ascii v) 15) = hexdigit (N.land (N_of_ascii w) 15) ->
  v = w.
Proof.
  intros H L.
  assert (All : forallb
                  (fun v => forallb
                     (fun w =>
                        negb (Ascii.eqb (hexdigit (N.shiftr (N_of_ascii v) 4))
                                (hexdigit (N.shiftr (N_of_ascii w) 4))
                              && Ascii.eqb (hexdigit (N.land (N_of_ascii v) 15))
                                   (hexdigit (N.land (N_of_ascii w) 15)))
                        || Ascii.eqb v w) all_bytes) all_bytes = true)
    by (vm_compute; reflexivity).
  pose proof (byte_cases _ All v) as Hv. cbv beta in Hv.
  pose proof (byte_cases _ Hv w) as Hw. cbv beta in Hw.
  rewrite H, L, !Ascii.eqb_refl in Hw. simpl in Hw.
  apply Ascii.eqb_eq. exact Hw.
Qed.

Lemma EncodeToString_inj (b b' : list ascii) :
  EncodeToString b = EncodeToString b' -> b = b'.
Proof.
  revert b'. induction b as [| v b IH]; intros [| w b']; simpl;
    try discriminate; [reflexivity |].
  intros E. inversion E as [[H L T]].
  rewrite (hexdigits_inj v w H L), (IH b' T). reflexivity.
Qed.

Lemma EncodeToString_length (b : list ascii) :
  String.length (EncodeToString b) = (2 * List.length b)%nat.
Proof. induction b as [| v b IH]; simpl; [reflexivity | rewrite IH; lia]. Qed.

Lemma EncodeToString_hex (b : list ascii) :
  forallb hex_lower (list_ascii_of_string (EncodeToString b)) = true.
Proof.
  induction b as [| v b IH]; [reflexivity |].
  cbn [EncodeToString list_ascii_of_string forallb].
  destruct (hexdigit_hex_lower v) as [-> ->]. exact IH.
Qed.

(** X21: the shape of a referral code.  From four random bytes
    GenerateReferralCode makes the text REF- followed by eight digits of
    lower-case hexadecimal, twelve characters in all, and different bytes
    give different codes; when the random source fails, its error is
    returned as it is. *)
Theorem GenerateReferralCode_shape :
  forall b : list ascii,
    List.length b = 4%nat ->
    (exists digits,
        GenerateReferralCode (Ok b) = Ok ("REF-" ++ digits)
        /\ String.length digits = 8%nat
        /\ forallb hex_lower (list_ascii_of_string digits) = true
        /\ String.length ("REF-" ++ digits) = 12%nat)
    /\ (forall b', GenerateReferralCode (Ok b') = GenerateReferralCode (Ok b) ->
                   b' = b)
    /\ (forall err, GenerateReferralCode (Fail err) = Fail err).
Proof.
  intros b L. split; [| split].
  - exists (EncodeToString b). split; [reflexivity |].
    split; [rewrite EncodeToString_length, L; reflexivity |].
    split; [apply EncodeToString_hex |].
    simpl. rewrite EncodeToString_length, L. reflexivity.
  - intros b' E. simpl in E. inversion E as [E'].
    apply EncodeToString_inj. exact E'.
  - reflexivity.
Qed.

(** An instance: the bytes de ad be ef. *)
Lemma GenerateReferralCode_shape_witness :
  GenerateReferralCode (Ok referral_deployment.bytes) = Ok "REF-deadbeef"
  /\ (exists digits,
        GenerateReferralCode (Ok referral_deployment.bytes)
        = Ok ("REF-" ++ digits)
        /\ String.length digits = 8%nat
        /\ forallb hex_lower (list_ascii_of_string digits) = true
        /\ String.length ("REF-" ++ digits) = 12%nat)
  /\ (forall b', GenerateReferralCode (Ok b')
                 = GenerateReferralCode (Ok referral_deployment.bytes) ->
                 b' = referral_deployment.bytes)
  /\ (forall err, GenerateReferralCode (Fail err) = Fail err).
Proof.
  split; [reflexivity |].
  apply (GenerateReferralCode_shape referral_deployment.bytes). reflexivity.
Defined.

(* ------------------------------------------------------------------ *)
(** ** ProcessReferral *)

(** X22: ProcessReferral never returns an error, whatever the repository
    behind it does: an unknown code and a referral that cannot be saved are
    both swallowed.  With the empty code it does not touch the store at all;
    when the owner of the code is not found, the store is what that lookup
    left. *)
Theorem ProcessReferral_never_fails :
  forall (W : Type) (s : ReferralService W) (env : Env) (refereeID : UUID)
         (code : string) (w : W),
    fst (ProcessReferral s env refereeID code w) = Ok tt
    /\ (code = "" -> snd (ProcessReferral s env refereeID code w) = w)
    /\ (forall e w1,
          code <> "" ->
          ReferralRepository_FindUserIDByReferralCode (repo s) code w
            = (Fail e, w1) ->
          snd (ProcessReferral s env refereeID code w) = w1).
Proof.
  intros W s env refereeID code w. unfold ProcessReferral, findCodeOwner.
  destruct (String.eqb_spec code "") as [E | N].
  - repeat split; congruence.
  - unfold attempt, ret.
    destruct (ReferralRepository_FindUserIDByReferralCode (repo s) code w)
      as [[owner | e] w1] eqn:F.
    + destruct (ReferralRepository_Save (repo s) _ w1) as [out w2].
      repeat split; [congruence | discriminate].
    + repeat split; [congruence |]. intros e' w1' _ H. inversion H.
      reflexivity.
Qed.

Lemma Save_referral_eq (db : ReferralDB) (ref : Referral.t)
    (st : ReferralStore) :
  GormReferralRepository.Save db ref st
  = if negb (referrals_columns db (toReferralModel ref))
    then (Fail (CheckViolation "referrals"), st)
    else if existsb (fun r => N.eqb (ReferralModel.ID r) (Referral.ID ref))
              (referrals st)
    then (Fail (UniqueViolation "referrals" "id"), st)
    else if existsb (fun r => N.eqb (ReferralModel.RefereeID r)
                                (Referral.RefereeID ref)) (referrals st)
    then (Fail (UniqueViolation "referrals" "referee_id"), st)
    else (Ok tt, mkReferralStore (referrals st ++ [toReferralModel ref])%list
                   (user_referral_codes st)).
Proof.
  unfold GormReferralRepository.Save, tables.Create_referrals.
  change (ReferralModel.ID (toReferralModel ref)) with (Referral.ID ref).
  change (ReferralModel.RefereeID (toReferralModel ref))
    with (Referral.RefereeID ref).
  repeat match goal with
         | |- context [if ?x then _ else _] => destruct x
         end; reflexivity.
Qed.

(** X23: what ProcessReferral records.  Over the GORM repository it never
    touches the code table, and it either leaves the referrals as they are
    or appends one referral: from the owner of the code to the referee,
    under that code, with a reward of 500 cents and neither side credited.
    It appends whenever the code is not empty and has an owner, the row fits
    its columns, its id is fresh and the referee has no referral yet; a
    referee who has one already is left with it, and the store unchanged.
    Nothing compares the owner with the referee. *)
Theorem ProcessReferral_records_once :
  forall (db : ReferralDB) (env : Env) (refereeID : UUID) (code : string)
         (st : ReferralStore),
    let res := ProcessReferral (gormReferralService db) env refereeID code st in
    user_referral_codes (snd res) = user_referral_codes st
    /\ (referrals (snd res) = referrals st
        \/ exists owner,
             code <> ""
             /\ find (fun m => String.eqb (UserReferralCodeModel.Code m) code)
                  (user_referral_codes st) = Some owner
             /\ referrals (snd res)
                = (referrals st
                   ++ [recorded env (UserReferralCodeModel.UserID owner)
                         refereeID code])%list)
    /\ (forall owner,
          code <> "" ->
          find (fun m => String.eqb (UserReferralCodeModel.Code m) code)
            (user_referral_codes st) = Some owner ->
          referrals_columns db
            (recorded env (UserReferralCodeModel.UserID owner) refereeID code)
          = true ->
          (forall r, In r (referrals st) ->
                     ReferralModel.ID r <> NewUUID env 0
                     /\ ReferralModel.RefereeID r <> refereeID) ->
          referrals (snd res)
          = (referrals st
             ++ [recorded env (UserReferralCodeModel.UserID owner)
                   refereeID code])%list)
    /\ (forall r, In r (referrals st) ->
                  ReferralModel.RefereeID r = refereeID -> snd res = st).
Proof.
  intros db env refereeID code st res. subst res.
  unfold ProcessReferral, findCodeOwner, attempt, ret, gormReferralService.
  cbn [repo NewGormReferralRepository ReferralRepository_Save
       ReferralRepository_FindUserIDByReferralCode].
  destruct (String.eqb_spec code "") as [E | N].
  { simpl. repeat split; auto; intros; congruence. }
  unfold GormReferralRepository.FindUserIDByReferralCode, tables.First_code.
  destruct (find _ (user_referral_codes st)) as [owner |] eqn:F.
  2:{ simpl. repeat split; auto; intros; congruence. }
  rewrite Save_referral_eq.
  change (toReferralModel (NewReferral (UserReferralCodeModel.UserID owner)
                             refereeID code defaultRewardCents (NewUUID env 0)
                             (Now env 0)))
    with (recorded env (UserReferralCodeModel.UserID owner) refereeID code).
  change (Referral.ID (NewReferral _ _ _ _ (NewUUID env 0) _))
    with (NewUUID env 0).
  change (Referral.RefereeID (NewReferral _ refereeID _ _ _ _))
    with refereeID.
  destruct (referrals_columns db _) eqn:C; cbn [negb].
  2:{ simpl. repeat split; auto.
      intros o _ Fo Co. inversion Fo; subst o. congruence. }
  destruct (existsb (fun r => N.eqb (ReferralModel.ID r) (NewUUID env 0))
              (referrals st)) eqn:Ei.
  { simpl. repeat split; auto.
    intros o _ Fo _ Fresh. exfalso. apply existsb_exists in Ei.
    destruct Ei as [r [I Er]]. apply N.eqb_eq in Er.
    destruct (Fresh r I) as [Ni _]. contradiction. }
  destruct (existsb (fun r => N.eqb (ReferralModel.RefereeID r) refereeID)
              (referrals st)) eqn:Er.
  { simpl. repeat split; auto.
    intros o _ Fo _ Fresh. exfalso. apply existsb_exists in Er.
    destruct Er as [r [I Err]]. apply N.eqb_eq in Err.
    destruct (Fresh r I) as [_ Nr]. contradiction. }
  simpl. split; [reflexivity |]. split.
  { right. exists owner. repeat split; assumption. }
  split.
  { intros o _ Fo _ _. inversion Fo; subst o. reflexivity. }
  intros r I Err. exfalso. rewrite existsb_false_all in Er.
  specialize (Er r I). simpl in Er. apply N.eqb_neq in Er. contradiction.
Qed.

(** Runs: user 1 presents the code of user 1, which is recorded; user 2,
    already referred, presents it again, which changes nothing. *)
Example ProcessReferral_runs :
  let self := ProcessReferral referral_deployment.service
                (deployment.at_ 20000 50) 1 "REF-0a1b2c3d"
                referral_deployment.store1 in
  let again := ProcessReferral referral_deployment.service
                 (deployment.at_ 30000 60) 2 "REF-0a1b2c3d"
                 referral_deployment.store1 in
  fst self = Ok tt
  /\ referrals (snd self)
     = (referrals referral_deployment.store1
        ++ [ReferralModel.mk 50 1 1 "REF-0a1b2c3d" 500 false false 20000])%list
  /\ again = (Ok tt, referral_deployment.store1).
Proof. vm_compute. repeat split. Qed.

(* ------------------------------------------------------------------ *)
(** ** GetOrCreateReferralCode *)

Lemma SaveUserReferralCode_eq (db : ReferralDB) (id userID : UUID)
    (code : string) (st : ReferralStore) :
  GormReferralRepository.SaveUserReferralCode db id userID code st
  = if negb (user_referral_codes_columns db
               (UserReferralCodeModel.mk id userID code))
    then (Fail (CheckViolation "user_referral_codes"), st)
    else if existsb (fun r => N.eqb (UserReferralCodeModel.ID r) id)
              (user_referral_codes st)
    then (Fail (UniqueViolation "user_referral_codes" "id"), st)
    else if existsb (fun r => N.eqb (UserReferralCodeModel.UserID r) userID)
              (user_referral_codes st)
    then (Fail (UniqueViolation "user_referral_codes" "user_id"), st)
    else if existsb (fun r => String.eqb (UserReferralCodeModel.Code r) code)
              (user_referral_codes st)
    then (Fail (UniqueViolation "user_referral_codes" "code"), st)
    else (Ok tt,
          mkReferralStore (referrals st)
            (user_referral_codes st
             ++ [UserReferralCodeModel.mk id userID code])%list).
Proof.
  unfold GormReferralRepository.SaveUserReferralCode,
    tables.Create_user_referral_codes. cbn [UserReferralCodeModel.ID
    UserReferralCodeModel.UserID UserReferralCodeModel.Code].
  repeat match goal with
         | |- context [if ?x then _ else _] => destruct x
         end; reflexivity.
Qed.

Lemma GetOrCreateReferralCode_found (db : ReferralDB) (env : Env)
    (read : result (list ascii)) (userID : UUID) (st : ReferralStore)
    (row : UserReferralCodeModel.t) :
  find (fun m => N.eqb (UserReferralCodeModel.UserID m) userID)
    (user_referral_codes st) = Some row ->
  UserReferralCodeModel.Code row <> "" ->
  GetOrCreateReferralCode (gormReferralService db) env read userID st
  = (Ok (UserReferralCodeModel.Code row), st).
Proof.
  intros F N. unfold GetOrCreateReferralCode, attempt, gormReferralService.
  cbn [repo NewGormReferralRepository ReferralRepository_GetUserReferralCode].
  unfold GormReferralRepository.GetUserReferralCode, tables.First_code. rewrite F.
  apply String.eqb_neq in N. rewrite N. reflexivity.
Qed.

(** X24: a referral code, once given, stays.  When GetOrCreateReferralCode
    succeeds, the code is not empty and the referrals are untouched; the
    store is as it was if the user had a code, and has gained one row for
    the user otherwise; and every later call for the user returns the same
    code and writes nothing, whatever the random source then says. *)
Theorem GetOrCreateReferralCode_is_stable :
  forall (db : ReferralDB) (env : Env) (read : result (list ascii))
         (userID : UUID) (st st' : ReferralStore) (code : string),
    GetOrCreateReferralCode (gormReferralService db) env read userID st
      = (Ok code, st') ->
    code <> ""
    /\ referrals st' = referrals st
    /\ (st' = st
        \/ user_referral_codes st'
           = (user_referral_codes st
              ++ [UserReferralCodeModel.mk (NewUUID env 0) userID code])%list)
    /\ forall (env' : Env) (read' : result (list ascii)),
         GetOrCreateReferralCode (gormReferralService db) env' read' userID st'
         = (Ok code, st').
Proof.
  intros db env read userID st st' code.
  destruct (find (fun m => N.eqb (UserReferralCodeModel.UserID m) userID)
              (user_referral_codes st)) as [row |] eqn:F.
  - destruct (String.eqb_spec (UserReferralCodeModel.Code row) "") as [E | N].
    + (* a row with the empty code: a new code cannot be saved *)
      unfold GetOrCreateReferralCode, attempt, bind_or, pure, ret,
        gormReferralService.
      cbn [repo NewGormReferralRepository
           ReferralRepository_GetUserReferralCode
           ReferralRepository_SaveUserReferralCode].
      unfold GormReferralRepository.GetUserReferralCode, tables.First_code.
      rewrite F, E. cbn [String.eqb negb].
      destruct (GenerateReferralCode read) as [c |]; [| discriminate].
      rewrite SaveUserReferralCode_eq.
      assert (Eu : existsb
                     (fun r => N.eqb (UserReferralCodeModel.UserID r) userID)
                     (user_referral_codes st) = true).
      { destruct (existsb _ (user_referral_codes st)) eqn:X; [reflexivity |].
        apply find_none_existsb in X. congruence. }
      rewrite Eu.
      repeat match goal with
             | |- context [if ?x then _ else _] => destruct x
             end; discriminate.
    + rewrite (GetOrCreateReferralCode_found db env read userID st F N).
      intros H. inversion H; subst code st'.
      split; [exact N |]. split; [reflexivity |]. split; [left; reflexivity |].
      intros env' read'.
      apply (GetOrCreateReferralCode_found db env' read' userID st F N).
  - unfold GetOrCreateReferralCode at 1.
    unfold attempt, bind_or, pure, ret, gormReferralService.
    cbn [repo NewGormReferralRepository
         ReferralRepository_GetUserReferralCode
         ReferralRepository_SaveUserReferralCode].
    unfold GormReferralRepository.GetUserReferralCode, tables.First_code.
    rewrite F.
    destruct read as [b | e]; [| discriminate]. cbn [GenerateReferralCode].
    rewrite SaveUserReferralCode_eq.
    destruct (negb (user_referral_codes_columns db _)); [discriminate |].
    destruct (existsb (fun r => N.eqb (UserReferralCodeModel.ID r)
                                  (NewUUID env 0)) (user_referral_codes st));
      [discriminate |].
    destruct (existsb (fun r => N.eqb (UserReferralCodeModel.UserID r) userID)
                (user_referral_codes st)) eqn:Eu; [discriminate |].
    destruct (existsb (fun r => String.eqb (UserReferralCodeModel.Code r)
                                  ("REF-" ++ EncodeToString b))
                (user_referral_codes st)); [discriminate |].
    intros H. inversion H; subst code st'. clear H.
    split; [discriminate |]. split; [reflexivity |].
    split; [right; reflexivity |].
    intros env' read'.
    apply (@GetOrCreateReferralCode_found db env' read' userID _
             (UserReferralCodeModel.mk (NewUUID env 0) userID
                ("REF-" ++ EncodeToString b))).
    + cbn [user_referral_codes]. apply find_app_new; [exact Eu |].
      simpl. apply N.eqb_refl.
    + discriminate.
Qed.

(** An instance: user 4, who has no code yet, asks for one. *)
Lemma GetOrCreateReferralCode_is_stable_witness :
  let st' := mkReferralStore (referrals referral_deployment.store1)
               [UserReferralCodeModel.mk 10 1 "REF-0a1b2c3d";
                UserReferralCodeModel.mk 50 4 "REF-deadbeef"] in
  GetOrCreateReferralCode referral_deployment.service
    (deployment.at_ 20000 50) (Ok referral_deployment.bytes) 4
    referral_deployment.store1 = (Ok "REF-deadbeef", st')
  /\ "REF-deadbeef" <> ""
  /\ referrals st' = referrals referral_deployment.store1
  /\ (st' = referral_deployment.store1
      \/ user_referral_codes st'
         = (user_referral_codes referral_deployment.store1
            ++ [UserReferralCodeModel.mk 50 4 "REF-deadbeef"])%list)
  /\ forall (env' : Env) (read' : result (list ascii)),
       GetOrCreateReferralCode referral_deployment.service env' read' 4 st'
       = (Ok "REF-deadbeef", st').
Proof.
  intros st'. split; [reflexivity |].
  apply (@GetOrCreateReferralCode_is_stable referral_deployment.db
           (deployment.at_ 20000 50) (Ok referral_deployment.bytes) 4%N
           referral_deployment.store1 st' "REF-deadbeef").
  reflexivity.
Defined.

(* ------------------------------------------------------------------ *)
(** ** GetMyReferrals *)

Section Ordering.

Variables (A : Type) (key : A -> Z).










End Ordering.



(** A run: user 1 reads the referrals made. *)
Example GetMyReferrals_runs :
  GetMyReferrals referral_deployment.service (deployment.at_ 20000 50)
    (Ok referral_deployment.bytes) 1 referral_deployment.store1
  = (Ok (mkReferralStatsDTO "REF-0a1b2c3d" 2
           [mkReferralDTO 12 3 500 false false 9000;
            mkReferralDTO 11 2 500 false false 7000]),
     referral_deployment.store1).
Proof. reflexivity. Qed.

(* ------------------------------------------------------------------ *)
(** ** The keys of the referral tables *)

Lemma Save_referral_keeps_keys (db : ReferralDB) (ref : Referral.t) :
  keeps_referral_keys (GormReferralRepository.Save db ref).
Proof.
  intros st K. rewrite Save_referral_eq.
  destruct (negb (referrals_columns db (toReferralModel ref)));
    [exact K |].
  destruct (existsb (fun r => N.eqb (ReferralModel.ID r) (Referral.ID ref))
              (referrals st)) eqn:Ei; [exact K |].
  destruct (existsb (fun r => N.eqb (ReferralModel.RefereeID r)
                                (Referral.RefereeID ref)) (referrals st))
    eqn:Er; [exact K |].
  unfold referral_keys_ok in *. cbn [snd referrals user_referral_codes].
  rewrite !andb_true_iff in K. destruct K as [[[[K1 K2] K3] K4] K5].
  rewrite !map_app. cbn [map].
  rewrite (distinct_snoc N.eqb _ _ K1)
    by (rewrite existsb_map; exact Ei).
  rewrite (distinct_snoc N.eqb _ _ K2)
    by (rewrite existsb_map; exact Er).
  rewrite K3, K4, K5. reflexivity.
Qed.

Lemma SaveUserReferralCode_keeps_keys (db : ReferralDB) (id userID : UUID)
    (code : string) :
  keeps_referral_keys
    (GormReferralRepository.SaveUserReferralCode db id userID code).
Proof.
  intros st K. rewrite SaveUserReferralCode_eq.
  destruct (negb (user_referral_codes_columns db _)); [exact K |].
  destruct (existsb (fun r => N.eqb (UserReferralCodeModel.ID r) id)
              (user_referral_codes st)) eqn:Ei; [exact K |].
  destruct (existsb (fun r => N.eqb (UserReferralCodeModel.UserID r) userID)
              (user_referral_codes st)) eqn:Eu; [exact K |].
  destruct (existsb (fun r => String.eqb (UserReferralCodeModel.Code r) code)
              (user_referral_codes st)) eqn:Ec; [exact K |].
  unfold referral_keys_ok in *. cbn [snd referrals user_referral_codes].
  rewrite !andb_true_iff in K. destruct K as [[[[K1 K2] K3] K4] K5].
  rewrite !map_app. cbn [map UserReferralCodeModel.ID
    UserReferralCodeModel.UserID UserReferralCodeModel.Code].
  rewrite (distinct_snoc N.eqb _ _ K3)
    by (rewrite existsb_map; exact Ei).
  rewrite (distinct_snoc N.eqb _ _ K4)
    by (rewrite existsb_map; exact Eu).
  rewrite (distinct_snoc String.eqb _ _ K5)
    by (rewrite existsb_map; exact Ec).
  rewrite K1, K2. reflexivity.
Qed.

Lemma Update_referral_keeps_keys (db : ReferralDB) (ref : Referral.t) :
  keeps_referral_keys (GormReferralRepository.Update db ref).
Proof.
  intros st K. unfold GormReferralRepository.Update, tables.Save_referrals.
  fold (GormReferralRepository.Save db ref st).
  destruct (N.eqb (ReferralModel.ID (toReferralModel ref)) 0);
    [apply Save_referral_keeps_keys; exact K |].
  destruct (negb (existsb _ (referrals st)));
    [apply Save_referral_keeps_keys; exact K |].
  destruct (negb (referrals_columns db (toReferralModel ref))); [exact K |].
  destruct (negb (gorm.distinct N.eqb _)) eqn:D; [exact K |].
  apply negb_false_iff in D.
  unfold referral_keys_ok in *. cbn [snd referrals user_referral_codes].
  rewrite !andb_true_iff in K. destruct K as [[[[K1 K2] K3] K4] K5].
  rewrite D.
  assert (E : map ReferralModel.ID
                (map (fun r => if N.eqb (ReferralModel.ID r)
                                    (ReferralModel.ID (toReferralModel ref))
                               then toReferralModel ref else r) (referrals st))
              = map ReferralModel.ID (referrals st)).
  { rewrite map_map. apply map_ext. intros r.
    destruct (N.eqb_spec (ReferralModel.ID r)
                (ReferralModel.ID (toReferralModel ref))); congruence. }
  rewrite E, K1, K3, K4, K5. reflexivity.
Qed.

Lemma keeps_referral_bind_or (A B : Type) (m : M ReferralStore A)
    (h : Error -> Error) (k : A -> M ReferralStore B) :
  keeps_referral_keys m -> (forall a, keeps_referral_keys (k a)) ->
  keeps_referral_keys (bind_or m h k).
Proof.
  intros Km Kk st K. unfold bind_or. specialize (Km st K).
  destruct (m st) as [[a | e] st1]; simpl in *; [apply Kk |]; exact Km.
Qed.

Lemma keeps_referral_attempt (A B : Type) (m : M ReferralStore A)
    (k : result A -> M ReferralStore B) :
  keeps_referral_keys m -> (forall r, keeps_referral_keys (k r)) ->
  keeps_referral_keys (attempt m k).
Proof.
  intros Km Kk st K. unfold attempt. specialize (Km st K).
  destruct (m st) as [r st1]. simpl in *. apply Kk. exact Km.
Qed.

Lemma keeps_referral_read (A : Type) (m : M ReferralStore A) :
  (forall st, snd (m st) = st) -> keeps_referral_keys m.
Proof. intros R st K. rewrite R. exact K. Qed.

Ltac keeps_referral_step :=
  first
    [ apply Save_referral_keeps_keys
    | apply SaveUserReferralCode_keeps_keys
    | apply keeps_referral_read; intros; reflexivity
    | apply keeps_referral_read; intros;
      unfold GormReferralRepository.GetUserReferralCode,
        GormReferralRepository.FindUserIDByReferralCode;
      match goal with |- context [tables.First_code ?c ?l] =>
        destruct (tables.First_code c l) end; reflexivity
    | apply keeps_referral_read; intros;
      unfold GormReferralRepository.FindByReferrerID,
        GormReferralRepository.CountByReferrerID;
      match goal with |- context [referrals_unavailable ?d ?q] =>
        destruct (referrals_unavailable d q) end; reflexivity
    | apply keeps_referral_bind_or; [| intros]
    | apply keeps_referral_attempt; [| intros]
    | match goal with
      | |- keeps_referral_keys (match ?x with _ => _ end) => destruct x
      | |- keeps_referral_keys (if ?x then _ else _) => destruct x
      end ].

(** X26: the referral service and the repository keep the keys of the
    referral tables.  If no two referrals share an id or a referee, and no
    two code rows share an id, a user or a code, then the same holds after
    ProcessReferral, GetOrCreateReferralCode, GetMyReferrals and the
    repository's Update, whatever they return: a user is referred at most
    once and owns at most one code, and a code has at most one owner. *)
Theorem referral_service_keeps_keys :
  forall (db : ReferralDB) (env : Env) (read : result (list ascii)),
    let s := gormReferralService db in
    (forall refereeID code,
        keeps_referral_keys (ProcessReferral s env refereeID code))
    /\ (forall userID,
          keeps_referral_keys (GetOrCreateReferralCode s env read userID))
    /\ (forall userID, keeps_referral_keys (GetMyReferrals s env read userID))
    /\ (forall ref, keeps_referral_keys (GormReferralRepository.Update db ref)).
Proof.
  intros db env read s.
  assert (G : forall userID,
             keeps_referral_keys (GetOrCreateReferralCode s env read userID)).
  { intros userID. unfold GetOrCreateReferralCode, pure, ret, s,
      gormReferralService.
    cbn [repo NewGormReferralRepository
         ReferralRepository_GetUserReferralCode
         ReferralRepository_SaveUserReferralCode].
    repeat keeps_referral_step. }
  split; [| split; [exact G | split]].
  - intros refereeID code.
    unfold ProcessReferral, findCodeOwner, ret, s, gormReferralService.
    cbn [repo NewGormReferralRepository ReferralRepository_Save
         ReferralRepository_FindUserIDByReferralCode].
    repeat keeps_referral_step.
  - intros userID. unfold GetMyReferrals.
    apply keeps_referral_attempt; [apply G |]. intros r.
    unfold ret, s, gormReferralService.
    cbn [repo NewGormReferralRepository ReferralRepository_FindByReferrerID
         ReferralRepository_CountByReferrerID].
    repeat keeps_referral_step.
  - intros ref. apply Update_referral_keeps_keys.
Qed.

(* ------------------------------------------------------------------ *)
(** ** Update of a referral *)

Lemma First_referral_ok (cond : ReferralModel.t -> bool)
    (l : list ReferralModel.t) (r : ReferralModel.t) :
  tables.First_referral cond l = Ok r -> In r l /\ cond r = true.
Proof.
  revert r. induction l as [| a l IH]; simpl; [discriminate |].
  intros r. destruct (cond a) eqn:Ca.
  - destruct (tables.First_referral cond l) as [r' |].
    + destruct (ReferralModel.ID r' <? ReferralModel.ID a)%N;
        intros H; inversion H; subst.
      * destruct (IH r eq_refl) as [I C]. split; [right; exact I | exact C].
      * split; [left; reflexivity | exact Ca].
    + intros H; inversion H; subst. split; [left; reflexivity | exact Ca].
  - intros H. destruct (IH r H) as [I C]. split; [right; exact I | exact C].
Qed.

Lemma First_referral_only (cond : ReferralModel.t -> bool)
    (l : list ReferralModel.t) (r : ReferralModel.t) :
  In r l -> cond r = true ->
  (forall x, In x l -> cond x = true -> x = r) ->
  tables.First_referral cond l = Ok r.
Proof.
  induction l as [| a l IH]; simpl; [contradiction |].
  intros I C Only. destruct (cond a) eqn:Ca.
  - assert (a = r) by (apply Only; [left; reflexivity | exact Ca]). subst a.
    destruct (tables.First_referral cond l) as [r' |] eqn:F; [| reflexivity].
    apply First_referral_ok in F. destruct F as [I' C'].
    assert (r' = r) by (apply Only; [right; exact I' | exact C']). subst r'.
    rewrite N.ltb_irrefl. reflexivity.
  - destruct I as [-> | I]; [congruence |].
    apply IH; [exact I | exact C |].
    intros x Ix Cx. apply Only; [right; exact Ix | exact Cx].
Qed.

Lemma toReferralDomain_toReferralModel (r : Referral.t) :
  toReferralDomain (toReferralModel r) = r.
Proof. destruct r. reflexivity. Qed.

(** X27: Update of a referral writes every column.  For a referral that is
    stored, under keys in order, an Update of an aggregate with the same id
    (not the zero id) and the same referee, whose row fits the columns,
    succeeds; it puts the row of the aggregate in the place of the stored
    row, zero values included, and leaves every other row and the codes as
    they are; FindByRefereeID then returns the aggregate as it was written.
    So a credit that CreditReferrer or CreditReferee sets is stored, and one
    that an aggregate does not carry is cleared. *)
Theorem Update_referral_writes_every_column :
  forall (db : ReferralDB) (ref : Referral.t) (old : ReferralModel.t)
         (st : ReferralStore),
    referral_keys_ok st = true ->
    In old (referrals st) ->
    ReferralModel.ID old = Referral.ID ref ->
    ReferralModel.RefereeID old = Referral.RefereeID ref ->
    Referral.ID ref <> 0%N ->
    referrals_columns db (toReferralModel ref) = true ->
    let st' := mkReferralStore
                 (map (fun x => if N.eqb (ReferralModel.ID x) (Referral.ID ref)
                                then toReferralModel ref else x)
                    (referrals st))
                 (user_referral_codes st) in
    GormReferralRepository.Update db ref st = (Ok tt, st')
    /\ GormReferralRepository.FindByRefereeID db (Referral.RefereeID ref) st'
       = (Ok ref, st')
    /\ (forall x, In x (referrals st) -> x <> old -> In x (referrals st'))
    /\ List.length (referrals st') = List.length (referrals st).
Proof.
  intros db ref old st K I Ei Er Nz C st'.
  unfold referral_keys_ok in K. rewrite !andb_true_iff in K.
  destruct K as [[[[K1 K2] _] _] _].
  apply (distinct_NoDup _ N.eqb_spec) in K1, K2.
  assert (Same : map ReferralModel.RefereeID (referrals st')
                 = map ReferralModel.RefereeID (referrals st)).
  { unfold st'. cbn [referrals]. rewrite map_map. apply map_ext_in.
    intros x Ix.
    destruct (N.eqb_spec (ReferralModel.ID x) (Referral.ID ref)) as [E |];
      [| reflexivity].
    assert (x = old)
      by (apply (@NoDup_key_inj _ _ ReferralModel.ID (referrals st));
          solve [assumption | congruence]).
    subst x. simpl. congruence. }
  split; [| split; [| split]].
  - unfold GormReferralRepository.Update, tables.Save_referrals.
    change (ReferralModel.ID (toReferralModel ref)) with (Referral.ID ref).
    apply N.eqb_neq in Nz. rewrite Nz.
    assert (Hit : existsb (fun r => N.eqb (ReferralModel.ID r) (Referral.ID ref))
                    (referrals st) = true).
    { apply existsb_exists. exists old. split; [exact I |].
      apply N.eqb_eq. exact Ei. }
    rewrite Hit, C. cbn [negb].
    change (map (fun r => if N.eqb (ReferralModel.ID r) (Referral.ID ref)
                          then toReferralModel ref else r) (referrals st))
      with (referrals st').
    rewrite Same.
    apply (distinct_NoDup _ N.eqb_spec) in K2. rewrite K2. reflexivity.
  - unfold GormReferralRepository.FindByRefereeID.
    rewrite (@First_referral_only _ (referrals st') (toReferralModel ref)).
    + rewrite toReferralDomain_toReferralModel. reflexivity.
    + unfold st'. cbn [referrals]. apply in_map_iff. exists old.
      split; [| exact I]. apply N.eqb_eq in Ei. rewrite Ei. reflexivity.
    + simpl. apply N.eqb_refl.
    + intros x Ix Cx. apply N.eqb_eq in Cx.
      unfold st' in Ix. cbn [referrals] in Ix. apply in_map_iff in Ix.
      destruct Ix as [y [Ey Iy]].
      destruct (N.eqb_spec (ReferralModel.ID y) (Referral.ID ref))
        as [E | NE]; [symmetry; exact Ey |].
      subst y. exfalso. apply NE.
      assert (x = old)
        by (apply (@NoDup_key_inj _ _ ReferralModel.RefereeID (referrals st));
            solve [assumption | congruence]).
      subst x. exact Ei.
  - intros x Ix Nx. unfold st'. cbn [referrals]. apply in_map_iff. exists x.
    split; [| exact Ix].
    destruct (N.eqb_spec (ReferralModel.ID x) (Referral.ID ref)) as [E |];
      [| reflexivity].
    exfalso. apply Nx.
    apply (@NoDup_key_inj _ _ ReferralModel.ID (referrals st));
          solve [assumption | congruence].
  - unfold st'. cbn [referrals]. apply length_map.
Qed.

(** An instance: the referral of user 2 is written back with the referrer
    credited. *)
Lemma Update_referral_writes_every_column_witness :
  let old := ReferralModel.mk 11 1 2 "REF-0a1b2c3d" 500 false false 7000 in
  let ref := Referral.CreditReferrer (toReferralDomain old) in
  let st' := mkReferralStore
               [ReferralModel.mk 11 1 2 "REF-0a1b2c3d" 500 true false 7000;
                ReferralModel.mk 12 1 3 "REF-0a1b2c3d" 500 false false 9000]
               (user_referral_codes referral_deployment.store1) in
  GormReferralRepository.Update referral_deployment.db ref
    referral_deployment.store1 = (Ok tt, st')
  /\ GormReferralRepository.FindByRefereeID referral_deployment.db 2 st'
     = (Ok ref, st')
  /\ (forall x, In x (referrals referral_deployment.store1) -> x <> old ->
                In x (referrals st'))
  /\ List.length (referrals st')
     = List.length (referrals referral_deployment.store1).
Proof.
  intros old ref st'.
  apply (@Update_referral_writes_every_column referral_deployment.db ref old
           referral_deployment.store1); try reflexivity.
  - left. reflexivity.
  - discriminate.
Defined.

(* ------------------------------------------------------------------ *)
(** ** The admin read paths *)

















(** A run: the statistics of a store of three users. *)
Example GetUserStats_runs :
  admin.GetUserStats (admin.NewGormUserListing deployment.db)
    (mkStore
       [deployment.rowA;
        UserModel.mk 2 "b@x.com" "" "h" "Bob" "runner" false "" 1 2000 2000;
        UserModel.mk 3 "c@x.com" "" "h" "Cy" "owner" false "" 1 3000 3000]
       [])
  = (Ok (admin.mkUserStatsDTO 3 [("runner", 1); ("owner", 2)]),
     mkStore
       [deployment.rowA;
        UserModel.mk 2 "b@x.com" "" "h" "Bob" "runner" false "" 1 2000 2000;
        UserModel.mk 3 "c@x.com" "" "h" "Cy" "owner" false "" 1 3000 3000]
       []).
Proof. reflexivity. Qed.

Lemma view_assign_ban (db : DB) (env : Env) (r : UserModel.t) :
  view (gorm.assign (NowFunc db) (fromDomainUser (ban_written env r)) r) = view r.
Proof.
  destruct r as [i e p h f ro v a ver c d].
  unfold view, toUserDTO, ban_written. cbn. rewrite !if_same. reflexivity.
Qed.

Lemma fence_keeps_ID (db : DB) (u : User.t) (x : UserModel.t) :
  UserModel.ID
    (if fence u x then gorm.assign (NowFunc db) (fromDomainUser u) x else x)
  = UserModel.ID x.
Proof.
  destruct (fence u x) eqn:F; [| reflexivity].
  apply assign_keeps_ID. unfold fence in F. apply andb_true_iff in F.
  destruct F as [F _]. apply N.eqb_eq in F. exact F.
Qed.

(** X30: a ban does not show in the admin's view of the user.  GetUserByID
    reads as GetProfile does; and when BanUser has succeeded, GetUserByID
    returns for the banned user exactly the view it returned before the
    ban: the view carries neither the version nor the time of the update,
    and the verified flag is stored as it was. *)
Theorem BanUser_does_not_show_in_GetUserByID :
  forall (db : DB) (signer : JWTManager) (env : Env) (userID : UUID)
         (st st' : Store),
    let s := gormService db signer in
    BanUser s env userID st = (Ok tt, st') ->
    exists dto,
      admin.GetUserByID s userID st = (Ok dto, st)
      /\ admin.GetUserByID s userID st' = (Ok dto, st')
      /\ GetProfile s userID st' = (Ok dto, st').
Proof.
  intros db signer env userID st st' s H. apply BanUser_inv in H.
  destruct H as [[e [E _]] | [_ [r [F ->]]]]; [discriminate |].
  exists (view r).
  assert (After : forall tk,
             admin.GetUserByID s userID
               (mkStore
                  (map (fun x => if fence (ban_written env r) x
                                 then gorm.assign (NowFunc db)
                                        (fromDomainUser (ban_written env r)) x
                                 else x) (users st)) tk)
             = (Ok (view r),
                mkStore
                  (map (fun x => if fence (ban_written env r) x
                                 then gorm.assign (NowFunc db)
                                        (fromDomainUser (ban_written env r)) x
                                 else x) (users st)) tk)).
  { intros tk. unfold admin.GetUserByID, bind_or, ret, s, gormService.
    cbn [userRepo NewGormUserRepository UserRepository_FindByID].
    unfold GormUserRepository.FindByID, gorm.First. cbn [users].
    rewrite find_map_key
      by (intros x; rewrite fence_keeps_ID; reflexivity).
    rewrite F. cbn [option_map]. do 2 f_equal.
    fold (view (if fence (ban_written env r) r
                then gorm.assign (NowFunc db) (fromDomainUser (ban_written env r)) r
                else r)).
    destruct (fence (ban_written env r) r);
      [apply view_assign_ban | reflexivity]. }
  split; [| split; [apply After | apply After]].
  unfold admin.GetUserByID, bind_or, ret, s, gormService.
  cbn [userRepo NewGormUserRepository UserRepository_FindByID].
  unfold GormUserRepository.FindByID, gorm.First. rewrite F. reflexivity.
Qed.

(** An instance: user A, verified, is banned. *)
Lemma BanUser_does_not_show_in_GetUserByID_witness :
  let s := gormService deployment.db deployment.signer in
  let out := BanUser s (deployment.at_ 20000 50) 1 deployment.storeA_verified in
  fst out = Ok tt
  /\ map UserModel.Version (users (snd out)) = [2]
  /\ exists dto,
       admin.GetUserByID s 1 deployment.storeA_verified
       = (Ok dto, deployment.storeA_verified)
       /\ admin.GetUserByID s 1 (snd out) = (Ok dto, snd out)
       /\ GetProfile s 1 (snd out) = (Ok dto, snd out).
Proof.
  intros s out. split; [reflexivity |]. split; [reflexivity |].
  apply (@BanUser_does_not_show_in_GetUserByID deployment.db
           deployment.signer (deployment.at_ 20000 50) 1%N
           deployment.storeA_verified (snd out)).
  reflexivity.
Defined.
